(** * Store monitoring service: uptime and downtime inside business hours

    A shallow embedding of [app/core/time_utils.py], [app/core/uptime.py]
    and the orchestration loop of [app/core/report_generator.py], followed
    by the properties the specification states about them.

    Conventions of the embedding.
    - An aware UTC [datetime] is its number of microseconds since the epoch
      (type [instant]); a [timedelta] is a number of microseconds.
    - A [date] is a day number (days since 1970-01-01) and a [time] is a
      number of microseconds since midnight.
    - The zone database of [pytz] is not part of the repository: it is a
      pair of parameters, the partial map [pytz_timezone] from zone names
      to the two offset functions the code uses, and the list
      [all_timezones] of [pytz.all_timezones].
    - The arithmetic of Python's [float] is a parameter of the code that
      computes with seconds ([Py.float_ops]).  [Py.binary64] is the
      arithmetic of CPython: IEEE 754 doubles, round to nearest, ties to
      even.  [Py.exact] is the arithmetic of the rationals, in which no
      operation rounds; a property stated for [Py.exact] says what the
      algorithm computes apart from rounding.
    - A database query that returns rows in an order the database is free
      to choose ([DISTINCT]) is a parameter as well.
    - A raised exception is [None] (or [Raised]) in the result. *)

From Stdlib Require Import ZArith QArith Qround Qabs Lia Lqa String List.
From Stdlib Require Import Sorting.Sorted Sorting.Permutation.
From Stdlib Require SpecFloat.
From stdpp Require Import base option list gmap strings.
Import ListNotations.

Open Scope Z_scope.

(* ===================================================================== *)
(** * Python built-ins used by the code *)
(* ===================================================================== *)

Module Py.

(** [sorted(l, key=...)]: a stable sort.  [leb x y] compares the keys of
    [x] and [y]; an element is placed before the first element of the
    sorted tail whose key is not smaller, so that equal keys keep the
    order of the input. *)
Fixpoint insert_sorted {A} (leb : A → A → bool) (x : A) (l : list A) : list A :=
  match l with
  | [] => [x]
  | y :: l' => if leb x y then x :: l else y :: insert_sorted leb x l'
  end.

Definition sorted {A} (leb : A → A → bool) (l : list A) : list A :=
  foldr (insert_sorted leb) [] l.

(** The result of a call that may raise. *)
Inductive outcome (A : Type) : Type :=
| Returned (a : A)
| Raised (msg : string).
Arguments Returned {A} a.
Arguments Raised {A} msg.

(** The operations on [float] the code uses: the conversion of an [int]
    ([up_s / 60] converts [60]; [0.0] is [float_of_int 0]), the true
    division [n / m] of two [int]s (inside [timedelta.total_seconds()]),
    [x + y], [x / y], [int(x)] (which raises on an infinity and on a NaN)
    and [round(x, 2)]. *)
Record float_ops : Type := {
  float : Type;
  float_of_int : Z → float;
  int_truediv : Z → Z → float;
  float_add : float → float → float;
  float_truediv : float → float → float;
  float_int : float → option Z;
  float_round2 : float → float
}.

(** ** Exact arithmetic: a [float] is a rational and nothing is rounded
    but by [int] and [round]. *)
Module Exact.

(** [int(x)]: truncation toward zero. *)
Definition int (x : Q) : Z := Z.quot (Qnum x) (Z.pos (Qden x)).

(** Rounding of a rational to the nearest integer, ties to even. *)
Definition round_half_even (x : Q) : Z :=
  let f := Qfloor x in
  let r := (x - inject_Z f)%Q in
  match (r ?= 1 # 2)%Q with
  | Lt => f
  | Gt => f + 1
  | Eq => if Z.even f then f else f + 1
  end.

(** [round(x, 2)]. *)
Definition round2 (x : Q) : Q := round_half_even (x * 100) # 100.

End Exact.

Definition exact : float_ops :=
  {| float := Q;
     float_of_int := inject_Z;
     int_truediv := λ n m, (inject_Z n / inject_Z m)%Q;
     float_add := Qplus;
     float_truediv := Qdiv;
     float_int := λ x, Some (Exact.int x);
     float_round2 := Exact.round2 |}.

(** ** IEEE 754 binary64, as CPython has it.  A double is a [spec_float]
    of the standard library; every operation gives the double nearest to
    the exact result, ties to even. *)
Module Binary64.
Import SpecFloat.

Definition prec : Z := 53.
Definition emax : Z := 1024.

(** [float(n)]: the double nearest to the integer [n]. *)
Definition of_int (n : Z) : spec_float := binary_normalize prec emax n 0 false.

(** An integer as an operand of a division, not rounded yet. *)
Definition operand (n : Z) : spec_float :=
  match n with
  | 0 => S754_zero false
  | Z.pos p => S754_finite false p 0
  | Z.neg p => S754_finite true p 0
  end.

(** [n / m] on [int]s: the double nearest to the quotient. *)
Definition int_truediv (n m : Z) : spec_float := SFdiv prec emax (operand n) (operand m).

Definition add (x y : spec_float) : spec_float := SFadd prec emax x y.
Definition truediv (x y : spec_float) : spec_float := SFdiv prec emax x y.

(** The rational a finite double stands for. *)
Definition value (x : spec_float) : Q :=
  match x with
  | S754_finite s m e =>
      match e with
      | Z.neg p => cond_Zopp s (Z.pos m) # 2 ^ p
      | _ => inject_Z (cond_Zopp s (Z.pos m) * 2 ^ e)
      end
  | _ => 0%Q
  end.

(** [int(x)]: truncation toward zero; [OverflowError] on an infinity and
    [ValueError] on a NaN. *)
Definition int (x : spec_float) : option Z :=
  match x with
  | S754_zero _ => Some 0
  | S754_finite s m e =>
      Some (cond_Zopp s (match e with
                         | Z.neg p => Z.pos m / Z.pos (2 ^ p)
                         | _ => Z.pos m * 2 ^ e
                         end))
  | _ => None
  end.

(** [round(x, 2)]: the value of the double is rounded to two decimal
    places (ties to even, which only a double that lies exactly half way
    meets), and the result is the double nearest to that decimal number;
    a zero keeps the sign of [x], and infinities and NaN are returned as
    they are. *)
Definition round2 (x : spec_float) : spec_float :=
  match x with
  | S754_finite s _ _ =>
      let n := Exact.round_half_even (value x * 100) in
      if n =? 0 then S754_zero s else int_truediv n 100
  | _ => x
  end.

(** The sign bit is clear and the double is not a NaN. *)
Definition nonneg (x : spec_float) : bool :=
  match x with
  | S754_zero false | S754_finite false _ _ | S754_infinity false => true
  | _ => false
  end.

(** The double is a zero or a finite number. *)
Definition finite (x : spec_float) : bool :=
  match x with
  | S754_zero _ | S754_finite _ _ _ => true
  | _ => false
  end.

End Binary64.

Definition binary64 : float_ops :=
  {| float := SpecFloat.spec_float;
     float_of_int := Binary64.of_int;
     int_truediv := Binary64.int_truediv;
     float_add := Binary64.add;
     float_truediv := Binary64.truediv;
     float_int := Binary64.int;
     float_round2 := Binary64.round2 |}.

End Py.

(* ===================================================================== *)
(** * datetime, date, time, tzinfo *)
(* ===================================================================== *)

Module DateTime.

Definition US_PER_SECOND : Z := 1000000.
Definition US_PER_HOUR : Z := 3600 * US_PER_SECOND.
Definition US_PER_DAY : Z := 86400 * US_PER_SECOND.

(** An aware datetime in UTC, and a timedelta, in microseconds. *)
Abbreviation instant := Z.
Abbreviation timedelta := Z.

(** [datetime.date] as a day number and [datetime.time] as microseconds
    since midnight ([0 <= t < US_PER_DAY]). *)
Abbreviation date := Z.
Abbreviation time := Z.

(** [datetime.time(h, m)]. *)
Definition time_hm (h m : Z) : time := (h * 3600 + m * 60) * US_PER_SECOND.

(** A [datetime] as the callers may pass it: naive (no tzinfo), or aware
    with the wall clock and the UTC offset of its zone, both in
    microseconds. *)
Inductive datetime : Type :=
| Naive (wall : Z)
| Aware (wall : Z) (utcoffset : Z).

(** An aware UTC datetime seen as a [datetime]. *)
Definition aware_utc (u : instant) : datetime := Aware u 0.

(** [timedelta.total_seconds()]: the number of microseconds divided by
    [10**6], a true division of two [int]s. *)
Definition total_seconds (F : Py.float_ops) (td : timedelta) : Py.float F :=
  Py.int_truediv F td 1000000.

(** [date.weekday()]: Monday is 0; 1970-01-01 was a Thursday. *)
Definition weekday (d : date) : Z := (d + 3) mod 7.

(** [datetime.combine(d, t)]: a naive wall clock. *)
Definition combine (d : date) (t : time) : Z := d * US_PER_DAY + t.

(** [dt.date()] of a wall clock. *)
Definition date_of (wall : Z) : date := wall / US_PER_DAY.

(** What the code uses of a pytz zone: the offset [tz.localize] gives to
    a naive local wall clock, and the offset in force at a UTC instant
    (used by [astimezone(tz)]). *)
Record tzinfo : Type := {
  localize_offset : Z → Z;
  fromutc_offset : instant → Z
}.

(** [tz.localize(naive)]. *)
Definition localize (tz : tzinfo) (wall : Z) : datetime :=
  Aware wall (localize_offset tz wall).

(** A zone with a constant offset (in microseconds). *)
Definition fixed_offset (off : Z) : tzinfo :=
  {| localize_offset := λ _, off; fromutc_offset := λ _, off |}.

End DateTime.

(* ===================================================================== *)
(** * app/models.py *)
(* ===================================================================== *)

Module StoreStatus.
Record t : Type := {
  store_id : string;
  timestamp_utc : DateTime.datetime;
  status : string
}.
End StoreStatus.

Module BusinessHours.
Record t : Type := {
  store_id : string;
  day_of_week : Z;
  start_time_local : DateTime.time;
  end_time_local : DateTime.time
}.
End BusinessHours.

Module StoreTimezone.
Record t : Type := {
  store_id : string;
  timezone_str : string
}.
End StoreTimezone.

Module Report.
Record t : Type := {
  report_id : string;
  status : string;
  file_path : option string;
  created_at : option DateTime.datetime
}.
End Report.

(** The tables a [Session] reads, each in table order. *)
Record Session : Type := {
  store_status : list StoreStatus.t;
  business_hours : list BusinessHours.t;
  store_timezone : list StoreTimezone.t
}.

(* ===================================================================== *)
(** * app/core/time_utils.py *)
(* ===================================================================== *)

Module TimeUtils.
Import DateTime.

(** A UTC interval [(start, end)] and the business-hours mapping
    [day_of_week -> [(start_local, end_local); ...]]. *)
Definition interval : Type := instant * instant.
Abbreviation bh_map_t := (gmap Z (list (time * time))).

(** [to_aware_utc]: a naive datetime is read as UTC, an aware one is
    converted to UTC. *)
Definition to_aware_utc (dt : datetime) : instant :=
  match dt with
  | Naive wall => wall
  | Aware wall utcoffset => wall - utcoffset
  end.

(** The order of [sorted(intervals, key=lambda x: x[0])]. *)
Definition start_leb (x y : interval) : bool := x.1 <=? y.1.

(** The body of the loop of [merge_utc_intervals], on the list [merged]:
    [merged[-1]] is replaced or the interval is appended.  ([merged] is
    never empty there.) *)
Definition merge_step (merged : list interval) (iv : interval) : list interval :=
  let '(s, e) := iv in
  match last merged with
  | Some (last_s, last_e) =>
      if s <=? last_e then <[pred (length merged) := (last_s, Z.max last_e e)]> merged
      else merged ++ [(s, e)]
  | None => merged ++ [(s, e)]
  end.

Definition merge_utc_intervals (intervals : list interval) : list interval :=
  match Py.sorted start_leb intervals with
  | [] => []
  | first :: rest => foldl merge_step [first] rest
  end.

(** The same loop as a recursion on the intervals still to come: [last] is
    [merged[-1]], and the intervals before it, which the loop no longer
    touches, are emitted. *)
Fixpoint merge_sweep (last : interval) (rest : list interval) : list interval :=
  match rest with
  | [] => [last]
  | (s, e) :: rest' =>
      if s <=? last.2 then merge_sweep (last.1, Z.max last.2 e) rest'
      else last :: merge_sweep (s, e) rest'
  end.

(** The local interval one rule denotes on the date [cur_date], already
    localized: the three branches of the loop body. *)
Definition rule_local (tz : tzinfo) (cur_date : date) (rule : time * time)
  : datetime * datetime :=
  let '(start_t, end_t) := rule in
  if (start_t =? end_t) && (end_t =? time_hm 0 0) then
    (localize tz (combine cur_date (time_hm 0 0)),
     localize tz (combine (cur_date + 1) (time_hm 0 0)))
  else if start_t <=? end_t then
    (localize tz (combine cur_date start_t),
     localize tz (combine cur_date end_t))
  else
    (localize tz (combine cur_date start_t),
     localize tz (combine (cur_date + 1) end_t)).

(** The same interval converted to UTC ([astimezone(UTC)]). *)
Definition rule_utc (tz : tzinfo) (cur_date : date) (rule : time * time) : interval :=
  let '(s_local, e_local) := rule_local tz cur_date rule in
  (to_aware_utc s_local, to_aware_utc e_local).

(** "Only add if it overlaps with our window": what one rule appends to
    [intervals_utc]. *)
Definition clip_to_window (ws we : instant) (iv : interval) : list interval :=
  let '(s_utc, e_utc) := iv in
  if (ws <? e_utc) && (s_utc <? we) then
    let clipped_start := Z.max s_utc ws in
    let clipped_end := Z.min e_utc we in
    if clipped_start <? clipped_end then [(clipped_start, clipped_end)] else []
  else [].

(** The dates the [while cur_date <= end_date] loop visits. *)
Definition scan_dates (start_date end_date : date) : list date :=
  seqZ start_date (end_date - start_date + 1).

(** [intervals_utc] after the two nested loops. *)
Definition expand_dates (tz : tzinfo) (bh_map : bh_map_t) (ws we : instant)
    (dates : list date) : list interval :=
  flat_map (λ cur_date,
    let day_rules := default [] (bh_map !! weekday cur_date) in
    flat_map (λ rule, clip_to_window ws we (rule_utc tz cur_date rule)) day_rules)
    dates.

(** [get_business_hours_map] after the query: group the rows by day, in
    row order. *)
Definition group_business_hours (rows : list BusinessHours.t) : bh_map_t :=
  foldl (λ m r,
           let day := BusinessHours.day_of_week r in
           <[day := default [] (m !! day)
                    ++ [(BusinessHours.start_time_local r, BusinessHours.end_time_local r)]]> m)
        ∅ rows.

Definition get_business_hours_map (session : Session) (store_id : string) : bh_map_t :=
  let rows := filter (λ r, BusinessHours.store_id r = store_id) (business_hours session) in
  match rows with
  | [] => ∅
  | _ => group_business_hours rows
  end.

(** [.scalar()] of the zone query gives the first matching row, if any
    ([store_id] is unique in that table).  The name is kept when it is
    not empty and is one of [all_timezones], the list
    [pytz.all_timezones]; whether [pytz.timezone] resolves it is not
    asked. *)
Definition get_store_timezone_str (all_timezones : list string)
    (session : Session) (store_id : string) : string :=
  match filter (λ r, StoreTimezone.store_id r = store_id) (store_timezone session) with
  | [] => "America/Chicago"
  | r :: _ =>
      let tz := StoreTimezone.timezone_str r in
      if bool_decide (tz = "") || bool_decide (tz ∉ all_timezones)
      then "America/Chicago" else tz
  end.

Section WithZoneDatabase.
(** [pytz.timezone]: [None] stands for [UnknownTimeZoneError]. *)
Variable pytz_timezone : string → option tzinfo.

Definition utc_to_local (utc_dt : datetime) (tz_str : string) : option Z :=
  tz ← pytz_timezone tz_str;
  let u := to_aware_utc utc_dt in
  Some (u + fromutc_offset tz u).

Definition local_to_utc (local_dt : datetime) (tz_str : string) : option instant :=
  tz ← pytz_timezone tz_str;
  Some (match local_dt with
        | Naive wall => to_aware_utc (localize tz wall)
        | Aware _ _ => to_aware_utc local_dt
        end).

Definition expand_business_hours_to_utc (tz_str : string) (bh_map : bh_map_t)
    (window_start_utc window_end_utc : datetime) : option (list interval) :=
  let ws := to_aware_utc window_start_utc in
  let we := to_aware_utc window_end_utc in
  if bool_decide (bh_map = ∅) then Some [(ws, we)]
  else
    tz ← pytz_timezone tz_str;
    local_start ← utc_to_local (aware_utc ws) tz_str;
    local_end ← utc_to_local (aware_utc we) tz_str;
    let start_date := date_of local_start - 1 in
    let end_date := date_of local_end + 1 in
    Some (merge_utc_intervals
            (expand_dates tz bh_map ws we (scan_dates start_date end_date))).
End WithZoneDatabase.

End TimeUtils.

(* ===================================================================== *)
(** * app/core/uptime.py *)
(* ===================================================================== *)

Module Uptime.
Import DateTime TimeUtils.

(** A status segment [(start, end, status)]. *)
Definition segment : Type := instant * instant * string.

(** [to_aware_utc(obs.timestamp_utc)]. *)
Definition obs_time (obs : StoreStatus.t) : instant :=
  to_aware_utc (StoreStatus.timestamp_utc obs).

(** The query of [_status_segments]: the rows of the store with
    [timestamp_utc <= we], ordered by timestamp (rows with equal timestamps
    stay in table order). *)
Definition query_all_obs (session : Session) (store_id : string) (we : instant)
  : list StoreStatus.t :=
  Py.sorted (λ a b, obs_time a <=? obs_time b)
    (filter (λ r, StoreStatus.store_id r = store_id ∧ obs_time r ≤ we)
            (store_status session)).

(** The first loop: its body, on the state [(prev_obs, window_obs)]. *)
Definition split_step (ws we : instant)
    (acc : option StoreStatus.t * list StoreStatus.t) (obs : StoreStatus.t)
  : option StoreStatus.t * list StoreStatus.t :=
  let '(prev_obs, window_obs) := acc in
  if obs_time obs <=? ws then (Some obs, window_obs)
  else if obs_time obs <=? we then (prev_obs, window_obs ++ [obs])
  else (prev_obs, window_obs).

Definition split_obs (ws we : instant) (all_obs : list StoreStatus.t)
  : option StoreStatus.t * list StoreStatus.t :=
  foldl (split_step ws we) (None, []) all_obs.

(** Which branch of "Determine initial status" is taken. *)
Inductive initial_branch : Type :=
| FromPrevObs (prev_obs : StoreStatus.t)
| FromFirstWindowObs (first : StoreStatus.t)
| FromLastObs.

Definition choose_initial (prev_obs : option StoreStatus.t)
    (window_obs : list StoreStatus.t) : initial_branch :=
  match prev_obs, window_obs with
  | Some p, _ => FromPrevObs p
  | None, first :: _ => FromFirstWindowObs first
  | None, [] => FromLastObs
  end.

(** [all_obs[-1].status]; [all_obs] is not empty where this is used. *)
Definition last_status (all_obs : list StoreStatus.t) : string :=
  match last all_obs with
  | Some o => StoreStatus.status o
  | None => ""
  end.

Definition initial_status (all_obs : list StoreStatus.t) (b : initial_branch) : string :=
  match b with
  | FromPrevObs p => StoreStatus.status p
  | FromFirstWindowObs first => StoreStatus.status first
  | FromLastObs => last_status all_obs
  end.

(** The second loop: the state is [(segments, current_time, current_status)]. *)
Definition sweep_step (st : list segment * instant * string) (obs : StoreStatus.t)
  : list segment * instant * string :=
  let '(segments, current_time, current_status) := st in
  if bool_decide (StoreStatus.status obs ≠ current_status) then
    (segments ++ [(current_time, obs_time obs, current_status)],
     obs_time obs, StoreStatus.status obs)
  else st.

(** [_status_segments] after the query. *)
Definition segments_of_obs (all_obs : list StoreStatus.t) (ws we : instant)
  : list segment :=
  match all_obs with
  | [] => [(ws, we, "inactive")]
  | _ =>
      let '(prev_obs, window_obs) := split_obs ws we all_obs in
      let current_status := initial_status all_obs (choose_initial prev_obs window_obs) in
      let '(segments, current_time, current_status) :=
        foldl sweep_step ([], ws, current_status) window_obs in
      if current_time <? we then segments ++ [(current_time, we, current_status)]
      else segments
  end.

Definition _status_segments (session : Session) (store_id : string)
    (window_start_utc window_end_utc : datetime) : list segment :=
  let ws := to_aware_utc window_start_utc in
  let we := to_aware_utc window_end_utc in
  segments_of_obs (query_all_obs session store_id we) ws we.

(** The six fields of the result dictionary; [float] is the type of the
    four fields that are floats. *)
Record MetricsResult (float : Type) : Type := {
  uptime_last_hour : Z;
  downtime_last_hour : Z;
  uptime_last_day : float;
  downtime_last_day : float;
  uptime_last_week : float;
  downtime_last_week : float
}.
Arguments Build_MetricsResult {float} _ _ _ _ _ _.
Arguments uptime_last_hour {float} _.
Arguments downtime_last_hour {float} _.
Arguments uptime_last_day {float} _.
Arguments downtime_last_day {float} _.
Arguments uptime_last_week {float} _.
Arguments downtime_last_week {float} _.

(** The three windows, as lengths before [now_utc]. *)
Definition hour_window : timedelta := US_PER_HOUR.
Definition day_window : timedelta := US_PER_DAY.
Definition week_window : timedelta := 7 * US_PER_DAY.

Section WithFloat.
(** The arithmetic of [float]. *)
Variable F : Py.float_ops.

(** [_accumulate_overlaps]: the body of the inner loop, then the two
    loops. *)
Definition overlap_step (seg : segment) (acc : Py.float F * Py.float F)
    (bh : interval) : Py.float F * Py.float F :=
  let '(seg_s, seg_e, state) := seg in
  let '(bh_s, bh_e) := bh in
  let '(up, down) := acc in
  let s := Z.max seg_s bh_s in
  let e := Z.min seg_e bh_e in
  if s >=? e then acc
  else
    let dur := total_seconds F (e - s) in
    if bool_decide (state = "active") then (Py.float_add F up dur, down)
    else (up, Py.float_add F down dur).

Definition _accumulate_overlaps (status_segments : list segment)
    (bh_intervals_utc : list interval) : Py.float F * Py.float F :=
  foldl (λ acc seg, foldl (overlap_step seg) acc bh_intervals_utc)
        (Py.float_of_int F 0, Py.float_of_int F 0) status_segments.

(** [x / 60] and [round(x / 3600.0, 2)]. *)
Definition in_minutes (seconds : Py.float F) : option Z :=
  Py.float_int F (Py.float_truediv F seconds (Py.float_of_int F 60)).

Definition in_hours (seconds : Py.float F) : Py.float F :=
  Py.float_round2 F (Py.float_truediv F seconds (Py.float_of_int F 3600)).

Section WithZoneDatabase.
Variable pytz_timezone : string → option tzinfo.
Variable all_timezones : list string.

(** One turn of the loop over the windows, up to the unit conversion:
    [(up_s, down_s)] for the window [(ws, we)]. *)
Definition window_seconds (session : Session) (store_id tz_str : string)
    (bh_map : bh_map_t) (ws we : instant) : option (Py.float F * Py.float F) :=
  bh_intervals_utc ←
    expand_business_hours_to_utc pytz_timezone tz_str bh_map (aware_utc ws) (aware_utc we);
  Some (match bh_intervals_utc with
        | [] => (Py.float_of_int F 0, Py.float_of_int F 0)
        | _ => _accumulate_overlaps
                 (_status_segments session store_id (aware_utc ws) (aware_utc we))
                 bh_intervals_utc
        end).

(** The loop over the three windows, in the order of the dictionary
    [windows]; an exception of the expander or of [int] ends the call. *)
Definition metrics_for_store (session : Session) (store_id : string)
    (now_utc : datetime) : option (MetricsResult (Py.float F)) :=
  let now_utc := to_aware_utc now_utc in
  let tz_str := get_store_timezone_str all_timezones session store_id in
  let bh_map := get_business_hours_map session store_id in
  let window w := window_seconds session store_id tz_str bh_map (now_utc - w) now_utc in
  '(up_h, down_h) ← window hour_window;
  up_minutes ← in_minutes up_h;
  down_minutes ← in_minutes down_h;
  '(up_d, down_d) ← window day_window;
  '(up_w, down_w) ← window week_window;
  Some {| uptime_last_hour := up_minutes;
          downtime_last_hour := down_minutes;
          uptime_last_day := in_hours up_d;
          downtime_last_day := in_hours down_d;
          uptime_last_week := in_hours up_w;
          downtime_last_week := in_hours down_w |}.
End WithZoneDatabase.
End WithFloat.

(** [func.max(StoreStatus.timestamp_utc)]: [None] on an empty table. *)
Definition max_timestamp (rows : list StoreStatus.t) : option instant :=
  foldr (λ r acc, Some (match acc with
                        | None => obs_time r
                        | Some m => Z.max (obs_time r) m
                        end)) None rows.

(** [get_dataset_now]: the largest timestamp of the table.  On an empty
    table the code evaluates [timezone.utc], where [timezone] is the
    function imported from [pytz], which has no such attribute: the call
    raises ([None]). *)
Definition get_dataset_now (session : Session) : option instant :=
  max_timestamp (store_status session).

End Uptime.

(* ===================================================================== *)
(** * app/core/report_generator.py *)
(* ===================================================================== *)

Module ReportGenerator.
Import DateTime TimeUtils Uptime Py.

(** [db.query(StoreStatus.store_id).distinct().all()]: the store ids of
    the table, as the database's [DISTINCT] returns them.  The database
    chooses the order, so [distinct] is a parameter. *)
Definition list_store_ids (distinct : list string → list string) (session : Session)
  : list string :=
  distinct (StoreStatus.store_id <$> store_status session).

(** One row of the report: the store id and its six metrics. *)
Record row (float : Type) : Type := {
  row_store_id : string;
  row_metrics : MetricsResult float
}.
Arguments Build_row {float} _ _.
Arguments row_store_id {float} _.
Arguments row_metrics {float} _.

(** What the batch leaves behind: the rows handed to the CSV writer and
    the list [failed_stores]. *)
Record report (float : Type) : Type := {
  results : list (row float);
  failed_stores : list string
}.
Arguments Build_report {float} _ _.
Arguments results {float} _.
Arguments failed_stores {float} _.

Section Batch.
Context {float : Type}.

(** The body of the [for future in as_completed(...)] loop: the
    [try]/[except Exception] around [future.result()]. *)
Definition collect_step (task : string → outcome (MetricsResult float))
    (acc : list (row float) * list string) (store_id : string)
  : list (row float) * list string :=
  let '(results, failed_stores) := acc in
  match task store_id with
  | Returned metrics =>
      (results ++ [{| row_store_id := store_id; row_metrics := metrics |}], failed_stores)
  | Raised _ => (results, failed_stores ++ [store_id])
  end.

(** [results.sort(key=lambda x: x["store_id"])]. *)
Definition sort_results (results : list (row float)) : list (row float) :=
  Py.sorted (λ a b, String.leb (row_store_id a) (row_store_id b)) results.

(** The parallel part of [generate_report_optimized], for the store ids
    [store_ids] the listing query returned.  [as_completed] gives the
    submitted tasks in the order in which they finish; [task] is the
    result of the future of a store. *)
Definition run_batch (task : string → outcome (MetricsResult float))
    (as_completed : list string → list string) (store_ids : list string) : report float :=
  let '(results, failed_stores) :=
    foldl (collect_step task) ([], []) (as_completed store_ids) in
  {| results := sort_results results; failed_stores := failed_stores |}.
End Batch.

Section WithFloat.
Variable F : Py.float_ops.

Section WithEnvironment.
Variable pytz_timezone : string → option tzinfo.
Variable all_timezones : list string.
(** [SessionLocal()] inside a worker: the session the task of a store
    gets, or [Raised] when the data layer fails for it. *)
Variable SessionLocal : string → outcome Session.

Definition process_store (store_id : string) (now : datetime)
  : outcome (MetricsResult (Py.float F)) :=
  match SessionLocal store_id with
  | Raised msg => Raised msg
  | Returned db =>
      match metrics_for_store F pytz_timezone all_timezones db store_id now with
      | Some metrics => Returned metrics
      | None => Raised "metrics_for_store"
      end
  end.

(** [generate_report_optimized]: [listing] is the outcome of the query
    for the distinct store ids; a failure there is the only one that
    reaches the outer [except] and fails the report. *)
Definition generate_report_optimized (listing : outcome (list string))
    (now : datetime) (as_completed : list string → list string)
  : outcome (report (Py.float F)) :=
  match listing with
  | Raised msg => Raised msg
  | Returned store_ids =>
      Returned (run_batch (λ store_id, process_store store_id now) as_completed store_ids)
  end.
End WithEnvironment.

Section Sequential.
Variable pytz_timezone : string → option tzinfo.
Variable all_timezones : list string.
Variable distinct : list string → list string.

(** The body of the loop of [generate_report]: one session [db] serves all
    stores, and a store whose computation raises is skipped. *)
Definition report_step (db : Session) (now : datetime)
    (results : list (row (Py.float F))) (store_id : string) : list (row (Py.float F)) :=
  match metrics_for_store F pytz_timezone all_timezones db store_id now with
  | Some metrics => results ++ [{| row_store_id := store_id; row_metrics := metrics |}]
  | None => results
  end.

(** [generate_report], up to the rows handed to the CSV writer: the store
    ids and [now] are read from [db]; a failure of [get_dataset_now] fails
    the report. *)
Definition generate_report (db : Session) : outcome (list (row (Py.float F))) :=
  let store_ids := list_store_ids distinct db in
  match get_dataset_now db with
  | None => Raised "AttributeError"
  | Some now => Returned (foldl (report_step db (aware_utc now)) [] store_ids)
  end.

(** [generate_report_optimized] with the store ids and [now] read from
    [db], as the code does before it starts the workers. *)
Definition generate_report_optimized_from (db : Session)
    (SessionLocal : string → outcome Session)
    (as_completed : list string → list string) : outcome (report (Py.float F)) :=
  match get_dataset_now db with
  | None => Raised "AttributeError"
  | Some now =>
      generate_report_optimized pytz_timezone all_timezones SessionLocal
        (Returned (list_store_ids distinct db)) (aware_utc now) as_completed
  end.
End Sequential.
End WithFloat.

(** "Update report status": the first report with this id is changed, as
    [.first()] followed by a commit does. *)
Fixpoint update_report (report_id : string) (f : Report.t → Report.t)
    (reports : list Report.t) : list Report.t :=
  match reports with
  | [] => []
  | r :: rest =>
      if bool_decide (Report.report_id r = report_id) then f r :: rest
      else r :: update_report report_id f rest
  end.

(** The end of a successful run, and the [except] branch of a failed one. *)
Definition mark_complete (reports : list Report.t) (report_id file_path : string)
  : list Report.t :=
  update_report report_id
    (λ r, {| Report.report_id := Report.report_id r;
             Report.status := "Complete";
             Report.file_path := Some file_path;
             Report.created_at := Report.created_at r |}) reports.

Definition mark_failed (reports : list Report.t) (report_id msg : string)
  : list Report.t :=
  update_report report_id
    (λ r, {| Report.report_id := Report.report_id r;
             Report.status := "Failed: " ++ msg;
             Report.file_path := Report.file_path r;
             Report.created_at := Report.created_at r |}) reports.

(** The dictionary [get_report_status] returns; [created_at] stands for
    its [isoformat()]. *)
Inductive status_reply : Type :=
| NotFound
| Status (status : string) (created_at : option datetime) (file_path : option string).

Definition get_report_status (reports : list Report.t) (report_id : string) : status_reply :=
  match filter (λ r, Report.report_id r = report_id) reports with
  | [] => NotFound
  | report :: _ =>
      Status (Report.status report) (Report.created_at report)
        (if bool_decide (Report.status report = "Complete")
         then Report.file_path report else None)
  end.

End ReportGenerator.

(* ===================================================================== *)
(** * Vocabulary of the specification *)
(* ===================================================================== *)

Module Spec.
Import DateTime TimeUtils Uptime.

(** A normalized interval list: sorted ascending by start, every interval
    with [start < end], and every start strictly after the end of the
    interval before it. *)
Definition normalized (l : list interval) : Prop :=
  Sorted (λ a b : interval, a.1 ≤ b.1) l
  ∧ Forall (λ iv : interval, iv.1 < iv.2) l
  ∧ Sorted (λ a b : interval, a.2 < b.1) l.

(** All intervals lie inside the window. *)
Definition within (ws we : instant) (l : list interval) : Prop :=
  Forall (λ iv : interval, ws ≤ iv.1 ∧ iv.2 ≤ we) l.

(** Sum of the lengths of the intervals, in microseconds and in seconds. *)
Definition total_duration (l : list interval) : timedelta :=
  foldr (λ iv acc, (iv.2 - iv.1) + acc) 0 l.

(** The exact number of seconds of a timedelta. *)
Definition seconds (td : timedelta) : Q := td # 1000000.

(** [chain_by R a segs b]: the segments are laid end to end from [a] to
    [b], and [R start end] holds of each. *)
Fixpoint chain_by (R : Z → Z → Prop) (a : instant) (segs : list segment)
    (b : instant) : Prop :=
  match segs with
  | [] => a = b
  | (s, e, _) :: rest => s = a ∧ R s e ∧ chain_by R e rest b
  end.

(** The part of a segment inside a business-hours interval, in
    microseconds, and its sum over all pairs. *)
Definition overlap_us (seg : segment) (bh : interval) : timedelta :=
  Z.max 0 (Z.min seg.1.2 bh.2 - Z.max seg.1.1 bh.1).

Definition overlap_total (segs : list segment) (bhs : list interval) : timedelta :=
  foldr (λ seg acc, foldr (λ bh acc', overlap_us seg bh + acc') 0 bhs + acc) 0 segs.

(** The durations [_accumulate_overlaps] adds to [up] or to [down], each
    with the status of its segment, in the order of the two loops: the
    overlaps that are not empty. *)
Definition overlap_pieces (segs : list segment) (bhs : list interval)
  : list (string * timedelta) :=
  flat_map (λ seg : segment,
    flat_map (λ bh : interval,
      let s := Z.max seg.1.1 bh.1 in
      let e := Z.min seg.1.2 bh.2 in
      if s >=? e then [] else [(seg.2, e - s)]) bhs) segs.

(** [up += dur] or [down += dur] for one of these durations. *)
Definition charge (F : Py.float_ops) (acc : Py.float F * Py.float F)
    (piece : string * timedelta) : Py.float F * Py.float F :=
  if bool_decide (piece.1 = "active")
  then (Py.float_add F acc.1 (total_seconds F piece.2), acc.2)
  else (acc.1, Py.float_add F acc.2 (total_seconds F piece.2)).

(** The time these durations add up to, as a timedelta. *)
Definition charged (pieces : list (string * timedelta)) : timedelta :=
  foldr (λ piece acc, piece.2 + acc) 0 pieces.

(** The lengths of the intervals in seconds, added up as floats from
    [0.0] in list order. *)
Definition sum_of_durations (F : Py.float_ops) (bhs : list interval) : Py.float F :=
  foldl (λ acc bh, Py.float_add F acc (total_seconds F (bh.2 - bh.1)))
        (Py.float_of_int F 0) bhs.

(** The length of the intervals after clipping them to [[a, b)]. *)
Definition clipped_duration (a b : instant) (bhs : list interval) : timedelta :=
  foldr (λ bh acc, Z.max 0 (Z.min b bh.2 - Z.max a bh.1) + acc) 0 bhs.

Definition seg_start (seg : segment) : instant := seg.1.1.
Definition seg_end (seg : segment) : instant := seg.1.2.
Definition seg_status (seg : segment) : string := seg.2.

(** The segments partition the window: the first starts at [ws], the last
    ends at [we], each ends where the next starts, and each has
    [start < end]. *)
Definition partitions (ws we : instant) (segs : list segment) : Prop :=
  (seg_start <$> head segs) = Some ws
  ∧ (seg_end <$> last segs) = Some we
  ∧ Sorted (λ a b, seg_end a = seg_start b) segs
  ∧ Forall (λ seg, seg_start seg < seg_end seg) segs.

(** Observations in ascending order of timestamp. *)
Definition ascending (all_obs : list StoreStatus.t) : Prop :=
  Sorted (λ a b, obs_time a ≤ obs_time b) all_obs.

(** The same with no two observations at the same instant. *)
Definition strictly_ascending (all_obs : list StoreStatus.t) : Prop :=
  Sorted (λ a b, obs_time a < obs_time b) all_obs.

(** The rows of a report are in ascending order of store id. *)
Definition rows_ascending {float} (rows : list (ReportGenerator.row float)) : Prop :=
  StronglySorted (λ a b, String.leb (ReportGenerator.row_store_id a)
                                    (ReportGenerator.row_store_id b) = true) rows.

(** The row of a store whose task returned, and the id of a store whose
    task raised. *)
Definition row_of {float} (task : string → Py.outcome (MetricsResult float))
    (store_id : string) : option (ReportGenerator.row float) :=
  match task store_id with
  | Py.Returned metrics =>
      Some {| ReportGenerator.row_store_id := store_id;
              ReportGenerator.row_metrics := metrics |}
  | Py.Raised _ => None
  end.

Definition failure_of {float} (task : string → Py.outcome (MetricsResult float))
    (store_id : string) : option string :=
  match task store_id with
  | Py.Returned _ => None
  | Py.Raised _ => Some store_id
  end.

(** The row [generate_report] appends for a store, if its computation
    returns. *)
Definition sequential_row (F : Py.float_ops) (pytz_timezone : string → option tzinfo)
    (all_timezones : list string) (db : Session) (now : datetime) (store_id : string)
  : option (ReportGenerator.row (Py.float F)) :=
  (λ metrics, {| ReportGenerator.row_store_id := store_id;
                 ReportGenerator.row_metrics := metrics |})
  <$> metrics_for_store F pytz_timezone all_timezones db store_id now.

(** What a [DISTINCT] query guarantees: each value of the column once, in
    some order. *)
Definition distinct_query (distinct : list string → list string) : Prop :=
  ∀ l, NoDup (distinct l) ∧ ∀ x, x ∈ distinct l ↔ x ∈ l.

(** [out] is the double [seconds] in whole minutes: [int] of the double
    [seconds / 60], which is the floor of the number that double stands
    for. *)
Definition whole_minutes (seconds : Py.float Py.binary64) (out : Z) : Prop :=
  let q := Py.Binary64.truediv seconds (Py.Binary64.of_int 60) in
  Py.Binary64.int q = Some out ∧ out = Qfloor (Py.Binary64.value q).

(** [out] is the double [seconds] in hours with two decimal places:
    [round(q, 2)] for the double [q = seconds / 3600.0], and, [q] being
    finite, the double nearest to [n / 100] for an integer [n] such that
    [n / 100] is within [1 / 200] of the number [q] stands for. *)
Definition hours_two_decimals (seconds out : Py.float Py.binary64) : Prop :=
  let q := Py.Binary64.truediv seconds (Py.Binary64.of_int 3600) in
  out = Py.Binary64.round2 q
  ∧ (Py.Binary64.finite q = true →
     ∃ n : Z, 0 ≤ n ∧ out = Py.Binary64.int_truediv n 100
              ∧ (Qabs ((n # 100) - Py.Binary64.value q) <= 1 # 200)%Q).

(** The store has no observation with a timestamp at or before [we]. *)
Definition no_observations (session : Session) (store_id : string) (we : instant) : Prop :=
  ∀ r, r ∈ store_status session → StoreStatus.store_id r = store_id → we < obs_time r.

(** The store has no business-hours rule. *)
Definition no_rules (session : Session) (store_id : string) : Prop :=
  ∀ r, r ∈ business_hours session → BusinessHours.store_id r ≠ store_id.


(** The instant [t] lies in one of the intervals. *)
Definition covered (t : instant) (l : list interval) : Prop :=
  ∃ iv : interval, iv ∈ l ∧ iv.1 ≤ t < iv.2.

(** The instant [t] lies in the interval some rule denotes on one of the
    dates. *)
Definition open_by_rule (tz : tzinfo) (bh_map : gmap Z (list (Z * Z)))
    (dates : list date) (t : instant) : Prop :=
  ∃ d rule, d ∈ dates ∧ rule ∈ default [] (bh_map !! weekday d)
            ∧ (rule_utc tz d rule).1 ≤ t < (rule_utc tz d rule).2.

(** The dates the expander scans for the window [[ws, we)]: the local
    dates of the two bounds and one day on each side. *)
Definition scanned_dates (tz : tzinfo) (ws we : instant) : list date :=
  scan_dates (date_of (ws + fromutc_offset tz ws) - 1)
             (date_of (we + fromutc_offset tz we) + 1).

(** No rule reaches across the bounds of [[a, b)]: no rule is open at the
    instant before [a], unless [a] is the start of the window, and none
    is open at [b], unless [b] is the end of the window. *)
Definition isolated (tz : tzinfo) (bh_map : gmap Z (list (Z * Z)))
    (ws we a b : instant) : Prop :=
  (ws < a → ¬ open_by_rule tz bh_map (scanned_dates tz ws we) (a - 1))
  ∧ (b < we → ¬ open_by_rule tz bh_map (scanned_dates tz ws we) b).

(** The rules of a store for one day of the week, in row order. *)
Definition rules_of_day (session : Session) (store_id : string) (day : Z)
  : list (Z * Z) :=
  (λ r, (BusinessHours.start_time_local r, BusinessHours.end_time_local r))
  <$> filter (λ r, BusinessHours.store_id r = store_id ∧ BusinessHours.day_of_week r = day)
        (business_hours session).

(** The segments with status "active", and the others. *)
Definition active_segments (segs : list segment) : list segment :=
  filter (λ seg : segment, seg.2 = "active") segs.

Definition inactive_segments (segs : list segment) : list segment :=
  filter (λ seg : segment, seg.2 ≠ "active") segs.

(** The segments that are not empty. *)
Definition proper_segments (segs : list segment) : list segment :=
  filter (λ seg : segment, seg.1.1 < seg.1.2) segs.

(** The observations of the store at or before [ws], in query order. *)
Definition prior_obs (all_obs : list StoreStatus.t) (ws : instant) : list StoreStatus.t :=
  filter (λ o, obs_time o ≤ ws) all_obs.

End Spec.

(* ===================================================================== *)
(** * Sample data *)
(* ===================================================================== *)

Module Sample.
Import DateTime TimeUtils Uptime.

(** A zone database that knows one zone, at its daylight-saving offset
    of five hours behind UTC. *)
Definition pytz_cdt (name : string) : option tzinfo :=
  if bool_decide (name = "America/Chicago") then Some (fixed_offset (-5 * US_PER_HOUR))
  else None.

(** A database that knows no zone at all. *)
Definition pytz_none (name : string) : option tzinfo := None.

(** A database with two zones, whose lookup does not look at the case of
    the name, and its list of names. *)
Definition pytz_folding (name : string) : option tzinfo :=
  if bool_decide (name = "America/Chicago") then Some (fixed_offset (-5 * US_PER_HOUR))
  else if bool_decide (name = "Asia/Kolkata") || bool_decide (name = "asia/kolkata")
  then Some (fixed_offset (11 * (US_PER_HOUR / 2)))
  else None.

Definition all_timezones : list string := ["America/Chicago"; "Asia/Kolkata"].

(** The aware UTC datetime at [h]:[m] on day number [d]. *)
Definition utc_at (d h m : Z) : datetime := aware_utc (combine d (time_hm h m)).

Definition obs (store_id : string) (ts : datetime) (status : string) : StoreStatus.t :=
  {| StoreStatus.store_id := store_id;
     StoreStatus.timestamp_utc := ts;
     StoreStatus.status := status |}.

Definition hours (store_id : string) (day : Z) (start_t end_t : time) : BusinessHours.t :=
  {| BusinessHours.store_id := store_id;
     BusinessHours.day_of_week := day;
     BusinessHours.start_time_local := start_t;
     BusinessHours.end_time_local := end_t |}.

(** 2025-05-02 (a Friday), 2025-05-05 (a Monday) and 2025-05-06 as day
    numbers. *)
Definition may_2 : date := 20210.
Definition may_5 : date := 20213.
Definition may_6 : date := 20214.

(** A store with an inactive observation the day before, and then an
    active and an inactive observation that carry the same timestamp. *)
Definition session_same_instant : Session :=
  {| store_status := [ obs "s1" (utc_at may_5 12 0) "inactive";
                       obs "s1" (utc_at may_6 11 30) "active";
                       obs "s1" (utc_at may_6 11 30) "inactive" ];
     business_hours := [];
     store_timezone := [] |}.

(** A store with no observation, open on Mondays from 09:00 to 10:00. *)
Definition session_monday_hour : Session :=
  {| store_status := [];
     business_hours := [ hours "s2" 0 (time_hm 9 0) (time_hm 10 0) ];
     store_timezone := [] |}.

(** A store with two observations in the last hour and no rule. *)
Definition session_mixed : Session :=
  {| store_status := [ obs "s3" (utc_at may_6 11 0) "active";
                       obs "s3" (utc_at may_6 11 30) "inactive" ];
     business_hours := [];
     store_timezone := [] |}.

(** Friday 22:00 to 06:00, and Tuesday 00:00 to 00:00. *)
Definition friday_night : gmap Z (list (Z * Z)) :=
  {[ 4 := [(time_hm 22 0, time_hm 6 0)] ]}.
Definition tuesday_all_day : gmap Z (list (Z * Z)) :=
  {[ 1 := [(time_hm 0 0, time_hm 0 0)] ]}.


(** Intervals in no order, two of them overlapping and two touching. *)
Definition tangled_intervals : list interval := [(30, 40); (0, 10); (5, 20); (20, 25)].

(** Monday 09:00 to 12:00 and Tuesday 13:00 to 18:00. *)
Definition two_days : gmap Z (list (Z * Z)) :=
  {[ 0 := [(time_hm 9 0, time_hm 12 0)]; 1 := [(time_hm 13 0, time_hm 18 0)] ]}.


(** A store that has only ever reported one status. *)
Definition session_always_active : Session :=
  {| store_status := [ obs "s5" (utc_at may_5 12 0) "active";
                       obs "s5" (utc_at may_6 11 30) "active" ];
     business_hours := [];
     store_timezone := [] |}.

(** Three stores with observations, in one table. *)
Definition session_three_stores : Session :=
  {| store_status := [ obs "b" (utc_at may_6 11 0) "active";
                       obs "a" (utc_at may_5 12 0) "inactive";
                       obs "b" (utc_at may_6 11 30) "inactive";
                       obs "c" (utc_at may_6 12 0) "active" ];
     business_hours := [];
     store_timezone := [] |}.

(** A store whose zone is stored in lower case. *)
Definition session_lowercase_zone : Session :=
  {| store_status := [ obs "s7" (utc_at may_5 12 0) "active" ];
     business_hours := [ hours "s7" 0 (time_hm 9 0) (time_hm 12 0) ];
     store_timezone := [ {| StoreTimezone.store_id := "s7";
                            StoreTimezone.timezone_str := "asia/kolkata" |} ] |}.

(** A store that is active, goes inactive 0.3 s after 11:00 on 2025-05-06
    and is active again 0.3 s later. *)
Definition session_rounding : Session :=
  {| store_status :=
       [ obs "s6" (utc_at may_5 12 0) "active";
         obs "s6" (aware_utc (combine may_6 (time_hm 11 0) + 300000)) "inactive";
         obs "s6" (aware_utc (combine may_6 (time_hm 11 0) + 600000)) "active" ];
     business_hours := [];
     store_timezone := [] |}.

(** The same cuts as segments of the hour [[0, 3600 s)], and that hour as
    the one business-hours interval. *)
Definition three_cuts : list segment :=
  [(0, 300000, "active"); (300000, 600000, "inactive"); (600000, 3600000000, "active")].
Definition whole_hour : list interval := [(0, 3600000000)].

(** A table of reports with one running report. *)
Definition one_running_report : list Report.t :=
  [ {| Report.report_id := "r1"; Report.status := "Running";
       Report.file_path := None; Report.created_at := Some (utc_at may_6 12 0) |} ].

(** A data layer that fails for the store "b". *)
Definition sample_SessionLocal (store_id : string) : Py.outcome Session :=
  if bool_decide (store_id = "b") then Py.Raised "OperationalError"
  else Py.Returned session_mixed.

End Sample.

(* ===================================================================== *)
(** * Facts about the built-ins *)
(* ===================================================================== *)

Section SortedFacts.
Context {A : Type} (leb : A → A → bool).

Lemma insert_sorted_Permutation x l :
  Permutation (Py.insert_sorted leb x l) (x :: l).
Proof.
  induction l as [|y l IH]; simpl; [done|].
  destruct (leb x y); [done|].
  rewrite IH. apply perm_swap.
Qed.

Lemma sorted_Permutation l : Permutation (Py.sorted leb l) l.
Proof.
  induction l as [|x l IH]; simpl; [done|].
  change (foldr (Py.insert_sorted leb) [] l) with (Py.sorted leb l).
  by rewrite insert_sorted_Permutation, IH.
Qed.

Lemma sorted_elem_of x l : x ∈ Py.sorted leb l ↔ x ∈ l.
Proof. by rewrite (sorted_Permutation l). Qed.

Lemma sorted_Forall (P : A → Prop) l : Forall P l → Forall P (Py.sorted leb l).
Proof. intros H. by rewrite (sorted_Permutation l). Qed.

Lemma sorted_nil_inv l : Py.sorted leb l = [] → l = [].
Proof.
  intros H. apply Permutation_nil. by rewrite <- H, sorted_Permutation.
Qed.

(** A list whose neighbours are in order is left as it is. *)
Lemma sorted_already l :
  Sorted (λ x y, leb x y = true) l → Py.sorted leb l = l.
Proof.
  induction 1 as [|x l Hs IH Hhd]; simpl; [done|].
  change (foldr (Py.insert_sorted leb) [] l) with (Py.sorted leb l).
  rewrite IH. destruct Hhd as [|y l Hxy]; simpl; [done|]. by rewrite Hxy.
Qed.

Hypothesis leb_total : ∀ x y, leb x y = true ∨ leb y x = true.
Hypothesis leb_trans : ∀ x y z, leb x y = true → leb y z = true → leb x z = true.

Lemma insert_sorted_StronglySorted x l :
  StronglySorted (λ x y, leb x y = true) l →
  StronglySorted (λ x y, leb x y = true) (Py.insert_sorted leb x l).
Proof.
  induction 1 as [|y l Hs IH Hall]; simpl.
  - repeat constructor.
  - destruct (leb x y) eqn:Hxy.
    + constructor; [by constructor|].
      constructor; [done|].
      eapply Forall_impl; [exact Hall|]. intros z Hyz. eauto.
    + constructor; [done|].
      rewrite (insert_sorted_Permutation x l). constructor; [|done].
      destruct (leb_total x y); congruence.
Qed.

Lemma sorted_StronglySorted l :
  StronglySorted (λ x y, leb x y = true) (Py.sorted leb l).
Proof.
  induction l as [|x l IH]; simpl; [constructor|].
  by apply insert_sorted_StronglySorted.
Qed.
End SortedFacts.

(** Two sorted arrangements of the same elements are the same list, when
    the order is antisymmetric on these elements. *)
Lemma StronglySorted_Permutation_eq {A} (R : A → A → Prop) (l1 l2 : list A) :
  (∀ x y, x ∈ l1 → y ∈ l1 → R x y → R y x → x = y) →
  StronglySorted R l1 → StronglySorted R l2 → Permutation l1 l2 → l1 = l2.
Proof.
  revert l2. induction l1 as [|x l1 IH]; intros l2 Hanti H1 H2 Hp.
  - symmetry. by apply Permutation_nil.
  - destruct l2 as [|y l2]; [by apply Permutation_sym, Permutation_nil in Hp|].
    apply StronglySorted_inv in H1 as [H1 Hx].
    apply StronglySorted_inv in H2 as [H2 Hy].
    assert (x = y) as ->.
    { assert (x ∈ y :: l2) as Hin by (rewrite <- Hp; apply elem_of_cons; by left).
      assert (y ∈ x :: l1) as Hin' by (rewrite Hp; apply elem_of_cons; by left).
      apply elem_of_cons in Hin as [|Hin]; [done|].
      apply elem_of_cons in Hin' as [|Hin']; [done|].
      rewrite Forall_forall in Hx, Hy.
      apply Hanti; [apply elem_of_cons; by left | apply elem_of_cons; by right | |].
      - by apply Hx.
      - by apply Hy. }
    f_equal. apply IH; [|done|done|by apply Permutation_cons_inv in Hp].
    intros a b Ha Hb. apply Hanti; apply elem_of_cons; by right.
Qed.

Lemma StronglySorted_weaken {A} (R R' : A → A → Prop) (l : list A) :
  (∀ x y, R x y → R' x y) → StronglySorted R l → StronglySorted R' l.
Proof.
  intros HR. induction 1 as [|x l Hs IH Hall]; constructor; [done|].
  eapply Forall_impl; [exact Hall|]. intros y. apply HR.
Qed.

Lemma string_compare_refl (s : string) : String.compare s s = Eq.
Proof.
  induction s as [|a s IH]; simpl; [done|].
  unfold Ascii.compare. by rewrite N.compare_refl.
Qed.

Lemma string_compare_Lt_trans (s1 s2 s3 : string) :
  String.compare s1 s2 = Lt → String.compare s2 s3 = Lt → String.compare s1 s3 = Lt.
Proof.
  revert s2 s3. induction s1 as [|a s1 IH]; intros [|b s2] [|c s3]; simpl; try done.
  unfold Ascii.compare.
  destruct (N.compare_spec (Ascii.N_of_ascii a) (Ascii.N_of_ascii b)) as [Hab|Hab|Hab];
    destruct (N.compare_spec (Ascii.N_of_ascii b) (Ascii.N_of_ascii c)) as [Hbc|Hbc|Hbc];
    try done; intros H12 H23.
  - rewrite Hab, Hbc, N.compare_refl. eauto.
  - rewrite Hab. by apply N.compare_lt_iff in Hbc as ->.
  - rewrite <- Hbc. by apply N.compare_lt_iff in Hab as ->.
  - assert (Ascii.N_of_ascii a < Ascii.N_of_ascii c)%N as Hac by lia.
    by apply N.compare_lt_iff in Hac as ->.
Qed.

Lemma string_leb_trans (s1 s2 s3 : string) :
  String.leb s1 s2 = true → String.leb s2 s3 = true → String.leb s1 s3 = true.
Proof.
  unfold String.leb.
  destruct (String.compare s1 s2) eqn:H12; [|
    destruct (String.compare s2 s3) eqn:H23|]; try done.
  - apply String.compare_eq_iff in H12 as ->. done.
  - apply String.compare_eq_iff in H23 as <-. by rewrite H12.
  - by rewrite (string_compare_Lt_trans _ _ _ H12 H23).
Qed.

(* ===================================================================== *)
(** * Facts about [merge_utc_intervals] *)
(* ===================================================================== *)

Section MergeFacts.
Import DateTime TimeUtils Spec.

Lemma start_leb_total x y : start_leb x y = true ∨ start_leb y x = true.
Proof. unfold start_leb. destruct (Z.leb_spec x.1 y.1); [by left|right]. lia. Qed.

Lemma start_leb_trans x y z :
  start_leb x y = true → start_leb y z = true → start_leb x z = true.
Proof. unfold start_leb. lia. Qed.

Lemma merge_loop_sweep front last rest :
  foldl merge_step (front ++ [last]) rest = front ++ merge_sweep last rest.
Proof.
  revert front last. induction rest as [|[s e] rest IH]; intros front [ls le]; simpl; [done|].
  rewrite last_snoc.
  destruct (s <=? le).
  - rewrite length_app, Nat.add_1_r. simpl.
    rewrite (insert_app_r_alt front) by done. rewrite Nat.sub_diag. simpl. apply IH.
  - rewrite IH. by rewrite <- app_assoc.
Qed.

(** [merge_utc_intervals] in terms of the recursive form of its loop. *)
Lemma merge_utc_intervals_sweep intervals :
  merge_utc_intervals intervals
  = match Py.sorted start_leb intervals with
    | [] => []
    | first :: rest => merge_sweep first rest
    end.
Proof.
  unfold merge_utc_intervals. destruct (Py.sorted start_leb intervals) as [|first rest]; [done|].
  apply (merge_loop_sweep [] first rest).
Qed.

Lemma merge_sweep_head last rest :
  ∃ e' tl, merge_sweep last rest = (last.1, e') :: tl ∧ last.2 ≤ e'.
Proof.
  revert last. induction rest as [|[s e] rest IH]; intros [ls le]; simpl.
  - exists le, []. split; [done|lia].
  - destruct (s <=? le).
    + destruct (IH (ls, Z.max le e)) as (e' & tl & -> & Hle). simpl in *.
      exists e', tl. split; [done|lia].
    + exists le, (merge_sweep (s, e) rest). split; [done|lia].
Qed.

(** No interval touches the one before it: the sweep changes nothing. *)
Lemma merge_sweep_separated last rest :
  Sorted (λ a b : interval, a.2 < b.1) (last :: rest) →
  merge_sweep last rest = last :: rest.
Proof.
  revert last. induction rest as [|[s e] rest IH]; intros last Hs; simpl; [done|].
  apply Sorted_inv in Hs as [Hs Hhd]. apply HdRel_inv in Hhd. simpl in Hhd.
  destruct (Z.leb_spec s last.2); [lia|]. by rewrite IH.
Qed.

Lemma merge_sweep_within ws we last rest :
  within ws we (last :: rest) → within ws we (merge_sweep last rest).
Proof.
  unfold within. revert last.
  induction rest as [|[s e] rest IH]; intros [ls le] H; simpl; [done|].
  apply Forall_cons in H as [Hl H]. apply Forall_cons in H as [Hse H]. simpl in *.
  destruct (s <=? le).
  - apply IH. constructor; [simpl; lia|done].
  - constructor; [done|]. apply IH. by constructor.
Qed.

Lemma merge_sweep_normalized last rest :
  last.1 < last.2 →
  Forall (λ iv : interval, iv.1 < iv.2) rest →
  StronglySorted (λ a b : interval, a.1 ≤ b.1) (last :: rest) →
  normalized (merge_sweep last rest).
Proof.
  revert last. induction rest as [|[s e] rest IH]; intros [ls le] Hl Hall Hs; simpl in *.
  - repeat split; repeat constructor; done.
  - apply Forall_cons in Hall as [Hse Hall]. simpl in Hse.
    apply StronglySorted_inv in Hs as [Hs Hls].
    apply Forall_cons in Hls as [Hls_s Hls]. simpl in Hls_s.
    destruct (Z.leb_spec s le).
    + apply IH; [simpl; lia|done|]. constructor; [|done].
      by apply StronglySorted_inv in Hs as [? ?].
    + destruct (IH (s, e) Hse Hall Hs) as (Hn1 & Hn2 & Hn3).
      destruct (merge_sweep_head (s, e) rest) as (e' & tl & Heq & _).
      rewrite Heq in *. simpl in *.
      repeat split; constructor; try done; constructor; simpl; lia.
Qed.

Lemma merge_sweep_covers last rest (iv : interval) :
  StronglySorted (λ a b : interval, a.1 ≤ b.1) (last :: rest) →
  iv ∈ last :: rest →
  ∃ m : interval, m ∈ merge_sweep last rest ∧ m.1 ≤ iv.1 ∧ iv.2 ≤ m.2.
Proof.
  revert last iv. induction rest as [|[s e] rest IH]; intros [ls le] iv Hs Hin; simpl in *.
  - apply list_elem_of_singleton in Hin as ->. exists (ls, le).
    split; [apply list_elem_of_singleton; done|simpl; lia].
  - apply StronglySorted_inv in Hs as [Hs Hls].
    apply Forall_cons in Hls as [Hls_s Hls]. simpl in Hls_s.
    assert (StronglySorted (λ a b : interval, a.1 ≤ b.1) ((ls, Z.max le e) :: rest)) as Hs'.
    { constructor; [|done]. by apply StronglySorted_inv in Hs as [? ?]. }
    destruct (Z.leb_spec s le).
    + apply elem_of_cons in Hin as [->|Hin]; [|apply elem_of_cons in Hin as [->|Hin]].
      * destruct (IH _ (ls, Z.max le e) Hs') as (m & Hm & H1 & H2);
          [apply elem_of_cons; by left|].
        exists m. simpl in *. split; [done|lia].
      * destruct (IH _ (ls, Z.max le e) Hs') as (m & Hm & H1 & H2);
          [apply elem_of_cons; by left|].
        exists m. simpl in *. split; [done|lia].
      * apply (IH _ _ Hs'). apply elem_of_cons. by right.
    + apply elem_of_cons in Hin as [->|Hin].
      * exists (ls, le). split; [apply elem_of_cons; by left|simpl; lia].
      * destruct (IH _ _ Hs Hin) as (m & Hm & H1 & H2).
        exists m. split; [apply elem_of_cons; by right|lia].
Qed.

Lemma sorted_by_start_StronglySorted (l : list interval) :
  StronglySorted (λ a b : interval, a.1 ≤ b.1) (Py.sorted start_leb l).
Proof.
  eapply StronglySorted_weaken;
    [|apply (sorted_StronglySorted start_leb start_leb_total start_leb_trans)].
  intros x y. unfold start_leb. lia.
Qed.

Lemma merge_utc_intervals_normalized l :
  Forall (λ iv : interval, iv.1 < iv.2) l → normalized (merge_utc_intervals l).
Proof.
  intros Hall. rewrite merge_utc_intervals_sweep.
  pose proof (sorted_by_start_StronglySorted l) as Hs.
  pose proof (sorted_Forall start_leb _ l Hall) as Hall'.
  destruct (Py.sorted _ l) as [|first rest].
  - repeat split; constructor.
  - apply Forall_cons in Hall' as [? ?]. by apply merge_sweep_normalized.
Qed.

Lemma merge_utc_intervals_within ws we l :
  within ws we l → within ws we (merge_utc_intervals l).
Proof.
  intros Hall. rewrite merge_utc_intervals_sweep.
  pose proof (sorted_Forall start_leb _ l Hall) as Hall'.
  destruct (Py.sorted _ l) as [|first rest]; [constructor|].
  by apply merge_sweep_within.
Qed.

Lemma merge_utc_intervals_covers l (iv : interval) :
  iv ∈ l → ∃ m : interval, m ∈ merge_utc_intervals l ∧ m.1 ≤ iv.1 ∧ iv.2 ≤ m.2.
Proof.
  intros Hin. rewrite merge_utc_intervals_sweep.
  pose proof (sorted_by_start_StronglySorted l) as Hs.
  apply (sorted_elem_of start_leb) in Hin.
  destruct (Py.sorted _ l) as [|first rest]; [by apply elem_of_nil in Hin|].
  by apply merge_sweep_covers.
Qed.

(** A list sorted by start in which no interval touches the one before it
    is returned as it is. *)
Lemma merge_utc_intervals_separated (l : list interval) :
  Sorted (λ a b : interval, a.1 ≤ b.1) l →
  Sorted (λ a b : interval, a.2 < b.1) l →
  merge_utc_intervals l = l.
Proof.
  intros Hsorted Hsep. rewrite merge_utc_intervals_sweep.
  rewrite sorted_already.
  - destruct l as [|first rest]; [done|]. by apply merge_sweep_separated.
  - clear Hsep. induction Hsorted as [|x l Hs IH Hhd]; constructor; [done|].
    destruct Hhd; constructor. unfold start_leb. lia.
Qed.

Lemma merge_utc_intervals_nil_inv l : merge_utc_intervals l = [] → l = [].
Proof.
  rewrite merge_utc_intervals_sweep. intros H.
  apply (sorted_nil_inv start_leb).
  destruct (Py.sorted _ l) as [|first rest]; [done|].
  destruct (merge_sweep_head first rest) as (? & ? & Heq & _). congruence.
Qed.

(** Separated intervals inside a window are no longer than the window. *)
Lemma total_duration_bound_from_head we (l : list interval) :
  Sorted (λ a b : interval, a.2 < b.1) l →
  Forall (λ iv : interval, iv.1 < iv.2 ∧ iv.2 ≤ we) l →
  match l with
  | [] => total_duration l = 0
  | x :: _ => total_duration l ≤ we - x.1
  end.
Proof.
  induction 1 as [|x l Hs IH Hhd]; intros Hall; simpl; [done|].
  apply Forall_cons in Hall as [[Hx1 Hx2] Hall]. specialize (IH Hall).
  destruct Hhd as [|y l Hxy]; unfold total_duration in *; simpl in *; lia.
Qed.

Lemma total_duration_bound ws we (l : list interval) :
  normalized l → within ws we l → 0 ≤ total_duration l ∧ total_duration l ≤ Z.max 0 (we - ws).
Proof.
  intros (_ & Hpos & Hsep) Hin. unfold within in Hin.
  assert (Forall (λ iv : interval, iv.1 < iv.2 ∧ iv.2 ≤ we) l) as Hall.
  { apply Forall_forall. intros iv Hiv.
    rewrite Forall_forall in Hpos, Hin. specialize (Hpos iv Hiv).
    specialize (Hin iv Hiv). lia. }
  pose proof (total_duration_bound_from_head we l Hsep Hall) as Hb.
  split.
  - clear -Hpos. induction Hpos; unfold total_duration in *; simpl; lia.
  - destruct l as [|x l]; [lia|]. apply Forall_cons in Hin as [? ?]. lia.
Qed.
End MergeFacts.

(* ===================================================================== *)
(** * Facts about [expand_business_hours_to_utc] *)
(* ===================================================================== *)

Section ExpandFacts.
Import DateTime TimeUtils Spec.
Variable pytz_timezone : string → option tzinfo.

Lemma elem_of_scan_dates d start_date end_date :
  d ∈ scan_dates start_date end_date ↔ start_date ≤ d ≤ end_date.
Proof. unfold scan_dates. rewrite elem_of_seqZ. lia. Qed.

Lemma elem_of_clip_to_window ws we (iv c : interval) :
  c ∈ clip_to_window ws we iv ↔
  (ws < iv.2 ∧ iv.1 < we ∧ Z.max iv.1 ws < Z.min iv.2 we
   ∧ c = (Z.max iv.1 ws, Z.min iv.2 we)).
Proof.
  destruct iv as [s e]. unfold clip_to_window. simpl.
  destruct (Z.ltb_spec ws e), (Z.ltb_spec s we); simpl;
    try (rewrite elem_of_nil; lia).
  destruct (Z.ltb_spec (Z.max s ws) (Z.min e we)).
  - rewrite list_elem_of_singleton. intuition.
  - rewrite elem_of_nil. lia.
Qed.

Lemma elem_of_expand_dates tz (bh_map : gmap Z (list (Z * Z))) ws we dates (c : interval) :
  c ∈ expand_dates tz bh_map ws we dates ↔
  ∃ d rule, d ∈ dates ∧ rule ∈ default [] (bh_map !! weekday d)
            ∧ c ∈ clip_to_window ws we (rule_utc tz d rule).
Proof.
  unfold expand_dates. rewrite list_elem_of_In, in_flat_map. split.
  - intros (d & Hd & Hc). apply in_flat_map in Hc as (rule & Hr & Hc).
    exists d, rule. by rewrite !list_elem_of_In.
  - intros (d & rule & Hd & Hr & Hc).
    apply list_elem_of_In in Hd. apply list_elem_of_In in Hr. apply list_elem_of_In in Hc.
    exists d. split; [done|]. apply in_flat_map. by exists rule.
Qed.

Lemma expand_dates_within tz (bh_map : gmap Z (list (Z * Z))) ws we dates :
  within ws we (expand_dates tz bh_map ws we dates)
  ∧ Forall (λ iv : interval, iv.1 < iv.2) (expand_dates tz bh_map ws we dates).
Proof.
  unfold within. split; apply Forall_forall; intros c Hc;
    apply elem_of_expand_dates in Hc as (d & rule & _ & _ & Hc);
    apply elem_of_clip_to_window in Hc as (? & ? & ? & ->); simpl; lia.
Qed.


(** What it returns is normalized and inside the window. *)
Lemma expand_business_hours_to_utc_normalized tz_str bh_map ws we out :
  to_aware_utc ws < to_aware_utc we →
  expand_business_hours_to_utc pytz_timezone tz_str bh_map ws we = Some out →
  normalized out ∧ within (to_aware_utc ws) (to_aware_utc we) out.
Proof.
  intros Hlt. unfold expand_business_hours_to_utc, utc_to_local.
  case_bool_decide.
  - intros [= <-]. unfold normalized, within.
    repeat split; repeat constructor; simpl; lia.
  - destruct (pytz_timezone tz_str) as [tz|]; simpl; [|done].
    intros [= <-].
    match goal with |- context [expand_dates ?a ?b ?c ?d ?e] =>
      destruct (expand_dates_within a b c d e) as [Hin Hpos] end.
    split; [by apply merge_utc_intervals_normalized
           |by apply merge_utc_intervals_within].
Qed.

(** Every interval a rule contributes is inside one interval of the
    result. *)
Lemma expand_business_hours_to_utc_covers tz_str tz (bh_map : gmap Z (list (Z * Z)))
    ws we d rule (c : interval) :
  pytz_timezone tz_str = Some tz →
  d ∈ scan_dates
        (date_of (to_aware_utc ws + fromutc_offset tz (to_aware_utc ws)) - 1)
        (date_of (to_aware_utc we + fromutc_offset tz (to_aware_utc we)) + 1) →
  rule ∈ default [] (bh_map !! weekday d) →
  c ∈ clip_to_window (to_aware_utc ws) (to_aware_utc we) (rule_utc tz d rule) →
  ∃ out, expand_business_hours_to_utc pytz_timezone tz_str bh_map ws we = Some out
         ∧ ∃ m : interval, m ∈ out ∧ m.1 ≤ c.1 ∧ c.2 ≤ m.2.
Proof.
  intros Htz Hd Hrule Hc.
  unfold expand_business_hours_to_utc, utc_to_local.
  case_bool_decide as Hempty.
  { subst bh_map. rewrite lookup_empty in Hrule. simpl in Hrule.
    by apply elem_of_nil in Hrule. }
  rewrite Htz. simpl. rewrite !Z.sub_0_r. eexists. split; [done|].
  apply merge_utc_intervals_covers, elem_of_expand_dates. eauto.
Qed.
End ExpandFacts.

(* ===================================================================== *)
(** * Facts about [_status_segments] *)
(* ===================================================================== *)

Section StatusSegmentsFacts.
Import DateTime TimeUtils Uptime Spec.

Lemma split_obs_snoc ws we l x :
  split_obs ws we (l ++ [x]) = split_step ws we (split_obs ws we l) x.
Proof. apply foldl_snoc. Qed.

(** [window_obs] holds the observations with [ws < obs_time <= we], in
    the order of [all_obs]. *)
Lemma split_obs_window ws we l :
  (split_obs ws we l).2 = filter (λ o, ws < obs_time o ∧ obs_time o ≤ we) l.
Proof.
  induction l as [|x l IH] using rev_ind; [done|].
  rewrite split_obs_snoc, filter_app. destruct (split_obs ws we l) as [prev window].
  simpl in IH. subst window. unfold split_step.
  rewrite filter_cons, filter_nil.
  destruct (Z.leb_spec (obs_time x) ws); simpl.
  - rewrite decide_False by lia. by rewrite app_nil_r.
  - destruct (Z.leb_spec (obs_time x) we); simpl.
    + by rewrite decide_True by lia.
    + rewrite decide_False by lia. by rewrite app_nil_r.
Qed.

Lemma split_obs_found ws we l :
  l ≠ [] → Forall (λ o, obs_time o ≤ we) l →
  (split_obs ws we l).1 ≠ None ∨ (split_obs ws we l).2 ≠ [].
Proof.
  destruct l as [|x l _] using rev_ind; [done|]. intros _ Hall.
  rewrite Forall_app, Forall_singleton in Hall. destruct Hall as [_ Hx].
  rewrite split_obs_snoc. destruct (split_obs ws we l) as [prev window].
  unfold split_step.
  destruct (Z.leb_spec (obs_time x) ws); simpl; [by left|].
  destruct (Z.leb_spec (obs_time x) we); simpl; [|lia].
  right. by destruct window.
Qed.

Lemma choose_initial_found prev_obs window_obs :
  prev_obs ≠ None ∨ window_obs ≠ [] →
  choose_initial prev_obs window_obs ≠ FromLastObs.
Proof. destruct prev_obs, window_obs; simpl; intros [?|?]; done. Qed.

Lemma StronglySorted_filter {A} (R : A → A → Prop) (P : A → Prop)
    `{∀ x, Decision (P x)} (l : list A) :
  StronglySorted R l → StronglySorted R (filter P l).
Proof.
  induction 1 as [|x l Hs IH Hall]; [constructor|].
  rewrite filter_cons. destruct (decide (P x)); [|done].
  constructor; [done|]. apply Forall_forall. intros y Hy.
  apply list_elem_of_filter in Hy as [_ Hy]. rewrite Forall_forall in Hall. auto.
Qed.

Section Chain.
(** [R] is [<=] or [<]. *)
Variable R : Z → Z → Prop.
Hypothesis R_of_lt : ∀ x y, x < y → R x y.

Lemma chain_by_snoc a segs m e st :
  chain_by R a segs m → R m e → chain_by R a (segs ++ [(m, e, st)]) e.
Proof.
  revert a. induction segs as [|[[s e'] st'] segs IH]; intros a; simpl.
  - intros -> ?. done.
  - intros (-> & ? & ?) ?. repeat split; [done|]. by apply IH.
Qed.

Lemma sweep_chain a we obs segs ct cs :
  chain_by R a segs ct →
  StronglySorted (λ x y, R (obs_time x) (obs_time y)) obs →
  Forall (λ o, R ct (obs_time o) ∧ obs_time o ≤ we) obs →
  ct ≤ we →
  ∃ segs' ct' cs',
    foldl sweep_step (segs, ct, cs) obs = (segs', ct', cs')
    ∧ chain_by R a segs' ct' ∧ ct' ≤ we.
Proof.
  revert segs ct cs. induction obs as [|o obs IH]; intros segs ct cs Hc Hs Hall Hle.
  - simpl. eauto 6.
  - apply StronglySorted_inv in Hs as [Hs Ho].
    apply Forall_cons in Hall as [[HRo Hole] Hall].
    simpl. case_bool_decide.
    + apply IH; [by apply chain_by_snoc|done| |done].
      rewrite Forall_forall in Ho, Hall. apply Forall_forall. intros o' Ho'.
      split; [by apply Ho|by apply Hall].
    + by apply IH.
Qed.

Lemma segments_of_obs_chain all_obs ws we :
  R ws we → ws ≤ we →
  StronglySorted (λ x y, R (obs_time x) (obs_time y)) all_obs →
  chain_by R ws (segments_of_obs all_obs ws we) we.
Proof.
  intros HR Hle Hs. unfold segments_of_obs.
  destruct all_obs as [|o0 all_obs0] eqn:Hobs; [simpl; done|]. rewrite <- Hobs in *.
  clear Hobs o0 all_obs0.
  pose proof (split_obs_window ws we all_obs) as Hw.
  destruct (split_obs ws we all_obs) as [prev_obs window_obs]. simpl in Hw.
  destruct (sweep_chain ws we window_obs [] ws
              (initial_status all_obs (choose_initial prev_obs window_obs)))
    as (segs' & ct' & cs' & -> & Hc & Hct); [done| | |done|].
  - subst window_obs. by apply StronglySorted_filter.
  - subst window_obs. apply Forall_forall. intros o Ho.
    apply list_elem_of_filter in Ho as [[? ?] _]. split; [by apply R_of_lt|done].
  - destruct (Z.ltb_spec ct' we).
    + apply chain_by_snoc; [done|by apply R_of_lt].
    + by replace we with ct' by lia.
Qed.
End Chain.

Lemma chain_by_weaken (R R' : Z → Z → Prop) a segs b :
  (∀ x y, R x y → R' x y) → chain_by R a segs b → chain_by R' a segs b.
Proof.
  intros HR. revert a. induction segs as [|[[s e] st] segs IH]; intros a; simpl; [done|].
  intros (-> & ? & ?). eauto.
Qed.

Lemma chain_by_le_bounds a segs b : chain_by Z.le a segs b → a ≤ b.
Proof.
  revert a. induction segs as [|[[s e] st] segs IH]; intros a; simpl; [lia|].
  intros (-> & ? & Hc). apply IH in Hc. lia.
Qed.

Lemma chain_by_last R a segs b :
  chain_by R a segs b → segs ≠ [] → seg_end <$> last segs = Some b.
Proof.
  revert a. induction segs as [|[[s e] st] segs IH]; intros a; simpl; [done|].
  intros (-> & ? & Hc) _. destruct segs as [|seg segs]; [simpl in *; by subst|].
  rewrite last_cons_cons. by eapply IH.
Qed.

Lemma chain_by_contiguous R a segs b :
  chain_by R a segs b → Sorted (λ x y, seg_end x = seg_start y) segs.
Proof.
  revert a. induction segs as [|[[s e] st] segs IH]; intros a; simpl; [constructor|].
  intros (-> & ? & Hc). constructor; [by eapply IH|].
  destruct segs as [|[[s' e'] st'] segs]; constructor.
  simpl in Hc. by destruct Hc as [-> _].
Qed.

Lemma chain_by_Forall R a segs b :
  chain_by R a segs b → Forall (λ seg, R (seg_start seg) (seg_end seg)) segs.
Proof.
  revert a. induction segs as [|[[s e] st] segs IH]; intros a; simpl; [constructor|].
  intros (-> & ? & Hc). constructor; [done|by eapply IH].
Qed.

(** A chain of non-empty segments over a non-empty window is a partition
    of it, and a partition is a chain. *)
Lemma chain_lt_partitions ws we segs :
  ws < we → chain_by Z.lt ws segs we → partitions ws we segs.
Proof.
  intros Hlt Hc. assert (segs ≠ []) as Hne.
  { destruct segs; [simpl in Hc; lia|done]. }
  repeat split.
  - destruct segs as [|[[s e] st] segs]; [done|]. simpl in *. by destruct Hc as [-> _].
  - by eapply chain_by_last.
  - by eapply chain_by_contiguous.
  - by eapply chain_by_Forall.
Qed.

Lemma partitions_chain ws we segs :
  partitions ws we segs → chain_by Z.lt ws segs we.
Proof.
  intros (Hhd & Hlast & Hcont & Hpos). revert ws Hhd.
  induction segs as [|[[s e] st] segs IH]; intros ws Hhd; [done|].
  injection Hhd as Hws. unfold seg_start in Hws. simpl in Hws. subst ws.
  apply Sorted_inv in Hcont as [Hcont Hrel].
  apply Forall_cons in Hpos as [Hse Hpos].
  unfold seg_start, seg_end in Hse. simpl in Hse.
  simpl. repeat split; [done|].
  destruct segs as [|seg segs].
  - injection Hlast as Hwe. unfold seg_end in Hwe. simpl in *. by subst we.
  - rewrite last_cons_cons in Hlast. apply IH; try done.
    apply HdRel_inv in Hrel. simpl. f_equal. by rewrite <- Hrel.
Qed.

Lemma ascending_StronglySorted all_obs :
  ascending all_obs → StronglySorted (λ x y, obs_time x ≤ obs_time y) all_obs.
Proof.
  apply Sorted_StronglySorted. intros x y z. lia.
Qed.

Lemma strictly_ascending_StronglySorted all_obs :
  strictly_ascending all_obs → StronglySorted (λ x y, obs_time x < obs_time y) all_obs.
Proof.
  apply Sorted_StronglySorted. intros x y z. lia.
Qed.

(** The query returns the observations of the store up to [we] in
    ascending order. *)
Lemma query_all_obs_spec session store_id we :
  StronglySorted (λ x y, obs_time x ≤ obs_time y) (query_all_obs session store_id we)
  ∧ Forall (λ o, StoreStatus.store_id o = store_id ∧ obs_time o ≤ we)
           (query_all_obs session store_id we).
Proof.
  unfold query_all_obs. split.
  - eapply StronglySorted_weaken;
      [|apply (sorted_StronglySorted (λ a b, obs_time a <=? obs_time b))].
    + intros x y. simpl. lia.
    + intros x y. destruct (Z.leb_spec (obs_time x) (obs_time y)); [by left|right; lia].
    + intros x y z. lia.
  - apply sorted_Forall, Forall_forall. intros o Ho.
    by apply list_elem_of_filter in Ho as [? _].
Qed.

Lemma status_segments_chain_le session store_id (ws we : instant) :
  ws ≤ we →
  chain_by Z.le ws (_status_segments session store_id (aware_utc ws) (aware_utc we)) we.
Proof.
  intros Hle. unfold _status_segments, to_aware_utc, aware_utc. rewrite !Z.sub_0_r.
  apply segments_of_obs_chain; [lia|done|done|].
  apply query_all_obs_spec.
Qed.
End StatusSegmentsFacts.

(* ===================================================================== *)
(** * Facts about [_accumulate_overlaps] and the unit conversions *)
(* ===================================================================== *)

Section AccumulateFacts.
Import DateTime TimeUtils Uptime Spec.
Local Open Scope Q_scope.

(** In exact arithmetic [total_seconds] is the exact number of seconds. *)
Lemma total_seconds_exact (td : Z) : total_seconds Py.exact td == seconds td.
Proof. unfold total_seconds, seconds, Qeq. simpl. lia. Qed.

Lemma seconds_add (a b : Z) : seconds (a + b) == seconds a + seconds b.
Proof. unfold seconds, Qeq, Qplus. simpl. lia. Qed.

Lemma seconds_le (a b : Z) : (a ≤ b)%Z → seconds a <= seconds b.
Proof. unfold seconds, Qle. simpl. lia. Qed.

Lemma seconds_0 : seconds 0 == 0.
Proof. reflexivity. Qed.

Lemma overlap_us_nonneg seg bh : (0 ≤ overlap_us seg bh)%Z.
Proof. unfold overlap_us. lia. Qed.

(** One turn of the inner loop adds the overlap to one of the two
    accumulators. *)
Lemma overlap_step_spec seg (up down : Py.float Py.exact) bh :
  ∃ up' down' : Py.float Py.exact, overlap_step Py.exact seg (up, down) bh = (up', down')
    ∧ up' + down' == up + down + seconds (overlap_us seg bh)
    ∧ up <= up' ∧ down <= down'.
Proof.
  destruct seg as [[seg_s seg_e] state], bh as [bh_s bh_e].
  unfold overlap_step, overlap_us. simpl.
  rewrite Z.geb_leb.
  destruct (Z.leb_spec (Z.min seg_e bh_e) (Z.max seg_s bh_s)).
  - exists up, down. rewrite (Z.max_l 0) by lia. rewrite seconds_0.
    repeat split; lra.
  - rewrite (Z.max_r 0) by lia.
    pose proof (total_seconds_exact (Z.min seg_e bh_e - Z.max seg_s bh_s)) as Hts.
    unfold total_seconds in Hts. simpl in Hts.
    assert (0 <= seconds (Z.min seg_e bh_e - Z.max seg_s bh_s)) as Hpos.
    { unfold seconds, Qle. simpl. lia. }
    case_bool_decide; eexists _, _; (split; [reflexivity|]); repeat split; lra.
Qed.

Lemma inner_loop_spec seg bhs (up down : Py.float Py.exact) :
  ∃ up' down' : Py.float Py.exact, foldl (overlap_step Py.exact seg) (up, down) bhs = (up', down')
    ∧ up' + down' == up + down
                     + seconds (foldr (λ bh acc, overlap_us seg bh + acc)%Z 0%Z bhs)
    ∧ up <= up' ∧ down <= down'.
Proof.
  revert up down. induction bhs as [|bh bhs IH]; intros up down; cbn [foldl foldr].
  - exists up, down. rewrite seconds_0. repeat split; lra.
  - destruct (overlap_step_spec seg up down bh) as (u1 & d1 & -> & Hsum1 & Hu1 & Hd1).
    destruct (IH u1 d1) as (u2 & d2 & -> & Hsum2 & Hu2 & Hd2).
    exists u2, d2. rewrite seconds_add. repeat split; lra.
Qed.

Lemma outer_loop_spec segs bhs (up down : Py.float Py.exact) :
  ∃ up' down' : Py.float Py.exact,
    foldl (λ acc seg, foldl (overlap_step Py.exact seg) acc bhs) (up, down) segs
    = (up', down')
    ∧ up' + down' == up + down + seconds (overlap_total segs bhs)
    ∧ up <= up' ∧ down <= down'.
Proof.
  revert up down. induction segs as [|seg segs IH]; intros up down; cbn [foldl].
  - exists up, down. unfold overlap_total. cbn [foldr]. rewrite seconds_0.
    repeat split; lra.
  - destruct (inner_loop_spec seg bhs up down) as (u1 & d1 & -> & Hsum1 & Hu1 & Hd1).
    destruct (IH u1 d1) as (u2 & d2 & -> & Hsum2 & Hu2 & Hd2).
    exists u2, d2. unfold overlap_total in *. cbn [foldr]. rewrite seconds_add.
    repeat split; lra.
Qed.

(** In exact arithmetic the two accumulators are not negative and add up
    to the total overlap. *)
Lemma accumulate_overlaps_spec segs bhs :
  ∃ up down : Py.float Py.exact, _accumulate_overlaps Py.exact segs bhs = (up, down)
    ∧ up + down == seconds (overlap_total segs bhs)
    ∧ 0 <= up ∧ 0 <= down.
Proof.
  destruct (outer_loop_spec segs bhs 0 0) as (up & down & Heq & Hsum & Hu & Hd).
  exists up, down. repeat split; [done| lra | done | done].
Qed.

Local Close Scope Q_scope.

Lemma clipped_duration_empty a bhs : clipped_duration a a bhs = 0.
Proof.
  induction bhs as [|bh bhs IH]; unfold clipped_duration in *; simpl; [done|].
  rewrite IH. lia.
Qed.

Lemma clipped_duration_split a e b bhs :
  a ≤ e → e ≤ b → Forall (λ bh : interval, bh.1 ≤ bh.2) bhs →
  foldr (λ bh acc, overlap_us (a, e, "") bh + acc) 0 bhs + clipped_duration e b bhs
  = clipped_duration a b bhs.
Proof.
  intros Hae Heb. induction 1 as [|bh bhs Hbh Hall IH];
    unfold clipped_duration, overlap_us in *; simpl in *; lia.
Qed.

Lemma overlap_us_status s e st st' bh : overlap_us (s, e, st) bh = overlap_us (s, e, st') bh.
Proof. done. Qed.

(** Segments laid end to end from [a] to [b] overlap the intervals by
    what the intervals have in common with [[a, b)]. *)
Lemma overlap_total_chain a segs b bhs :
  chain_by Z.le a segs b → Forall (λ bh : interval, bh.1 ≤ bh.2) bhs →
  overlap_total segs bhs = clipped_duration a b bhs.
Proof.
  intros Hc Hall. revert a Hc.
  induction segs as [|[[s e] st] segs IH]; intros a Hc; simpl in Hc.
  - subst. by rewrite clipped_duration_empty.
  - destruct Hc as (-> & Hse & Hc). pose proof (chain_by_le_bounds _ _ _ Hc) as Heb.
    rewrite <- (clipped_duration_split a e b bhs Hse Heb Hall).
    rewrite <- (IH e Hc). unfold overlap_total. simpl. done.
Qed.

Lemma clipped_duration_within a b bhs :
  within a b bhs → Forall (λ bh : interval, bh.1 ≤ bh.2) bhs →
  clipped_duration a b bhs = total_duration bhs.
Proof.
  unfold within. intros Hin Hall. induction Hall as [|bh bhs Hbh Hall IH];
    unfold clipped_duration, total_duration in *; simpl; [done|].
  apply Forall_cons in Hin as [[? ?] Hin]. rewrite (IH Hin). lia.
Qed.
End AccumulateFacts.

Section ConversionFacts.
Local Open Scope Q_scope.


(** [round_half_even] gives an integer nearest to its argument. *)
Lemma round_half_even_nearest (x : Q) :
  Qabs (inject_Z (Py.Exact.round_half_even x) - x) <= 1 # 2.
Proof.
  unfold Py.Exact.round_half_even.
  pose proof (Qfloor_le x) as Hlo. pose proof (Qlt_floor x) as Hhi.
  rewrite inject_Z_plus in Hhi. change (inject_Z 1) with 1 in Hhi.
  apply Qabs_Qle_condition.
  destruct (Qcompare_spec (x - inject_Z (Qfloor x)) (1 # 2)) as [Heq|Hlt|Hgt].
  - destruct (Z.even (Qfloor x));
      rewrite ?inject_Z_plus; change (inject_Z 1) with 1; split; lra.
  - split; lra.
  - rewrite inject_Z_plus. change (inject_Z 1) with 1. split; lra.
Qed.

(** [round(x, 2)] is a multiple of 1/100 nearest to [x]. *)
Lemma round2_spec (x : Q) : Qabs (Py.Exact.round2 x - x) <= 1 # 200.
Proof.
  pose proof (round_half_even_nearest (x * 100)) as H.
  apply Qabs_Qle_condition in H. apply Qabs_Qle_condition.
  unfold Py.Exact.round2.
  assert (Py.Exact.round_half_even (x * 100) # 100
          == inject_Z (Py.Exact.round_half_even (x * 100)) / 100) as ->.
  { rewrite Qmake_Qdiv. reflexivity. }
  generalize dependent (inject_Z (Py.Exact.round_half_even (x * 100))).
  intros n [? ?]. unfold Qdiv. change (/ 100) with (1 # 100). split; lra.
Qed.

End ConversionFacts.

(* ===================================================================== *)
(** * Facts about binary64 *)
(* ===================================================================== *)

Section Binary64Facts.
Import SpecFloat Py.Binary64.
Local Open Scope Z_scope.

Lemma shr_1_nonneg mrs : 0 ≤ shr_m mrs → 0 ≤ shr_m (shr_1 mrs).
Proof. destruct mrs as [[|[p|p|]|p] r s]; simpl; lia. Qed.

Lemma iter_pos_shr_1_nonneg p mrs :
  0 ≤ shr_m mrs → 0 ≤ shr_m (iter_pos shr_1 p mrs).
Proof.
  revert mrs. induction p as [p IH|p IH|]; intros mrs H; simpl.
  - apply IH, IH. by apply shr_1_nonneg.
  - by apply IH, IH.
  - by apply shr_1_nonneg.
Qed.

Lemma shr_fexp_nonneg m e l : 0 ≤ m → 0 ≤ shr_m (shr_fexp prec emax m e l).1.
Proof.
  intros H. unfold shr_fexp, shr.
  assert (shr_m (shr_record_of_loc m l) = m) as Hm by (by destruct l as [|[]]).
  destruct (fexp prec emax (Zdigits2 m + e) - e) as [|p|p]; simpl; try lia.
  apply iter_pos_shr_1_nonneg. lia.
Qed.

(** Rounding a number that is not negative gives a double that is not
    negative. *)
Lemma binary_round_aux_nonneg m e l :
  0 ≤ m → nonneg (binary_round_aux prec emax false m e l) = true.
Proof.
  intros H. unfold binary_round_aux.
  pose proof (shr_fexp_nonneg m e l H) as H1.
  destruct (shr_fexp prec emax m e l) as [mrs' e']. simpl in H1.
  assert (0 ≤ round_nearest_even (shr_m mrs') (loc_of_shr_record mrs')) as H2.
  { unfold round_nearest_even. destruct (loc_of_shr_record mrs') as [|[]]; try lia.
    destruct (Z.even (shr_m mrs')); lia. }
  pose proof (shr_fexp_nonneg _ e' loc_Exact H2) as H3.
  destruct (shr_fexp prec emax _ e' loc_Exact) as [mrs'' e'']. simpl in H3.
  destruct (shr_m mrs'') as [|p|p]; [done| |lia].
  by destruct (e'' <=? emax - prec).
Qed.

Lemma add_nonneg x y : nonneg x = true → nonneg y = true → nonneg (add x y) = true.
Proof.
  destruct x as [[]|[]| |[] mx ex], y as [[]|[]| |[] my ey]; try done. intros _ _.
  unfold add, SFadd, binary_normalize, cond_Zopp.
  destruct (shl_align mx ex (Z.min ex ey)) as [ax ?].
  destruct (shl_align my ey (Z.min ex ey)) as [ay ?]. cbn [fst].
  change (Z.pos ax + Z.pos ay) with (Z.pos (ax + ay)). cbv iota.
  unfold binary_round.
  match goal with |- context [shl_align ?a ?b ?c] =>
    destruct (shl_align a b c) as [mz ez] end.
  by apply binary_round_aux_nonneg.
Qed.

Lemma div_eucl_nonneg a b q r : 0 ≤ a → 0 < b → Z.div_eucl a b = (q, r) → 0 ≤ q.
Proof.
  intros Ha Hb Heq. assert (q = a / b) as ->.
  { unfold Z.div. by rewrite Heq. }
  apply Z.div_pos; lia.
Qed.

Lemma truediv_nonneg x my ey :
  nonneg x = true → nonneg (truediv x (S754_finite false my ey)) = true.
Proof.
  destruct x as [[]|[]| |[] mx ex]; try done. intros _.
  unfold truediv, SFdiv, SFdiv_core_binary. cbn [xorb].
  match goal with |- context [Z.div_eucl ?a ?b] =>
    pose proof (div_eucl_nonneg a b) as Hq; destruct (Z.div_eucl a b) as [q r] end.
  apply binary_round_aux_nonneg. apply (Hq q r); [|lia|done].
  match goal with |- 0 ≤ match ?s with _ => _ end => destruct s end; try lia.
  apply Z.shiftl_nonneg. lia.
Qed.

Lemma int_truediv_nonneg n m : 0 ≤ n → 0 < m → nonneg (int_truediv n m) = true.
Proof.
  intros Hn Hm. unfold int_truediv. destruct m as [|m|m]; try lia.
  apply truediv_nonneg. by destruct n.
Qed.

Lemma value_nonneg x : nonneg x = true → (0 <= value x)%Q.
Proof.
  destruct x as [[]|[]| |[] m e]; try done. intros _. unfold value, cond_Zopp.
  destruct e as [|p|p].
  - unfold Qle. simpl. lia.
  - unfold Qle. simpl. lia.
  - unfold Qle. simpl. lia.
Qed.

(** On a double that is not negative, [int] is the floor of its value. *)
Lemma int_floor_value x z : nonneg x = true → int x = Some z → z = Qfloor (value x).
Proof.
  destruct x as [[]|[]| |[] m e]; try done; intros _ [= <-]; [done|].
  unfold value, cond_Zopp. destruct e as [|p|p].
  - by rewrite Qfloor_Z.
  - by rewrite Qfloor_Z.
  - done.
Qed.

Lemma round_half_even_nonneg (x : Q) : (0 <= x)%Q → 0 ≤ Py.Exact.round_half_even x.
Proof.
  intros H. unfold Py.Exact.round_half_even.
  assert (0 ≤ Qfloor x) as Hf by (change 0 with (Qfloor 0); by apply Qfloor_resp_le).
  destruct (_ ?= _)%Q; [destruct (Z.even _)|..]; lia.
Qed.

(** [round(x, 2)] of a finite double that is not negative is the double
    nearest to a multiple of 1/100 that is nearest to the value of [x]. *)
Lemma round2_two_decimals x :
  nonneg x = true → finite x = true →
  ∃ n : Z, 0 ≤ n ∧ round2 x = int_truediv n 100
           ∧ (Qabs ((n # 100) - value x) <= 1 # 200)%Q.
Proof.
  intros Hnn Hfin. exists (Py.Exact.round_half_even (value x * 100)).
  split; [|split].
  - apply round_half_even_nonneg. pose proof (value_nonneg x Hnn). lra.
  - destruct x as [[]|[]| |[] m e]; try done. unfold round2.
    destruct (Z.eqb_spec (Py.Exact.round_half_even
                            (value (S754_finite false m e) * 100)) 0) as [->|]; done.
  - apply (round2_spec (value x)).
Qed.
End Binary64Facts.

(* ===================================================================== *)
(** * Facts about [metrics_for_store] *)
(* ===================================================================== *)

Section MetricsFacts.
Import DateTime TimeUtils Uptime Spec.
Variable pytz_timezone : string → option tzinfo.
Variable all_timezones : list string.

Lemma to_aware_utc_aware_utc (u : instant) : to_aware_utc (aware_utc u) = u.
Proof. unfold to_aware_utc, aware_utc. lia. Qed.




(** What one window charges: the overlaps of the timeline with the
    business hours of the window, which as timedeltas add up to the
    length of these business hours and to at most the length of the
    window. *)
Lemma window_seconds_pieces F session store_id tz_str bh_map ws we acc :
  ws < we →
  window_seconds F pytz_timezone session store_id tz_str bh_map ws we = Some acc →
  ∃ bhs,
    expand_business_hours_to_utc pytz_timezone tz_str bh_map (aware_utc ws) (aware_utc we)
    = Some bhs
    ∧ overlap_total (_status_segments session store_id (aware_utc ws) (aware_utc we)) bhs
      = total_duration bhs
    ∧ 0 ≤ total_duration bhs ≤ we - ws.
Proof.
  intros Hlt. unfold window_seconds.
  destruct (expand_business_hours_to_utc pytz_timezone tz_str bh_map
              (aware_utc ws) (aware_utc we)) as [bhs|] eqn:Hexp; [|done].
  intros _. exists bhs. split; [done|].
  apply expand_business_hours_to_utc_normalized in Hexp as [Hnorm Hin];
    rewrite !to_aware_utc_aware_utc in *; [|done].
  assert (Forall (λ iv : interval, iv.1 ≤ iv.2) bhs) as Hnn.
  { destruct Hnorm as (_ & Hpos & _). eapply Forall_impl; [exact Hpos|]. simpl. lia. }
  pose proof (status_segments_chain_le session store_id ws we) as Hc.
  rewrite (overlap_total_chain ws _ we) by (done || apply Hc; lia).
  rewrite clipped_duration_within by done.
  pose proof (total_duration_bound ws we _ Hnorm Hin). split; [done|lia].
Qed.

(** In exact arithmetic the two accumulators of a window are not negative
    and add up to at most the length of the window. *)
Lemma window_seconds_bound session store_id tz_str bh_map ws we
    (up down : Py.float Py.exact) :
  ws < we →
  window_seconds Py.exact pytz_timezone session store_id tz_str bh_map ws we
  = Some (up, down) →
  (0 <= up ∧ 0 <= down ∧ up + down <= seconds (we - ws))%Q.
Proof.
  intros Hlt Hw.
  destruct (window_seconds_pieces _ _ _ _ _ _ _ _ Hlt Hw) as (bhs & Hexp & Htot & Hle).
  revert Hw. unfold window_seconds. rewrite Hexp. cbn [mbind option_bind].
  assert (0 <= seconds (we - ws))%Q as Hlen by (unfold seconds, Qle; simpl; lia).
  destruct bhs as [|bh bhs]; [intros [= <- <-]; repeat split; [done..|exact Hlen]|].
  set (segs := _status_segments session store_id (aware_utc ws) (aware_utc we)) in *.
  destruct (accumulate_overlaps_spec segs (bh :: bhs)) as (u & d & -> & Hsum & Hu & Hd).
  intros [= <- <-]. repeat split; [done..|].
  rewrite Hsum, Htot. apply seconds_le. lia.
Qed.

(** A result of [metrics_for_store] comes from three windows. *)
Lemma metrics_for_store_inv F session store_id now r :
  metrics_for_store F pytz_timezone all_timezones session store_id now = Some r →
  let tz_str := get_store_timezone_str all_timezones session store_id in
  let bh_map := get_business_hours_map session store_id in
  let window w :=
    window_seconds F pytz_timezone session store_id tz_str bh_map
      (to_aware_utc now - w) (to_aware_utc now) in
  ∃ up_h down_h up_d down_d up_w down_w up_minutes down_minutes,
    window hour_window = Some (up_h, down_h)
    ∧ window day_window = Some (up_d, down_d)
    ∧ window week_window = Some (up_w, down_w)
    ∧ in_minutes F up_h = Some up_minutes
    ∧ in_minutes F down_h = Some down_minutes
    ∧ r = {| uptime_last_hour := up_minutes;
             downtime_last_hour := down_minutes;
             uptime_last_day := in_hours F up_d;
             downtime_last_day := in_hours F down_d;
             uptime_last_week := in_hours F up_w;
             downtime_last_week := in_hours F down_w |}.
Proof.
  unfold metrics_for_store. cbv zeta.
  destruct (window_seconds _ _ _ _ _ _ (to_aware_utc now - hour_window) _)
    as [[up_h down_h]|]; [|done]. cbn [mbind option_bind].
  destruct (in_minutes F up_h) as [up_minutes|] eqn:Hum; [|done]. cbn [mbind option_bind].
  destruct (in_minutes F down_h) as [down_minutes|] eqn:Hdm; [|done]. cbn [mbind option_bind].
  destruct (window_seconds _ _ _ _ _ _ (to_aware_utc now - day_window) _)
    as [[up_d down_d]|]; [|done]. cbn [mbind option_bind].
  destruct (window_seconds _ _ _ _ _ _ (to_aware_utc now - week_window) _)
    as [[up_w down_w]|]; [|done]. cbn [mbind option_bind].
  intros [= <-]. exists up_h, down_h, up_d, down_d, up_w, down_w, up_minutes, down_minutes.
  repeat split; done.
Qed.


End MetricsFacts.

(* ===================================================================== *)
(** * The properties of the specification *)
(* ===================================================================== *)

Section TimeUtilsProperties.
Import DateTime TimeUtils Spec.

(** C2. When the business-hours mapping of a store is empty, the expander
    returns, for every window [ws < we], exactly the one interval
    [(ws, we)]; the result is the same for every zone database and every
    zone name, known or not, so neither the zone nor any calendar date is
    consulted. *)
Theorem expand_empty_rules_whole_window
    (pytz_timezone : string → option tzinfo) (tz_str : string)
    (bh_map : gmap Z (list (Z * Z))) (ws we : datetime) :
  bh_map = ∅ →
  to_aware_utc ws < to_aware_utc we →
  expand_business_hours_to_utc pytz_timezone tz_str bh_map ws we
    = Some [(to_aware_utc ws, to_aware_utc we)]
  ∧ ∀ pytz_timezone' tz_str',
      expand_business_hours_to_utc pytz_timezone' tz_str' bh_map ws we
      = expand_business_hours_to_utc pytz_timezone tz_str bh_map ws we.
Proof.
  intros -> _. unfold expand_business_hours_to_utc.
  rewrite bool_decide_eq_true_2 by done. done.
Qed.

(** C8. Merging a list that is already normalized (sorted ascending by
    start, every start before its end, every start strictly after the
    end before it) returns the list unchanged. *)
Theorem merge_utc_intervals_normalized_noop (l : list interval) :
  normalized l → merge_utc_intervals l = l.
Proof.
  intros (Hsorted & _ & Hsep). by apply merge_utc_intervals_separated.
Qed.

(** Merging twice is merging once. *)
Lemma merge_utc_intervals_idempotent (l : list interval) :
  Forall (λ iv : interval, iv.1 < iv.2) l →
  merge_utc_intervals (merge_utc_intervals l) = merge_utc_intervals l.
Proof.
  intros H. destruct (merge_utc_intervals_normalized l H) as (Hsorted & _ & Hsep).
  by apply merge_utc_intervals_separated.
Qed.

(** In a zone with a constant offset the interval of a 00:00 to 00:00 rule
    is exactly 24 hours long in UTC as well. *)
Lemma midnight_rule_fixed_offset (off : Z) (d : date) :
  (rule_utc (fixed_offset off) d (time_hm 0 0, time_hm 0 0)).2
  - (rule_utc (fixed_offset off) d (time_hm 0 0, time_hm 0 0)).1 = 24 * US_PER_HOUR.
Proof.
  unfold rule_utc, rule_local, localize, combine, US_PER_DAY, US_PER_HOUR. simpl. lia.
Qed.
End TimeUtilsProperties.

Section TimeUtilsWitnesses.
Import DateTime TimeUtils Spec Sample.

(** The empty mapping over the day of 2025-05-06, with no zone known. *)
Lemma expand_empty_rules_whole_window_witness :
  expand_business_hours_to_utc pytz_none "Nowhere" ∅ (utc_at may_6 0 0) (utc_at may_6 23 59)
  = Some [(to_aware_utc (utc_at may_6 0 0), to_aware_utc (utc_at may_6 23 59))].
Proof.
  apply (expand_empty_rules_whole_window pytz_none "Nowhere" ∅
           (utc_at may_6 0 0) (utc_at may_6 23 59)).
  - reflexivity.
  - vm_compute. reflexivity.
Defined.

Lemma merge_utc_intervals_normalized_noop_witness :
  merge_utc_intervals [(0, 10); (20, 30); (31, 45)] = [(0, 10); (20, 30); (31, 45)].
Proof.
  apply merge_utc_intervals_normalized_noop.
  repeat split; repeat constructor; simpl; lia.
Defined.

End TimeUtilsWitnesses.

Section StatusSegmentsProperties.
Import DateTime TimeUtils Uptime Spec Sample.

(** The timeline is always a chain of segments from [ws] to [we], none of
    them inverted, whatever the observations are. *)
Lemma status_segments_chain session store_id (ws we : datetime) :
  to_aware_utc ws ≤ to_aware_utc we →
  chain_by Z.le (to_aware_utc ws)
    (_status_segments session store_id ws we) (to_aware_utc we).
Proof.
  intros Hle. unfold _status_segments.
  apply segments_of_obs_chain; [lia|done|done|].
  apply query_all_obs_spec.
Qed.

(** When no two observations carry the same timestamp, the timeline is a
    partition of the window. *)
Lemma segments_of_obs_partition all_obs (ws we : instant) :
  ws < we → strictly_ascending all_obs →
  partitions ws we (segments_of_obs all_obs ws we).
Proof.
  intros Hlt Hs. apply chain_lt_partitions; [done|].
  apply segments_of_obs_chain; [done|done|lia|].
  by apply strictly_ascending_StronglySorted.
Qed.

(** C1. On a store with an inactive observation before the window and,
    inside the window, an active and an inactive observation carrying the
    same timestamp, [_status_segments] returns three segments of which
    the middle one starts and ends at that timestamp: the list covers the
    window without a gap, but it is not a partition into segments with
    [start < end]. *)
Theorem status_segments_same_instant :
  let ws := combine may_6 (time_hm 11 0) in
  let mid := combine may_6 (time_hm 11 30) in
  let we := combine may_6 (time_hm 12 0) in
  _status_segments session_same_instant "s1" (aware_utc ws) (aware_utc we)
    = [(ws, mid, "inactive"); (mid, mid, "active"); (mid, we, "inactive")]
  ∧ ascending (query_all_obs session_same_instant "s1" we)
  ∧ ¬ partitions ws we
        (_status_segments session_same_instant "s1" (aware_utc ws) (aware_utc we)).
Proof.
  intros ws mid we.
  assert (_status_segments session_same_instant "s1" (aware_utc ws) (aware_utc we)
          = [(ws, mid, "inactive"); (mid, mid, "active"); (mid, we, "inactive")]) as Heq
    by (vm_compute; reflexivity).
  split; [done|]. split.
  - apply StronglySorted_Sorted, query_all_obs_spec.
  - rewrite Heq. intros (_ & _ & _ & Hpos).
    apply Forall_cons in Hpos as [_ Hpos]. apply Forall_cons in Hpos as [Hmid _].
    unfold seg_start, seg_end in Hmid. simpl in Hmid. lia.
Qed.

(** C9. When the list of fetched observations is not empty and every one
    of them has a timestamp at or before [we], the first loop finds a
    prior observation or an in-window observation, so the branch that
    falls back to the last observation overall is not taken. *)
Theorem fallback_branch_unreachable (all_obs : list StoreStatus.t) (ws we : instant) :
  all_obs ≠ [] →
  Forall (λ o, obs_time o ≤ we) all_obs →
  choose_initial (split_obs ws we all_obs).1 (split_obs ws we all_obs).2 ≠ FromLastObs.
Proof.
  intros Hne Hall. by apply choose_initial_found, split_obs_found.
Qed.

(** The query of the code satisfies that precondition. *)
Lemma status_segments_never_falls_back session store_id (ws we : instant) :
  query_all_obs session store_id we ≠ [] →
  choose_initial (split_obs ws we (query_all_obs session store_id we)).1
                 (split_obs ws we (query_all_obs session store_id we)).2 ≠ FromLastObs.
Proof.
  intros Hne. apply choose_initial_found, split_obs_found; [done|].
  eapply Forall_impl; [apply query_all_obs_spec|]. by intros o [_ ?].
Qed.

Lemma fallback_branch_unreachable_witness :
  choose_initial
    (split_obs 0 10 [obs "s" (aware_utc 5) "active"]).1
    (split_obs 0 10 [obs "s" (aware_utc 5) "active"]).2 ≠ FromLastObs.
Proof.
  apply fallback_branch_unreachable.
  - discriminate.
  - repeat constructor. vm_compute. discriminate.
Defined.
End StatusSegmentsProperties.

Section MetricsProperties.
Import DateTime TimeUtils Uptime Spec Sample.

Lemma filter_none {A} (P : A → Prop) `{∀ x, Decision (P x)} (l : list A) :
  (∀ x, x ∈ l → ¬ P x) → filter P l = [].
Proof.
  induction l as [|x l IH]; intros Hall; [done|].
  rewrite filter_cons_False by (apply Hall, elem_of_cons; by left).
  apply IH. intros y Hy. apply Hall, elem_of_cons. by right.
Qed.

(** With no observation at or before [we] the query is empty and the
    timeline is one inactive segment over the window. *)
Lemma status_segments_no_observations session store_id (ws we : instant) :
  no_observations session store_id we →
  _status_segments session store_id (aware_utc ws) (aware_utc we)
  = [(ws, we, "inactive")].
Proof.
  intros Hno. unfold _status_segments, query_all_obs.
  rewrite !to_aware_utc_aware_utc.
  rewrite filter_none; [done|]. intros r Hr [Hid Hle].
  specialize (Hno r Hr Hid). lia.
Qed.

(** Against one segment over the window that is not active, every
    interval inside the window is added whole to [down]. *)
Lemma inner_loop_single_segment F ws we st bhs (up down : Py.float F) :
  st ≠ "active" →
  within ws we bhs → Forall (λ bh : interval, bh.1 < bh.2) bhs →
  foldl (overlap_step F (ws, we, st)) (up, down) bhs
  = (up, foldl (λ acc bh, Py.float_add F acc (total_seconds F (bh.2 - bh.1))) down bhs).
Proof.
  intros Hst Hin Hpos. revert down.
  induction bhs as [|[bh_s bh_e] bhs IH]; intros down; [done|].
  apply Forall_cons in Hin as [[Hs He] Hin]. apply Forall_cons in Hpos as [Hlt Hpos].
  simpl in Hs, He, Hlt. cbn [foldl]. rewrite <- (IH Hin Hpos). f_equal.
  unfold overlap_step. rewrite (Z.max_r ws), (Z.min_r we) by lia.
  rewrite Z.geb_leb. destruct (Z.leb_spec bh_e bh_s); [lia|].
  by rewrite bool_decide_eq_false_2.
Qed.

(** A window of a store without observations: nothing is counted as
    uptime, and the downtime is the sum of the lengths of the
    business-hours intervals of the window. *)
Lemma window_seconds_no_observations F pytz_timezone session store_id tz_str bh_map
    (ws we : instant) bhs :
  ws < we →
  no_observations session store_id we →
  expand_business_hours_to_utc pytz_timezone tz_str bh_map (aware_utc ws) (aware_utc we)
  = Some bhs →
  window_seconds F pytz_timezone session store_id tz_str bh_map ws we
  = Some (Py.float_of_int F 0, sum_of_durations F bhs).
Proof.
  intros Hlt Hno Hexp. unfold window_seconds. rewrite Hexp. cbn [mbind option_bind].
  apply expand_business_hours_to_utc_normalized in Hexp as [(_ & Hpos & _) Hin];
    rewrite !to_aware_utc_aware_utc in *; [|done].
  destruct bhs as [|bh bhs]; [done|].
  rewrite status_segments_no_observations by done.
  unfold _accumulate_overlaps, sum_of_durations. f_equal.
  by apply (inner_loop_single_segment F ws we "inactive" (bh :: bhs)).
Qed.

Lemma get_business_hours_map_no_rules session store_id :
  no_rules session store_id → get_business_hours_map session store_id = ∅.
Proof.
  intros Hnr. unfold get_business_hours_map. rewrite filter_none; [done|].
  intros r Hr Hid. by apply (Hnr r Hr).
Qed.

(** C4, as the code has it.  For a store with no observation at or before
    [now], the timeline of each of the three windows is one inactive
    segment over the whole window; in every window nothing is counted as
    uptime and what is counted as downtime is the sum of the lengths of
    the business-hours intervals of the window, so that every result
    reports uptime 0 and, as downtime, these sums in minutes and in
    hours; and when the store has no business-hours rule, the result is
    uptime 0 and downtime 60 minutes, 24.0 hours and 168.0 hours. *)
Theorem no_observations_full_downtime
    (pytz_timezone : string → option tzinfo) (all_timezones : list string)
    (session : Session) (store_id : string) (now : datetime) :
  no_observations session store_id (to_aware_utc now) →
  let now_utc := to_aware_utc now in
  let tz_str := get_store_timezone_str all_timezones session store_id in
  let bh_map := get_business_hours_map session store_id in
  let expand w :=
    expand_business_hours_to_utc pytz_timezone tz_str bh_map
      (aware_utc (now_utc - w)) (aware_utc now_utc) in
  (∀ w, _status_segments session store_id (aware_utc (now_utc - w)) (aware_utc now_utc)
        = [(now_utc - w, now_utc, "inactive")])
  ∧ (∀ F w bhs, 0 < w → expand w = Some bhs →
       window_seconds F pytz_timezone session store_id tz_str bh_map (now_utc - w) now_utc
       = Some (Py.float_of_int F 0, sum_of_durations F bhs))
  ∧ (∀ r, metrics_for_store Py.binary64 pytz_timezone all_timezones session store_id now
          = Some r →
       uptime_last_hour r = 0
       ∧ uptime_last_day r = Py.Binary64.of_int 0
       ∧ uptime_last_week r = Py.Binary64.of_int 0
       ∧ ∃ bhs_h bhs_d bhs_w,
           expand hour_window = Some bhs_h
           ∧ expand day_window = Some bhs_d
           ∧ expand week_window = Some bhs_w
           ∧ in_minutes Py.binary64 (sum_of_durations Py.binary64 bhs_h)
             = Some (downtime_last_hour r)
           ∧ downtime_last_day r = in_hours Py.binary64 (sum_of_durations Py.binary64 bhs_d)
           ∧ downtime_last_week r = in_hours Py.binary64 (sum_of_durations Py.binary64 bhs_w))
  ∧ (no_rules session store_id →
     ∃ r, metrics_for_store Py.binary64 pytz_timezone all_timezones session store_id now
          = Some r
          ∧ uptime_last_hour r = 0 ∧ downtime_last_hour r = 60
          ∧ uptime_last_day r = Py.Binary64.of_int 0
          ∧ downtime_last_day r = Py.Binary64.of_int 24
          ∧ uptime_last_week r = Py.Binary64.of_int 0
          ∧ downtime_last_week r = Py.Binary64.of_int 168).
Proof.
  intros Hno now_utc tz_str bh_map expand.
  assert (0 < hour_window ∧ 0 < day_window ∧ 0 < week_window) as (Hh & Hd & Hw)
    by (unfold hour_window, day_window, week_window, US_PER_HOUR, US_PER_DAY,
          US_PER_SECOND; lia).
  assert (∀ F w bhs, 0 < w → expand w = Some bhs →
            window_seconds F pytz_timezone session store_id tz_str bh_map
              (now_utc - w) now_utc
            = Some (Py.float_of_int F 0, sum_of_durations F bhs)) as Hwin.
  { intros F w bhs Hpos Hexp. apply window_seconds_no_observations; [lia|done|done]. }
  split; [|split; [exact Hwin|split]].
  - intros w. by apply status_segments_no_observations.
  - intros r Hr.
    destruct (metrics_for_store_inv pytz_timezone all_timezones Py.binary64
                session store_id now r Hr)
      as (up_h & down_h & up_d & down_d & up_w & down_w & um & dm
          & Wh & Wd & Ww & Hum & Hdm & ->).
    fold now_utc tz_str bh_map in Wh, Wd, Ww.
    assert (∀ w acc, window_seconds Py.binary64 pytz_timezone session store_id tz_str
                       bh_map (now_utc - w) now_utc = Some acc →
                     ∃ bhs, expand w = Some bhs) as Hex.
    { intros w acc. unfold window_seconds. fold (expand w).
      destruct (expand w) as [bhs|]; [eauto|done]. }
    destruct (Hex _ _ Wh) as [bhs_h Eh]. destruct (Hex _ _ Wd) as [bhs_d Ed].
    destruct (Hex _ _ Ww) as [bhs_w Ew].
    rewrite (Hwin Py.binary64 _ _ Hh Eh) in Wh. rewrite (Hwin Py.binary64 _ _ Hd Ed) in Wd.
    rewrite (Hwin Py.binary64 _ _ Hw Ew) in Ww.
    injection Wh as <- <-. injection Wd as <- <-. injection Ww as <- <-.
    cbn [uptime_last_hour downtime_last_hour uptime_last_day downtime_last_day
         uptime_last_week downtime_last_week].
    split; [by vm_compute in Hum; injection Hum|].
    split; [by vm_compute|]. split; [by vm_compute|].
    exists bhs_h, bhs_d, bhs_w. done.
  - intros Hnr. unfold metrics_for_store. fold now_utc tz_str bh_map.
    assert (∀ w, expand w = Some [(now_utc - w, now_utc)]) as Hexp.
    { intros w. unfold expand, bh_map, expand_business_hours_to_utc.
      rewrite get_business_hours_map_no_rules by done.
      rewrite bool_decide_eq_true_2 by done. by rewrite !to_aware_utc_aware_utc. }
    rewrite (Hwin Py.binary64 _ _ Hh (Hexp _)), (Hwin Py.binary64 _ _ Hd (Hexp _)),
      (Hwin Py.binary64 _ _ Hw (Hexp _)).
    unfold sum_of_durations. cbn [foldl fst snd].
    replace (now_utc - (now_utc - hour_window)) with hour_window by lia.
    replace (now_utc - (now_utc - day_window)) with day_window by lia.
    replace (now_utc - (now_utc - week_window)) with week_window by lia.
    exists (Build_MetricsResult (float := Py.float Py.binary64) 0 60
              (Py.Binary64.of_int 0) (Py.Binary64.of_int 24)
              (Py.Binary64.of_int 0) (Py.Binary64.of_int 168)).
    split; [by vm_compute|]. by repeat split.
Qed.

(** C4, as the specification states it, fails: a store with no
    observation that is open on Mondays from 09:00 to 10:00 has, at noon
    UTC on Tuesday 2025-05-06, no downtime in the last hour and one hour
    of downtime in the last day and in the last week. *)
Lemma no_observations_restricted_hours :
  no_observations session_monday_hour "s2" (to_aware_utc (utc_at may_6 12 0))
  ∧ ∃ r, metrics_for_store Py.binary64 pytz_cdt all_timezones session_monday_hour "s2"
           (utc_at may_6 12 0) = Some r
         ∧ downtime_last_hour r = 0 ∧ downtime_last_hour r ≠ 60
         ∧ downtime_last_day r = Py.Binary64.of_int 1
         ∧ downtime_last_day r ≠ Py.Binary64.of_int 24
         ∧ downtime_last_week r = Py.Binary64.of_int 1
         ∧ downtime_last_week r ≠ Py.Binary64.of_int 168.
Proof.
  split.
  - intros r Hr. by apply elem_of_nil in Hr.
  - eexists. split; [by vm_compute|]. by vm_compute.
Qed.

Lemma no_observations_full_downtime_witness :
  ∃ r, metrics_for_store Py.binary64 pytz_none all_timezones session_mixed "nobody"
         (utc_at may_6 12 0) = Some r
       ∧ uptime_last_hour r = 0 ∧ downtime_last_hour r = 60
       ∧ uptime_last_day r = Py.Binary64.of_int 0
       ∧ downtime_last_day r = Py.Binary64.of_int 24
       ∧ uptime_last_week r = Py.Binary64.of_int 0
       ∧ downtime_last_week r = Py.Binary64.of_int 168.
Proof.
  refine (proj2 (proj2 (proj2 (no_observations_full_downtime pytz_none all_timezones
                   session_mixed "nobody" (utc_at may_6 12 0) _))) _).
  - intros r Hr Hid. exfalso.
    repeat (apply elem_of_cons in Hr as [->|Hr]; [discriminate Hid|]).
    by apply elem_of_nil in Hr.
  - intros r Hr. by apply elem_of_nil in Hr.
Defined.
End MetricsProperties.

(* ===================================================================== *)
(** * What the accumulation adds, and the unit conversions *)
(* ===================================================================== *)

Section PiecesFacts.
Import DateTime TimeUtils Uptime Spec.

Lemma foldl_flat_map {A B C} (f : A → B → A) (g : C → list B) (a : A) (l : list C) :
  foldl f a (flat_map g l) = foldl (λ acc x, foldl f acc (g x)) a l.
Proof.
  revert a. induction l as [|x l IH]; intros a; simpl; [done|].
  by rewrite foldl_app, IH.
Qed.

Lemma foldl_ext_all {A B} (f g : A → B → A) (a : A) (l : list B) :
  (∀ acc x, f acc x = g acc x) → foldl f a l = foldl g a l.
Proof.
  intros Hfg. revert a. induction l as [|x l IH]; intros a; simpl; [done|].
  by rewrite Hfg, IH.
Qed.

(** One turn of the inner loop adds one duration or none. *)
Lemma overlap_step_charge F (seg : segment) acc (bh : interval) :
  overlap_step F seg acc bh
  = foldl (charge F) acc
      (if Z.max seg.1.1 bh.1 >=? Z.min seg.1.2 bh.2 then []
       else [(seg.2, Z.min seg.1.2 bh.2 - Z.max seg.1.1 bh.1)]).
Proof.
  destruct seg as [[seg_s seg_e] state], bh as [bh_s bh_e], acc as [up down].
  unfold overlap_step, charge. simpl.
  destruct (Z.max seg_s bh_s >=? Z.min seg_e bh_e); [done|]. simpl.
  by case_bool_decide.
Qed.

(** The two loops add the durations of [overlap_pieces], in order. *)
Lemma accumulate_overlaps_pieces F segs bhs :
  _accumulate_overlaps F segs bhs
  = foldl (charge F) (Py.float_of_int F 0, Py.float_of_int F 0) (overlap_pieces segs bhs).
Proof.
  unfold _accumulate_overlaps, overlap_pieces. rewrite foldl_flat_map.
  apply foldl_ext_all. intros acc seg. rewrite foldl_flat_map.
  apply foldl_ext_all. intros acc' bh. apply overlap_step_charge.
Qed.

Lemma charged_app l1 l2 : charged (l1 ++ l2) = charged l1 + charged l2.
Proof. induction l1 as [|x l1 IH]; unfold charged in *; simpl; lia. Qed.

(** As timedeltas, these durations add up to the total overlap. *)
Lemma charged_overlap_pieces segs bhs :
  charged (overlap_pieces segs bhs) = overlap_total segs bhs.
Proof.
  unfold overlap_pieces, overlap_total.
  induction segs as [|seg segs IH]; simpl; [done|].
  rewrite charged_app, IH. f_equal. clear IH.
  induction bhs as [|bh bhs IH]; simpl; [done|].
  rewrite charged_app, IH. f_equal. unfold overlap_us. rewrite Z.geb_leb.
  destruct (Z.leb_spec (Z.min seg.1.2 bh.2) (Z.max seg.1.1 bh.1));
    unfold charged; simpl; lia.
Qed.

Lemma overlap_pieces_positive segs bhs :
  Forall (λ piece : string * timedelta, 0 < piece.2) (overlap_pieces segs bhs).
Proof.
  apply Forall_forall. intros piece Hp. unfold overlap_pieces in Hp.
  apply list_elem_of_In, in_flat_map in Hp as (seg & _ & Hp).
  apply in_flat_map in Hp as (bh & _ & Hp). revert Hp. rewrite Z.geb_leb.
  destruct (Z.leb_spec (Z.min seg.1.2 bh.2) (Z.max seg.1.1 bh.1)); [done|].
  intros [<-|[]]. simpl. lia.
Qed.

(** In binary64 the two accumulators are never negative. *)
Lemma charge_nonneg (pieces : list (string * timedelta))
    (acc : Py.float Py.binary64 * Py.float Py.binary64) :
  Forall (λ piece : string * timedelta, 0 < piece.2) pieces →
  Py.Binary64.nonneg acc.1 = true → Py.Binary64.nonneg acc.2 = true →
  Py.Binary64.nonneg (foldl (charge Py.binary64) acc pieces).1 = true
  ∧ Py.Binary64.nonneg (foldl (charge Py.binary64) acc pieces).2 = true.
Proof.
  intros Hall. revert acc. induction Hall as [|piece pieces Hpos Hall IH];
    intros [up down] Hu Hd; [done|].
  cbn [foldl]. simpl in Hu, Hd.
  assert (Py.Binary64.nonneg (total_seconds Py.binary64 piece.2) = true) as Hdur
    by (apply int_truediv_nonneg; lia).
  apply IH; unfold charge; case_bool_decide; simpl; try done;
    by apply add_nonneg.
Qed.

Lemma window_seconds_nonneg pytz_timezone session store_id tz_str bh_map ws we
    (up down : Py.float Py.binary64) :
  window_seconds Py.binary64 pytz_timezone session store_id tz_str bh_map ws we
  = Some (up, down) →
  Py.Binary64.nonneg up = true ∧ Py.Binary64.nonneg down = true.
Proof.
  unfold window_seconds.
  destruct (expand_business_hours_to_utc _ _ _ _ _) as [[|bh bhs]|];
    cbn [mbind option_bind]; [by intros [= <- <-]| |done].
  rewrite accumulate_overlaps_pieces. intros [= Heq].
  set (pieces := overlap_pieces _ _) in Heq.
  assert (up = (foldl (charge Py.binary64)
                  (Py.float_of_int Py.binary64 0, Py.float_of_int Py.binary64 0) pieces).1
          ∧ down = (foldl (charge Py.binary64)
                      (Py.float_of_int Py.binary64 0, Py.float_of_int Py.binary64 0)
                      pieces).2) as [-> ->]
    by (split; [exact (f_equal fst (eq_sym Heq))|exact (f_equal snd (eq_sym Heq))]).
  apply charge_nonneg; [apply overlap_pieces_positive|done|done].
Qed.
End PiecesFacts.

Section ConversionProperties.
Import DateTime TimeUtils Uptime Spec Sample.

(** The double [round(18 / 3600.0, 2)] is [0.01] and
    [round(604710 / 3600.0, 2)] is [167.97]: the two quotients are the
    doubles next to 0.005 and 167.975, which lie above and below them. *)
Lemma in_hours_rounds_the_double :
  in_hours Py.binary64 (Py.Binary64.of_int 18) = Py.Binary64.int_truediv 1 100
  ∧ in_hours Py.binary64 (Py.Binary64.of_int 604710) = Py.Binary64.int_truediv 16797 100.
Proof. split; by vm_compute. Qed.

(** Durations of 0.3 s, 32.3 s and 27.4 s add up to the double below 60,
    which is 0 minutes. *)
Lemma in_minutes_truncates_the_double :
  in_minutes Py.binary64
    (foldl (charge Py.binary64) (Py.Binary64.of_int 0, Py.Binary64.of_int 0)
       [("active", 300000); ("active", 32300000); ("active", 27400000)]).1
  = Some 0.
Proof. by vm_compute. Qed.

(** C7. Of every result of [metrics_for_store], computed in binary64: the
    seconds accumulated in the three windows are doubles that are not
    negative; the two fields of the hour window are [int] of the double
    seconds / 60, which is the floor of that double; and the fields of
    the day and week windows are [round(q, 2)] of the double
    [q = seconds / 3600.0], which, [q] being finite, is the double
    nearest to a number [n / 100] with [n] an integer and [n / 100]
    within [1 / 200] of [q]. *)
Theorem metrics_unit_conversion
    (pytz_timezone : string → option tzinfo) (all_timezones : list string)
    (session : Session) (store_id : string) (now : datetime)
    (r : MetricsResult (Py.float Py.binary64)) :
  metrics_for_store Py.binary64 pytz_timezone all_timezones session store_id now = Some r →
  let tz_str := get_store_timezone_str all_timezones session store_id in
  let bh_map := get_business_hours_map session store_id in
  let window w :=
    window_seconds Py.binary64 pytz_timezone session store_id tz_str bh_map
      (to_aware_utc now - w) (to_aware_utc now) in
  ∃ up_h down_h up_d down_d up_w down_w,
    window hour_window = Some (up_h, down_h)
    ∧ window day_window = Some (up_d, down_d)
    ∧ window week_window = Some (up_w, down_w)
    ∧ Forall (λ x, Py.Binary64.nonneg x = true) [up_h; down_h; up_d; down_d; up_w; down_w]
    ∧ whole_minutes up_h (uptime_last_hour r)
    ∧ whole_minutes down_h (downtime_last_hour r)
    ∧ hours_two_decimals up_d (uptime_last_day r)
    ∧ hours_two_decimals down_d (downtime_last_day r)
    ∧ hours_two_decimals up_w (uptime_last_week r)
    ∧ hours_two_decimals down_w (downtime_last_week r).
Proof.
  intros Hr tz_str bh_map window.
  destruct (metrics_for_store_inv pytz_timezone all_timezones Py.binary64
              session store_id now r Hr)
    as (up_h & down_h & up_d & down_d & up_w & down_w & um & dm
        & Wh & Wd & Ww & Hum & Hdm & ->).
  exists up_h, down_h, up_d, down_d, up_w, down_w.
  destruct (window_seconds_nonneg _ _ _ _ _ _ _ _ _ Wh) as [Nuh Ndh].
  destruct (window_seconds_nonneg _ _ _ _ _ _ _ _ _ Wd) as [Nud Ndd].
  destruct (window_seconds_nonneg _ _ _ _ _ _ _ _ _ Ww) as [Nuw Ndw].
  assert (∀ x z, Py.Binary64.nonneg x = true → in_minutes Py.binary64 x = Some z →
                 whole_minutes x z) as Hmin.
  { intros x z Hx Hz. split; [exact Hz|].
    apply int_floor_value; [|exact Hz]. by apply (truediv_nonneg x). }
  assert (∀ x, Py.Binary64.nonneg x = true →
               hours_two_decimals x (in_hours Py.binary64 x)) as Hhours.
  { intros x Hx. split; [done|]. intros Hfin.
    apply round2_two_decimals; [|exact Hfin]. by apply (truediv_nonneg x). }
  cbn [uptime_last_hour downtime_last_hour uptime_last_day downtime_last_day
       uptime_last_week downtime_last_week].
  split; [exact Wh|]. split; [exact Wd|]. split; [exact Ww|].
  split; [by repeat constructor|].
  split; [by apply Hmin|]. split; [by apply Hmin|].
  repeat split; by apply Hhours.
Qed.

(** C10, as the code has it.  For segments that partition [[ws, we)] and
    normalized business-hours intervals inside [[ws, we)]: whatever the
    arithmetic of floats, [_accumulate_overlaps] adds to [up] or to
    [down], in loop order, the durations of [overlap_pieces]; these are
    positive and, as timedeltas, add up to the total length of the
    intervals, which is at most the length of the window; and in exact
    arithmetic [up + down] is that total in seconds.  In every window of
    [metrics_for_store], whatever the arithmetic, the two numbers are
    sums of positive durations that as timedeltas add up to at most the
    length of the window; and in exact arithmetic their sum is at most
    the length of the window in seconds. *)
Theorem accumulate_overlaps_total :
  (∀ (segs : list segment) (bhs : list interval) (ws we : instant),
     partitions ws we segs → normalized bhs → within ws we bhs →
     (∀ F, _accumulate_overlaps F segs bhs
           = foldl (charge F) (Py.float_of_int F 0, Py.float_of_int F 0)
               (overlap_pieces segs bhs))
     ∧ Forall (λ piece : string * timedelta, 0 < piece.2) (overlap_pieces segs bhs)
     ∧ charged (overlap_pieces segs bhs) = total_duration bhs
     ∧ total_duration bhs ≤ we - ws
     ∧ ((_accumulate_overlaps Py.exact segs bhs).1 + (_accumulate_overlaps Py.exact segs bhs).2
        == seconds (total_duration bhs))%Q)
  ∧ (∀ F (pytz_timezone : string → option tzinfo) (session : Session)
       (store_id tz_str : string) (bh_map : gmap Z (list (Z * Z))) (ws we : instant) acc,
       ws < we →
       window_seconds F pytz_timezone session store_id tz_str bh_map ws we = Some acc →
       ∃ pieces,
         acc = foldl (charge F) (Py.float_of_int F 0, Py.float_of_int F 0) pieces
         ∧ Forall (λ piece : string * timedelta, 0 < piece.2) pieces
         ∧ charged pieces ≤ we - ws)
  ∧ (∀ (pytz_timezone : string → option tzinfo) (session : Session)
       (store_id tz_str : string) (bh_map : gmap Z (list (Z * Z))) (ws we : instant)
       (up down : Py.float Py.exact),
       ws < we →
       window_seconds Py.exact pytz_timezone session store_id tz_str bh_map ws we
       = Some (up, down) →
       (0 <= up ∧ 0 <= down ∧ up + down <= seconds (we - ws))%Q).
Proof.
  split; [|split].
  - intros segs bhs ws we Hpart Hnorm Hin.
    assert (Forall (λ iv : interval, iv.1 ≤ iv.2) bhs) as Hnn.
    { destruct Hnorm as (_ & Hpos & _). eapply Forall_impl; [exact Hpos|]. simpl. lia. }
    assert (overlap_total segs bhs = total_duration bhs) as Htot.
    { rewrite (overlap_total_chain ws segs we), clipped_duration_within; [done..| |done].
      eapply chain_by_weaken; [|by apply partitions_chain]. simpl. lia. }
    split; [intros F; apply accumulate_overlaps_pieces|].
    split; [apply overlap_pieces_positive|].
    split; [by rewrite charged_overlap_pieces|].
    split.
    + pose proof (total_duration_bound ws we bhs Hnorm Hin) as [H0 Hb].
      assert (ws ≤ we); [|lia].
      apply partitions_chain, (chain_by_weaken Z.lt Z.le) in Hpart; [|lia].
      by apply chain_by_le_bounds in Hpart.
    + destruct (accumulate_overlaps_spec segs bhs) as (up & down & -> & Hsum & _).
      simpl. by rewrite Hsum, Htot.
  - intros F pytz_timezone session store_id tz_str bh_map ws we acc Hlt Hw.
    destruct (window_seconds_pieces _ _ _ _ _ _ _ _ _ Hlt Hw) as (bhs & Hexp & Htot & Hle).
    revert Hw. unfold window_seconds. rewrite Hexp. cbn [mbind option_bind].
    destruct bhs as [|bh bhs].
    + intros [= <-]. exists []. split; [done|]. split; [constructor|].
      unfold charged. simpl. lia.
    + intros [= <-]. eexists. split; [apply accumulate_overlaps_pieces|].
      split; [apply overlap_pieces_positive|].
      rewrite charged_overlap_pieces, Htot. lia.
  - intros pytz_timezone session store_id tz_str bh_map ws we up down.
    apply window_seconds_bound.
Qed.

(** C10 without the provision for rounding fails of the code.  A store that is
    active for 0.3 s, inactive for 0.3 s and active for the remaining
    3599.4 s of an hour: in binary64 [up] is 3599.7000000000003 and [down]
    is 0.3, and their sum is the double 3600.0000000000005, which is not
    the length of the interval in seconds and is above the length of the
    window; the sum of the two numbers is above 3600 also when they are
    added exactly, and in minutes it is above 60.  These are the numbers
    of the last hour of such a store. *)
Lemma accumulate_overlaps_exceeds_window :
  let up := (_accumulate_overlaps Py.binary64 three_cuts whole_hour).1 in
  let down := (_accumulate_overlaps Py.binary64 three_cuts whole_hour).2 in
  partitions 0 3600000000 three_cuts
  ∧ normalized whole_hour ∧ within 0 3600000000 whole_hour
  ∧ Py.Binary64.add up down ≠ total_seconds Py.binary64 (total_duration whole_hour)
  ∧ (seconds (total_duration whole_hour) < Py.Binary64.value (Py.Binary64.add up down))%Q
  ∧ (seconds (3600000000 - 0) < Py.Binary64.value up + Py.Binary64.value down)%Q
  ∧ (60 < Py.Binary64.value (Py.Binary64.truediv up (Py.Binary64.of_int 60))
          + Py.Binary64.value (Py.Binary64.truediv down (Py.Binary64.of_int 60)))%Q
  ∧ window_seconds Py.binary64 pytz_none session_rounding "s6"
      (get_store_timezone_str all_timezones session_rounding "s6")
      (get_business_hours_map session_rounding "s6")
      (to_aware_utc (utc_at may_6 12 0) - hour_window) (to_aware_utc (utc_at may_6 12 0))
    = Some (up, down).
Proof.
  intros up down. split; [|split; [|split]].
  - repeat split; repeat constructor; unfold seg_start, seg_end; simpl; lia.
  - repeat split; repeat constructor; simpl; lia.
  - repeat constructor; simpl; lia.
  - split; [by vm_compute|]. split; [by vm_compute|]. split; [by vm_compute|].
    split; by vm_compute.
Qed.
End ConversionProperties.

Section ConversionWitnesses.
Import DateTime TimeUtils Uptime Spec Sample.

(** The store of [session_mixed] at noon UTC on 2025-05-06: 30 and 30
    minutes, 23.5 and 0.5 hours, 167.5 and 0.5 hours. *)
Lemma metrics_unit_conversion_witness :
  let r := Build_MetricsResult (float := Py.float Py.binary64) 30 30
             (Py.Binary64.int_truediv 2350 100) (Py.Binary64.int_truediv 50 100)
             (Py.Binary64.int_truediv 16750 100) (Py.Binary64.int_truediv 50 100) in
  let window w :=
    window_seconds Py.binary64 pytz_cdt session_mixed "s3"
      (get_store_timezone_str all_timezones session_mixed "s3")
      (get_business_hours_map session_mixed "s3")
      (to_aware_utc (utc_at may_6 12 0) - w) (to_aware_utc (utc_at may_6 12 0)) in
  metrics_for_store Py.binary64 pytz_cdt all_timezones session_mixed "s3" (utc_at may_6 12 0)
  = Some r
  ∧ ∃ up_h down_h up_d down_d up_w down_w,
      window hour_window = Some (up_h, down_h)
      ∧ window day_window = Some (up_d, down_d)
      ∧ window week_window = Some (up_w, down_w)
      ∧ Forall (λ x, Py.Binary64.nonneg x = true) [up_h; down_h; up_d; down_d; up_w; down_w]
      ∧ whole_minutes up_h (uptime_last_hour r)
      ∧ whole_minutes down_h (downtime_last_hour r)
      ∧ hours_two_decimals up_d (uptime_last_day r)
      ∧ hours_two_decimals down_d (downtime_last_day r)
      ∧ hours_two_decimals up_w (uptime_last_week r)
      ∧ hours_two_decimals down_w (downtime_last_week r).
Proof.
  intros r window. split; [vm_compute; reflexivity|].
  apply (metrics_unit_conversion pytz_cdt all_timezones session_mixed "s3"
           (utc_at may_6 12 0) r).
  vm_compute. reflexivity.
Defined.

(** The three cuts of an hour against the whole hour. *)
Lemma accumulate_overlaps_total_witness :
  (∀ F, _accumulate_overlaps F three_cuts whole_hour
        = foldl (charge F) (Py.float_of_int F 0, Py.float_of_int F 0)
            (overlap_pieces three_cuts whole_hour))
  ∧ Forall (λ piece : string * timedelta, 0 < piece.2) (overlap_pieces three_cuts whole_hour)
  ∧ charged (overlap_pieces three_cuts whole_hour) = total_duration whole_hour
  ∧ total_duration whole_hour ≤ 3600000000 - 0
  ∧ ((_accumulate_overlaps Py.exact three_cuts whole_hour).1
     + (_accumulate_overlaps Py.exact three_cuts whole_hour).2
     == seconds (total_duration whole_hour))%Q.
Proof.
  apply (proj1 accumulate_overlaps_total three_cuts whole_hour 0 3600000000).
  - repeat split; repeat constructor; unfold seg_start, seg_end; simpl; lia.
  - repeat split; repeat constructor; simpl; lia.
  - repeat constructor; simpl; lia.
Defined.
End ConversionWitnesses.

(* ===================================================================== *)
(** * The parallel batch *)
(* ===================================================================== *)

Section BatchFacts.
Import DateTime TimeUtils Uptime ReportGenerator Py Spec.
Context {float : Type}.
Variable task : string → outcome (MetricsResult float).

(** The loop appends the rows of the tasks that returned and the ids of
    those that raised, in completion order. *)
Lemma collect_spec order results failed_stores :
  foldl (collect_step task) (results, failed_stores) order
  = (results ++ omap (row_of task) order, failed_stores ++ omap (failure_of task) order).
Proof.
  revert results failed_stores.
  induction order as [|s order IH]; intros results failed_stores; simpl.
  - by rewrite !app_nil_r.
  - change (omap (row_of task) (s :: order))
      with (match row_of task s with
            | Some y => y :: omap (row_of task) order
            | None => omap (row_of task) order
            end).
    change (omap (failure_of task) (s :: order))
      with (match failure_of task s with
            | Some y => y :: omap (failure_of task) order
            | None => omap (failure_of task) order
            end).
    unfold row_of at 1, failure_of at 1.
    destruct (task s) as [m|msg]; rewrite IH; by rewrite <- app_assoc.
Qed.

Lemma run_batch_spec as_completed store_ids :
  run_batch task as_completed store_ids
  = {| results := sort_results (omap (row_of task) (as_completed store_ids));
       failed_stores := omap (failure_of task) (as_completed store_ids) |}.
Proof. unfold run_batch. by rewrite collect_spec. Qed.

Lemma elem_of_rows (r : row float) (l : list string) :
  r ∈ omap (row_of task) l ↔
  row_store_id r ∈ l ∧ task (row_store_id r) = Returned (row_metrics r).
Proof.
  rewrite list_elem_of_omap. unfold row_of. split.
  - intros (s & Hs & Hr). destruct (task s) as [m|msg] eqn:Ht; [|done].
    injection Hr as <-. done.
  - intros [Hs Ht]. exists (row_store_id r). split; [done|]. rewrite Ht. by destruct r.
Qed.

Lemma rows_store_ids (l : list string) :
  row_store_id <$> omap (row_of task) l
  = filter (λ s, is_Some (row_of task s)) l.
Proof.
  induction l as [|s l IH]; [done|]. rewrite filter_cons.
  change (omap (row_of task) (s :: l))
    with (match row_of task s with
          | Some y => y :: omap (row_of task) l
          | None => omap (row_of task) l
          end).
  destruct (row_of task s) as [r|] eqn:Hr.
  - rewrite decide_True by eauto. rewrite fmap_cons, IH. f_equal.
    unfold row_of in Hr. destruct (task s); [|done]. by injection Hr as <-.
  - rewrite decide_False; [done|]. by intros [r Hr'].
Qed.

Lemma sort_results_ascending (rows : list (row float)) :
  rows_ascending (sort_results rows).
Proof.
  apply (sorted_StronglySorted (λ a b, String.leb (row_store_id a) (row_store_id b))).
  - intros x y. apply String.leb_total.
  - intros x y z. apply string_leb_trans.
Qed.

(** The sorted rows do not depend on the order of completion. *)
Lemma sort_results_order (l1 l2 : list string) :
  Permutation l1 l2 →
  sort_results (omap (row_of task) l1) = sort_results (omap (row_of task) l2).
Proof.
  intros Hp. eapply StronglySorted_Permutation_eq;
    [|apply sort_results_ascending..|].
  - intros x y Hx Hy Hxy Hyx. simpl in *.
    unfold sort_results in Hx, Hy.
    apply sorted_elem_of, elem_of_rows in Hx as [_ Hx].
    apply sorted_elem_of, elem_of_rows in Hy as [_ Hy].
    pose proof (String.leb_antisym _ _ Hxy Hyx) as Heq.
    destruct x as [sx mx], y as [sy my]. simpl in *. subst sy.
    rewrite Hx in Hy. by injection Hy as ->.
  - unfold sort_results. rewrite !sorted_Permutation. by rewrite Hp.
Qed.
End BatchFacts.

Section BatchProperties.
Import DateTime TimeUtils Uptime ReportGenerator Py Spec Sample.

(** C3. Whatever subset of the per-store computations fails, and in
    whatever order the computations complete, the parallel report
    generation completes; its rows are exactly the rows of the stores
    whose computation returned, each with the metrics computed for that
    store; the failed stores, and only they, are in [failed_stores]; the
    rows are in ascending order of store id, with no store twice; and
    the rows are the same for every completion order. *)
Theorem generate_report_optimized_isolates_failures
    (F : float_ops) (pytz_timezone : string → option tzinfo) (all_timezones : list string)
    (SessionLocal : string → outcome Session)
    (store_ids : list string) (now : datetime)
    (as_completed : list string → list string) :
  NoDup store_ids →
  Permutation (as_completed store_ids) store_ids →
  let task :=
    λ store_id, process_store F pytz_timezone all_timezones SessionLocal store_id now in
  ∃ rep,
    generate_report_optimized F pytz_timezone all_timezones SessionLocal
      (Returned store_ids) now as_completed
    = Returned rep
    ∧ (∀ r, r ∈ results rep ↔
            row_store_id r ∈ store_ids ∧ task (row_store_id r) = Returned (row_metrics r))
    ∧ (∀ s, s ∈ failed_stores rep ↔ s ∈ store_ids ∧ ∃ msg, task s = Raised msg)
    ∧ (∀ s, s ∈ store_ids → (∃ msg, task s = Raised msg) →
            s ∉ (row_store_id <$> results rep))
    ∧ rows_ascending (results rep)
    ∧ NoDup (row_store_id <$> results rep)
    ∧ (∀ as_completed',
         Permutation (as_completed' store_ids) store_ids →
         generate_report_optimized F pytz_timezone all_timezones SessionLocal
           (Returned store_ids) now as_completed'
         = Returned {| results := results rep;
                       failed_stores := omap (failure_of task) (as_completed' store_ids) |}).
Proof.
  intros Hnd Hperm task. unfold generate_report_optimized. fold task.
  eexists. split; [reflexivity|]. rewrite run_batch_spec. simpl.
  split; [|split; [|split; [|split; [|split]]]].
  - intros r. unfold sort_results. rewrite sorted_elem_of, elem_of_rows.
    by rewrite Hperm.
  - intros s. rewrite list_elem_of_omap. unfold failure_of. split.
    + intros (s' & Hs' & Hf). destruct (task s') as [m|msg] eqn:Ht; [done|].
      injection Hf as <-. rewrite <- Hperm. eauto.
    + intros (Hs & msg & Hmsg). exists s. rewrite Hperm, Hmsg. done.
  - intros s _ [msg Hmsg] Hin.
    apply list_elem_of_fmap in Hin as (r & -> & Hr).
    unfold sort_results in Hr. apply sorted_elem_of, elem_of_rows in Hr as [_ Hr].
    congruence.
  - apply sort_results_ascending.
  - unfold sort_results. rewrite sorted_Permutation, rows_store_ids.
    apply NoDup_filter. by rewrite Hperm.
  - intros as_completed' Hperm'. fold task. rewrite run_batch_spec. f_equal. f_equal.
    apply sort_results_order. by rewrite Hperm, Hperm'.
Qed.

(** Three stores, of which "b" has no session; the tasks complete in the
    order "c", "b", "a". *)
Lemma generate_report_optimized_isolates_failures_witness :
  ∃ rep,
    generate_report_optimized binary64 pytz_cdt all_timezones sample_SessionLocal
      (Returned ["a"; "b"; "c"]) (utc_at may_6 12 0) reverse
    = Returned rep
    ∧ (row_store_id <$> results rep) = ["a"; "c"]
    ∧ failed_stores rep = ["b"].
Proof.
  destruct (generate_report_optimized_isolates_failures binary64 pytz_cdt all_timezones
              sample_SessionLocal ["a"; "b"; "c"] (utc_at may_6 12 0) reverse)
    as (rep & Hrep & _).
  - repeat constructor; rewrite ?elem_of_cons, ?elem_of_nil; intros H;
      repeat destruct H as [H|H]; done.
  - apply reverse_Permutation.
  - exists rep. split; [exact Hrep|].
    vm_compute in Hrep. injection Hrep as <-. split; reflexivity.
Defined.
End BatchProperties.

(* ===================================================================== *)
(** * Further properties of [merge_utc_intervals] and the expander *)
(* ===================================================================== *)

Section CoveredFacts.
Import DateTime TimeUtils Spec.

Lemma covered_nil t : ¬ covered t [].
Proof. intros (iv & Hiv & _). by apply elem_of_nil in Hiv. Qed.

Lemma covered_cons t (x : interval) l :
  covered t (x :: l) ↔ x.1 ≤ t < x.2 ∨ covered t l.
Proof.
  unfold covered. split.
  - intros (iv & Hiv & Ht). apply elem_of_cons in Hiv as [->|Hiv]; [by left|right; eauto].
  - intros [Ht|(iv & Hiv & Ht)].
    + exists x. split; [apply elem_of_cons; by left|done].
    + exists iv. split; [apply elem_of_cons; by right|done].
Qed.

Lemma covered_Permutation t l1 l2 : Permutation l1 l2 → covered t l1 ↔ covered t l2.
Proof.
  intros Hp. unfold covered. split; intros (iv & Hiv & Ht); exists iv; split; try done.
  - by rewrite <- Hp.
  - by rewrite Hp.
Qed.

Lemma merge_sweep_covered t last rest :
  StronglySorted (λ a b : interval, a.1 ≤ b.1) (last :: rest) →
  covered t (merge_sweep last rest) ↔ covered t (last :: rest).
Proof.
  revert last. induction rest as [|[s e] rest IH]; intros [ls le] Hs; simpl; [done|].
  apply StronglySorted_inv in Hs as [Hs Hls].
  apply Forall_cons in Hls as [Hls_s Hls]. simpl in Hls_s.
  destruct (Z.leb_spec s le).
  - rewrite IH.
    + rewrite !covered_cons. simpl. intuition lia.
    + constructor; [|done]. by apply StronglySorted_inv in Hs as [? ?].
  - rewrite covered_cons, (IH (s, e) Hs). by rewrite (covered_cons t (ls, le)).
Qed.

(** The merged list covers the instants the input covers, and no other. *)
Lemma merge_utc_intervals_covered t l :
  covered t (merge_utc_intervals l) ↔ covered t l.
Proof.
  rewrite merge_utc_intervals_sweep.
  pose proof (sorted_by_start_StronglySorted l) as Hs.
  rewrite <- (covered_Permutation t _ _ (sorted_Permutation start_leb l)).
  destruct (Py.sorted start_leb l) as [|first rest]; [done|].
  by apply merge_sweep_covered.
Qed.

Lemma separated_head (x : interval) l :
  Sorted (λ a b : interval, a.2 < b.1) (x :: l) →
  Forall (λ iv : interval, iv.1 < iv.2) (x :: l) →
  Forall (λ iv : interval, x.2 < iv.1) l.
Proof.
  revert x. induction l as [|y l IH]; intros x Hs Hpos; [constructor|].
  apply Sorted_inv in Hs as [Hs Hhd]. apply HdRel_inv in Hhd.
  apply Forall_cons in Hpos as [Hx Hpos].
  pose proof (IH y Hs Hpos) as Hy. apply Forall_cons in Hpos as [Hypos _].
  constructor; [done|]. eapply Forall_impl; [exact Hy|]. simpl. lia.
Qed.

(** A normalized list is determined by the instants it covers. *)
Lemma normalized_covered_eq l1 l2 :
  normalized l1 → normalized l2 →
  (∀ t, covered t l1 ↔ covered t l2) → l1 = l2.
Proof.
  intros (_ & Hpos1 & Hsep1) (_ & Hpos2 & Hsep2). revert l2 Hpos2 Hsep2.
  induction l1 as [|x r1 IH]; intros l2 Hpos2 Hsep2 Hcov.
  - destruct l2 as [|y r2]; [done|]. exfalso.
    apply Forall_cons in Hpos2 as [Hy _].
    apply (covered_nil y.1), Hcov, covered_cons. left. lia.
  - destruct l2 as [|y r2].
    { exfalso. apply Forall_cons in Hpos1 as [Hx _].
      apply (covered_nil x.1), Hcov, covered_cons. left. lia. }
    pose proof (separated_head x r1 Hsep1 Hpos1) as Hx_r1.
    pose proof (separated_head y r2 Hsep2 Hpos2) as Hy_r2.
    apply Forall_cons in Hpos1 as [Hx Hpos1]. apply Forall_cons in Hpos2 as [Hy Hpos2].
    apply Sorted_inv in Hsep1 as [Hsep1 _]. apply Sorted_inv in Hsep2 as [Hsep2 _].
    assert (∀ t, covered t r1 → x.2 < t) as Hr1.
    { intros t (iv & Hiv & Ht). rewrite Forall_forall in Hx_r1.
      specialize (Hx_r1 iv Hiv). lia. }
    assert (∀ t, covered t r2 → y.2 < t) as Hr2.
    { intros t (iv & Hiv & Ht). rewrite Forall_forall in Hy_r2.
      specialize (Hy_r2 iv Hiv). lia. }
    assert (x.1 = y.1) as Hstart.
    { assert (y.1 ≤ x.1).
      { assert (covered x.1 (y :: r2)) as Hc by (apply Hcov, covered_cons; left; lia).
        apply covered_cons in Hc as [?|Hc]; [lia|]. apply Hr2 in Hc. lia. }
      assert (x.1 ≤ y.1).
      { assert (covered y.1 (x :: r1)) as Hc by (apply Hcov, covered_cons; left; lia).
        apply covered_cons in Hc as [?|Hc]; [lia|]. apply Hr1 in Hc. lia. }
      lia. }
    assert (x.2 = y.2) as Hend.
    { destruct (Z.lt_trichotomy x.2 y.2) as [Hlt|[?|Hlt]]; [|done|]; exfalso.
      - assert (covered x.2 (x :: r1)) as Hc by (apply Hcov, covered_cons; left; lia).
        apply covered_cons in Hc as [?|Hc]; [lia|]. apply Hr1 in Hc. lia.
      - assert (covered y.2 (y :: r2)) as Hc by (apply Hcov, covered_cons; left; lia).
        apply covered_cons in Hc as [?|Hc]; [lia|]. apply Hr2 in Hc. lia. }
    assert (x = y) as -> by (destruct x, y; simpl in *; congruence).
    f_equal. apply IH; try done.
    intros t. split; intros Hc.
    + assert (covered t (y :: r2)) as Hc' by (apply Hcov, covered_cons; by right).
      apply covered_cons in Hc' as [?|?]; [|done]. apply Hr1 in Hc. lia.
    + assert (covered t (y :: r1)) as Hc' by (apply Hcov, covered_cons; by right).
      apply covered_cons in Hc' as [?|?]; [|done]. apply Hr2 in Hc. lia.
Qed.

End CoveredFacts.

Section IsolatedFacts.
Import DateTime TimeUtils Spec.
Variable pytz_timezone : string → option tzinfo.

(** With a known zone and at least one rule, the result is the merge of
    the clipped intervals of the rules on the scanned dates. *)
Lemma expand_business_hours_to_utc_known tz_str tz (bh_map : gmap Z (list (Z * Z))) ws we :
  pytz_timezone tz_str = Some tz →
  bh_map ≠ ∅ →
  expand_business_hours_to_utc pytz_timezone tz_str bh_map ws we
  = Some (merge_utc_intervals
            (expand_dates tz bh_map (to_aware_utc ws) (to_aware_utc we)
               (scanned_dates tz (to_aware_utc ws) (to_aware_utc we)))).
Proof.
  intros Htz Hne. unfold expand_business_hours_to_utc, utc_to_local.
  rewrite bool_decide_eq_false_2 by done. rewrite Htz. simpl. by rewrite !Z.sub_0_r.
Qed.

(** An instant the result of the expander covers lies in the window and
    in the interval of a rule on a scanned date. *)
Lemma expand_business_hours_to_utc_covered_inv tz_str tz (bh_map : gmap Z (list (Z * Z)))
    ws we out t :
  pytz_timezone tz_str = Some tz →
  bh_map ≠ ∅ →
  expand_business_hours_to_utc pytz_timezone tz_str bh_map ws we = Some out →
  covered t out →
  to_aware_utc ws ≤ t < to_aware_utc we
  ∧ open_by_rule tz bh_map (scanned_dates tz (to_aware_utc ws) (to_aware_utc we)) t.
Proof.
  intros Htz Hne. rewrite (expand_business_hours_to_utc_known tz_str tz) by done.
  intros [= <-]. rewrite merge_utc_intervals_covered.
  intros (c & Hc & Ht). apply elem_of_expand_dates in Hc as (d & rule & Hd & Hr & Hc).
  apply elem_of_clip_to_window in Hc as (? & ? & ? & ->). simpl in Ht.
  split; [lia|]. exists d, rule. repeat split; try done; lia.
Qed.

(** The part of a rule's interval inside the window is an interval of
    the result, as it is, when no rule reaches across its bounds. *)
Lemma expand_isolated_interval tz_str tz (bh_map : gmap Z (list (Z * Z))) ws we d rule :
  pytz_timezone tz_str = Some tz →
  d ∈ scanned_dates tz (to_aware_utc ws) (to_aware_utc we) →
  rule ∈ default [] (bh_map !! weekday d) →
  let a := Z.max (rule_utc tz d rule).1 (to_aware_utc ws) in
  let b := Z.min (rule_utc tz d rule).2 (to_aware_utc we) in
  a < b →
  isolated tz bh_map (to_aware_utc ws) (to_aware_utc we) a b →
  ∃ out, expand_business_hours_to_utc pytz_timezone tz_str bh_map ws we = Some out
         ∧ (a, b) ∈ out.
Proof.
  intros Htz Hd Hrule a b Hab [Hleft Hright].
  assert (bh_map ≠ ∅) as Hne.
  { intros ->. rewrite lookup_empty in Hrule. by apply elem_of_nil in Hrule. }
  destruct (expand_business_hours_to_utc_covers pytz_timezone tz_str tz bh_map
              ws we d rule (a, b) Htz Hd Hrule)
    as (out & Hout & m & Hm & H1 & H2).
  { apply elem_of_clip_to_window. repeat split; lia. }
  simpl in H1, H2. exists out. split; [exact Hout|].
  assert (∀ t, m.1 ≤ t < m.2 →
            to_aware_utc ws ≤ t < to_aware_utc we
            ∧ open_by_rule tz bh_map
                (scanned_dates tz (to_aware_utc ws) (to_aware_utc we)) t) as Hcov.
  { intros t Ht. apply (expand_business_hours_to_utc_covered_inv tz_str tz bh_map
                          ws we out t Htz Hne Hout). by exists m. }
  assert (m.1 = a) as Hstart.
  { destruct (decide (m.1 < a)) as [Hlt|]; [exfalso|lia].
    destruct (Hcov (a - 1)) as [Hw Hopen]; [lia|]. apply Hleft; [lia|exact Hopen]. }
  assert (m.2 = b) as Hend.
  { destruct (decide (b < m.2)) as [Hlt|]; [exfalso|lia].
    destruct (Hcov b) as [Hw Hopen]; [lia|]. apply Hright; [lia|exact Hopen]. }
  by replace (a, b) with m by (destruct m; simpl in *; congruence).
Qed.
End IsolatedFacts.

Section RuleProperties.
Import DateTime TimeUtils Spec Sample.

(** C5. A rule with [start_local > end_local] denotes, on an occurrence
    date [d], the single interval from [d] at [start_local] to [d + 1] at
    [end_local], converted to UTC.  When the window covers that interval,
    the expander appends it as one interval, unclipped, to the list it
    merges; the merged result has one interval that contains it whole,
    across the local midnight; and when no rule reaches across its two
    bounds, that interval is an interval of the result, with exactly
    these bounds. *)
Theorem overnight_rule_single_interval
    (pytz_timezone : string → option tzinfo) (tz_str : string) (tz : tzinfo)
    (bh_map : gmap Z (list (Z * Z))) (ws we : datetime)
    (d : date) (start_t end_t : time) :
  end_t < start_t →
  pytz_timezone tz_str = Some tz →
  d ∈ scanned_dates tz (to_aware_utc ws) (to_aware_utc we) →
  (start_t, end_t) ∈ default [] (bh_map !! weekday d) →
  let s_utc := to_aware_utc (localize tz (combine d start_t)) in
  let e_utc := to_aware_utc (localize tz (combine (d + 1) end_t)) in
  rule_utc tz d (start_t, end_t) = (s_utc, e_utc)
  ∧ (to_aware_utc ws ≤ s_utc → s_utc < e_utc → e_utc ≤ to_aware_utc we →
     ∃ intervals_utc out,
       intervals_utc
       = expand_dates tz bh_map (to_aware_utc ws) (to_aware_utc we)
           (scanned_dates tz (to_aware_utc ws) (to_aware_utc we))
       ∧ (s_utc, e_utc) ∈ intervals_utc
       ∧ out = merge_utc_intervals intervals_utc
       ∧ expand_business_hours_to_utc pytz_timezone tz_str bh_map ws we = Some out
       ∧ (∃ m : interval, m ∈ out ∧ m.1 ≤ s_utc ∧ s_utc < e_utc ∧ e_utc ≤ m.2)
       ∧ (isolated tz bh_map (to_aware_utc ws) (to_aware_utc we) s_utc e_utc →
          (s_utc, e_utc) ∈ out)).
Proof.
  intros Hov Htz Hd Hrule s_utc e_utc.
  assert (rule_utc tz d (start_t, end_t) = (s_utc, e_utc)) as Hru.
  { unfold rule_utc, rule_local.
    destruct (Z.eqb_spec start_t end_t); [lia|]. simpl.
    destruct (Z.leb_spec start_t end_t); [lia|]. done. }
  split; [done|]. intros Hws Hlt Hwe.
  assert ((s_utc, e_utc)
          ∈ clip_to_window (to_aware_utc ws) (to_aware_utc we)
              (rule_utc tz d (start_t, end_t))) as Hclip.
  { rewrite Hru. apply elem_of_clip_to_window. simpl.
    repeat split; try lia. f_equal; lia. }
  assert (bh_map ≠ ∅) as Hne.
  { intros ->. rewrite lookup_empty in Hrule. by apply elem_of_nil in Hrule. }
  destruct (expand_business_hours_to_utc_covers pytz_timezone tz_str tz bh_map
              ws we d (start_t, end_t) (s_utc, e_utc) Htz Hd Hrule Hclip)
    as (out & Hout & m & Hm & H1 & H2).
  pose proof (expand_business_hours_to_utc_known pytz_timezone tz_str tz bh_map ws we
                Htz Hne) as Hknown.
  eexists _, out. split; [reflexivity|].
  split; [apply elem_of_expand_dates; by exists d, (start_t, end_t)|].
  split; [congruence|]. split; [done|]. split.
  - exists m. simpl in *. repeat split; [done|lia..].
  - intros Hiso.
    destruct (expand_isolated_interval pytz_timezone tz_str tz bh_map ws we d
                (start_t, end_t) Htz Hd Hrule) as (out' & Hout' & Hin).
    + rewrite Hru. simpl. lia.
    + rewrite Hru. simpl. by rewrite Z.max_l, Z.min_l by lia.
    + rewrite Hru in Hin. simpl in Hin. rewrite Z.max_l, Z.min_l in Hin by lia.
      congruence.
Qed.

(** C6. A rule from 00:00 to 00:00 denotes, on an occurrence date [d],
    the local calendar day from the midnight of [d] to the midnight of
    [d + 1]: 24 hours of wall clock, and in UTC 24 hours less the change
    of the zone's offset between the two midnights, which is more than
    nothing as long as the offset changes by less than a day.  Every
    instant of the window inside that day is inside an interval of the
    result; the part of that day inside the window is one of the
    intervals the expander merges; and it is an interval of the result,
    with exactly these bounds, when no rule reaches across them. *)
Theorem midnight_rule_full_day
    (pytz_timezone : string → option tzinfo) (tz_str : string) (tz : tzinfo)
    (bh_map : gmap Z (list (Z * Z))) (ws we : datetime) (d : date) :
  pytz_timezone tz_str = Some tz →
  d ∈ scanned_dates tz (to_aware_utc ws) (to_aware_utc we) →
  (time_hm 0 0, time_hm 0 0) ∈ default [] (bh_map !! weekday d) →
  let midnight := combine d (time_hm 0 0) in
  let next_midnight := combine (d + 1) (time_hm 0 0) in
  let s_utc := to_aware_utc (localize tz midnight) in
  let e_utc := to_aware_utc (localize tz next_midnight) in
  let a := Z.max s_utc (to_aware_utc ws) in
  let b := Z.min e_utc (to_aware_utc we) in
  rule_local tz d (time_hm 0 0, time_hm 0 0)
    = (localize tz midnight, localize tz next_midnight)
  ∧ next_midnight - midnight = 24 * US_PER_HOUR
  ∧ e_utc - s_utc
    = 24 * US_PER_HOUR - (localize_offset tz next_midnight - localize_offset tz midnight)
  ∧ (localize_offset tz next_midnight - localize_offset tz midnight < 24 * US_PER_HOUR →
     s_utc < e_utc)
  ∧ (∀ t, to_aware_utc ws ≤ t < to_aware_utc we → s_utc ≤ t < e_utc →
       ∃ out, expand_business_hours_to_utc pytz_timezone tz_str bh_map ws we = Some out
              ∧ ∃ m : interval, m ∈ out ∧ m.1 ≤ t < m.2)
  ∧ (a < b →
     ∃ intervals_utc out,
       intervals_utc
       = expand_dates tz bh_map (to_aware_utc ws) (to_aware_utc we)
           (scanned_dates tz (to_aware_utc ws) (to_aware_utc we))
       ∧ (a, b) ∈ intervals_utc
       ∧ out = merge_utc_intervals intervals_utc
       ∧ expand_business_hours_to_utc pytz_timezone tz_str bh_map ws we = Some out
       ∧ (isolated tz bh_map (to_aware_utc ws) (to_aware_utc we) a b → (a, b) ∈ out)).
Proof.
  intros Htz Hd Hrule midnight next_midnight s_utc e_utc a b.
  assert (e_utc - s_utc
          = 24 * US_PER_HOUR
            - (localize_offset tz next_midnight - localize_offset tz midnight)) as Hlen.
  { unfold e_utc, s_utc, localize, next_midnight, midnight, combine,
      US_PER_DAY, US_PER_HOUR. simpl. lia. }
  split; [done|].
  split; [unfold next_midnight, midnight, combine, US_PER_DAY, US_PER_HOUR; lia|].
  split; [exact Hlen|]. split; [lia|]. split.
  - intros t Ht1 Ht2.
    destruct (expand_business_hours_to_utc_covers pytz_timezone tz_str tz bh_map
                ws we d (time_hm 0 0, time_hm 0 0) (a, b) Htz Hd Hrule)
      as (out & Hout & m & Hm & H1 & H2).
    { apply elem_of_clip_to_window.
      change (rule_utc tz d (time_hm 0 0, time_hm 0 0)) with (s_utc, e_utc). simpl.
      unfold a, b. repeat split; lia. }
    exists out. split; [done|]. exists m. unfold a, b in *. simpl in *. split; [done|lia].
  - intros Hab.
    assert (bh_map ≠ ∅) as Hne.
    { intros ->. rewrite lookup_empty in Hrule. by apply elem_of_nil in Hrule. }
    pose proof (expand_business_hours_to_utc_known pytz_timezone tz_str tz bh_map ws we
                  Htz Hne) as Hknown.
    eexists _, _. split; [reflexivity|]. split; [|split; [reflexivity|split; [done|]]].
    + apply elem_of_expand_dates. exists d, (time_hm 0 0, time_hm 0 0).
      split; [done|]. split; [done|]. apply elem_of_clip_to_window.
      change (rule_utc tz d (time_hm 0 0, time_hm 0 0)) with (s_utc, e_utc). simpl.
      unfold a, b in *. repeat split; lia.
    + intros Hiso.
      destruct (expand_isolated_interval pytz_timezone tz_str tz bh_map ws we d
                  (time_hm 0 0, time_hm 0 0) Htz Hd Hrule Hab Hiso) as (out & Hout & Hin).
      rewrite Hknown in Hout. injection Hout as <-. exact Hin.
Qed.
End RuleProperties.

Section RuleWitnesses.
Import DateTime TimeUtils Spec Sample.

(** No rule of the map is open at [t], on concrete data: every scanned
    date and every rule of its day is looked at. *)
Ltac closed_at_instant :=
  let d := fresh "d" in let rule := fresh "rule" in
  let Hd := fresh "Hd" in let Hr := fresh "Hr" in let Ht := fresh "Ht" in
  intros (d & rule & Hd & Hr & Ht); vm_compute in Hd;
  repeat (apply elem_of_cons in Hd as [->|Hd];
          [vm_compute in Hr;
           repeat (apply elem_of_cons in Hr as [->|Hr];
                   [destruct Ht as [Ht ?]; vm_compute in Ht; try done;
                    match goal with H : _ = Lt |- _ => vm_compute in H; discriminate H end|]);
           by apply elem_of_nil in Hr|]);
  by apply elem_of_nil in Hd.

(** Friday 22:00 to 06:00 in Chicago, over 2025-05-02 00:00 to 2025-05-03
    23:59 UTC: the interval from 03:00 to 11:00 UTC on Saturday is an
    interval of the result. *)
Lemma overnight_rule_single_interval_witness :
  ∃ out, expand_business_hours_to_utc pytz_cdt "America/Chicago" friday_night
           (utc_at may_2 0 0) (utc_at (may_2 + 1) 23 59) = Some out
         ∧ (combine (may_2 + 1) (time_hm 3 0), combine (may_2 + 1) (time_hm 11 0)) ∈ out.
Proof.
  destruct (proj2 (overnight_rule_single_interval pytz_cdt "America/Chicago"
                     (fixed_offset (-5 * US_PER_HOUR)) friday_night
                     (utc_at may_2 0 0) (utc_at (may_2 + 1) 23 59)
                     may_2 (time_hm 22 0) (time_hm 6 0)
                     ltac:(vm_compute; reflexivity) eq_refl
                     ltac:(apply elem_of_scan_dates; vm_compute; split; discriminate)
                     ltac:(vm_compute; apply list_elem_of_here))
              ltac:(vm_compute; discriminate) ltac:(vm_compute; reflexivity)
              ltac:(vm_compute; discriminate))
    as (intervals_utc & out & _ & _ & _ & Hout & _ & Hin).
  exists out. split; [exact Hout|]. apply Hin.
  split; intros _; closed_at_instant.
Defined.

(** Tuesday 00:00 to 00:00 in Chicago, over 2025-05-06 00:00 to 2025-05-07
    12:00 UTC: the interval from 05:00 UTC on Tuesday to 05:00 UTC on
    Wednesday, 24 hours long, is an interval of the result. *)
Lemma midnight_rule_full_day_witness :
  ∃ out, expand_business_hours_to_utc pytz_cdt "America/Chicago" tuesday_all_day
           (utc_at may_6 0 0) (utc_at (may_6 + 1) 12 0) = Some out
         ∧ (combine may_6 (time_hm 5 0), combine may_6 (time_hm 5 0) + 24 * US_PER_HOUR) ∈ out.
Proof.
  destruct (proj2 (proj2 (proj2 (proj2 (proj2
              (midnight_rule_full_day pytz_cdt "America/Chicago"
                 (fixed_offset (-5 * US_PER_HOUR)) tuesday_all_day
                 (utc_at may_6 0 0) (utc_at (may_6 + 1) 12 0) may_6
                 eq_refl
                 ltac:(apply elem_of_scan_dates; vm_compute; split; discriminate)
                 ltac:(vm_compute; apply list_elem_of_here))))))
              ltac:(vm_compute; reflexivity))
    as (intervals_utc & out & _ & _ & _ & Hout & Hin).
  exists out. split; [exact Hout|]. apply Hin.
  split; intros _; closed_at_instant.
Defined.
End RuleWitnesses.

Section MergeProperties.
Import DateTime TimeUtils Spec Sample.

(** X1. Whatever the order and the overlaps of its input, as long as every
    input interval has [start < end], [merge_utc_intervals] returns a
    normalized list: sorted by start, every interval with [start < end],
    and every interval starting strictly after the end of the one before
    it. *)
Theorem merge_utc_intervals_result_normalized (l : list interval) :
  Forall (λ iv : interval, iv.1 < iv.2) l → normalized (merge_utc_intervals l).
Proof.
  intros Hall. rewrite merge_utc_intervals_sweep.
  pose proof (sorted_by_start_StronglySorted l) as Hs.
  pose proof (sorted_Forall start_leb _ l Hall) as Hall'.
  destruct (Py.sorted start_leb l) as [|first rest].
  - repeat split; constructor.
  - apply Forall_cons in Hall' as [? ?]. by apply merge_sweep_normalized.
Qed.

Lemma merge_utc_intervals_result_normalized_witness :
  normalized (merge_utc_intervals tangled_intervals).
Proof.
  apply merge_utc_intervals_result_normalized.
  repeat constructor; simpl; lia.
Defined.

(** X2. Merging neither adds nor loses time: an instant lies in an interval
    of the result exactly when it lies in an interval of the input. *)
Theorem merge_utc_intervals_same_instants (l : list interval) (t : instant) :
  covered t (merge_utc_intervals l) ↔ covered t l.
Proof.
  rewrite merge_utc_intervals_sweep.
  pose proof (sorted_by_start_StronglySorted l) as Hs.
  rewrite <- (covered_Permutation t _ _ (sorted_Permutation start_leb l)).
  destruct (Py.sorted start_leb l) as [|first rest]; [done|].
  by apply merge_sweep_covered.
Qed.

(** X3. Merging the result of a merge changes nothing. *)
Theorem merge_utc_intervals_twice (l : list interval) :
  Forall (λ iv : interval, iv.1 < iv.2) l →
  merge_utc_intervals (merge_utc_intervals l) = merge_utc_intervals l.
Proof.
  intros H. destruct (merge_utc_intervals_normalized l H) as (Hsorted & _ & Hsep).
  by apply merge_utc_intervals_separated.
Qed.

Lemma merge_utc_intervals_twice_witness :
  merge_utc_intervals (merge_utc_intervals tangled_intervals)
  = merge_utc_intervals tangled_intervals.
Proof.
  apply merge_utc_intervals_twice. repeat constructor; simpl; lia.
Defined.

(** X4. The result of a merge does not depend on the order in which the
    intervals are given. *)
Theorem merge_utc_intervals_order_independent (l1 l2 : list interval) :
  Forall (λ iv : interval, iv.1 < iv.2) l1 → Permutation l1 l2 →
  merge_utc_intervals l1 = merge_utc_intervals l2.
Proof.
  intros Hpos Hp. apply normalized_covered_eq.
  - by apply merge_utc_intervals_normalized.
  - apply merge_utc_intervals_normalized. by rewrite <- Hp.
  - intros t. rewrite !merge_utc_intervals_covered. by apply covered_Permutation.
Qed.

Lemma merge_utc_intervals_order_independent_witness :
  merge_utc_intervals tangled_intervals = merge_utc_intervals (reverse tangled_intervals).
Proof.
  apply merge_utc_intervals_order_independent.
  - repeat constructor; simpl; lia.
  - symmetry. apply reverse_Permutation.
Defined.
End MergeProperties.

Section ExpanderProperties.
Import DateTime TimeUtils Spec Sample.

(** X5. Whatever the rules, what the expander returns for a window
    [ws < we] is normalized and lies inside the window. *)
Theorem expand_business_hours_to_utc_result_normalized
    (pytz_timezone : string → option tzinfo) (tz_str : string)
    (bh_map : gmap Z (list (Z * Z))) (ws we : datetime) (out : list interval) :
  to_aware_utc ws < to_aware_utc we →
  expand_business_hours_to_utc pytz_timezone tz_str bh_map ws we = Some out →
  normalized out ∧ within (to_aware_utc ws) (to_aware_utc we) out.
Proof.
  intros Hlt. unfold expand_business_hours_to_utc, utc_to_local.
  case_bool_decide.
  - intros [= <-]. unfold normalized, within.
    repeat split; repeat constructor; simpl; lia.
  - destruct (pytz_timezone tz_str) as [tz|]; simpl; [|done].
    intros [= <-].
    match goal with |- context [expand_dates ?a ?b ?c ?d ?e] =>
      destruct (expand_dates_within a b c d e) as [Hin Hpos] end.
    split; [by apply merge_utc_intervals_normalized
           |by apply merge_utc_intervals_within].
Qed.

Lemma expand_business_hours_to_utc_result_normalized_witness :
  normalized [(combine may_5 (time_hm 14 0), combine may_5 (time_hm 17 0));
              (combine may_6 (time_hm 18 0), combine may_6 (time_hm 23 0))]
  ∧ within (to_aware_utc (utc_at may_5 0 0)) (to_aware_utc (utc_at may_6 23 59))
      [(combine may_5 (time_hm 14 0), combine may_5 (time_hm 17 0));
       (combine may_6 (time_hm 18 0), combine may_6 (time_hm 23 0))].
Proof.
  apply (expand_business_hours_to_utc_result_normalized pytz_cdt "America/Chicago"
           two_days (utc_at may_5 0 0) (utc_at may_6 23 59)).
  - vm_compute. reflexivity.
  - vm_compute. reflexivity.
Defined.

(** X6. With a known zone and a non-empty rule mapping the expander
    returns, and an instant lies in an interval of the result exactly when
    it lies in the window and in the UTC interval that some rule denotes
    on one of the scanned dates (the local dates of the window bounds and
    one day on each side). *)
Theorem expand_business_hours_to_utc_open_instants
    (pytz_timezone : string → option tzinfo) (tz_str : string) (tz : tzinfo)
    (bh_map : gmap Z (list (Z * Z))) (ws we : datetime) :
  pytz_timezone tz_str = Some tz →
  bh_map ≠ ∅ →
  ∃ out,
    expand_business_hours_to_utc pytz_timezone tz_str bh_map ws we = Some out
    ∧ ∀ t, covered t out ↔
           to_aware_utc ws ≤ t < to_aware_utc we
           ∧ open_by_rule tz bh_map
               (scan_dates
                  (date_of (to_aware_utc ws + fromutc_offset tz (to_aware_utc ws)) - 1)
                  (date_of (to_aware_utc we + fromutc_offset tz (to_aware_utc we)) + 1)) t.
Proof.
  intros Htz Hne. unfold expand_business_hours_to_utc, utc_to_local.
  rewrite bool_decide_eq_false_2 by done. rewrite Htz. simpl. rewrite !Z.sub_0_r.
  eexists. split; [reflexivity|]. intros t.
  rewrite merge_utc_intervals_covered. unfold covered, open_by_rule. split.
  - intros (c & Hc & Ht). apply elem_of_expand_dates in Hc as (d & rule & Hd & Hr & Hc).
    apply elem_of_clip_to_window in Hc as (? & ? & ? & ->). simpl in Ht.
    split; [lia|]. exists d, rule. repeat split; try done; lia.
  - intros (Hw & d & rule & Hd & Hr & Ht).
    exists (Z.max (rule_utc tz d rule).1 (to_aware_utc ws),
            Z.min (rule_utc tz d rule).2 (to_aware_utc we)).
    split; [|simpl; lia].
    apply elem_of_expand_dates. exists d, rule. repeat split; try done.
    apply elem_of_clip_to_window. repeat split; lia.
Qed.

Lemma expand_business_hours_to_utc_open_instants_witness :
  ∃ out,
    expand_business_hours_to_utc pytz_cdt "America/Chicago" two_days
      (utc_at may_5 0 0) (utc_at may_6 23 59) = Some out
    ∧ covered (combine may_5 (time_hm 15 0)) out.
Proof.
  destruct (expand_business_hours_to_utc_open_instants pytz_cdt "America/Chicago"
              (fixed_offset (-5 * US_PER_HOUR)) two_days
              (utc_at may_5 0 0) (utc_at may_6 23 59)) as (out & Hout & Hcov).
  - reflexivity.
  - intros Heq. apply (f_equal (λ m : gmap Z (list (Z * Z)), m !! 0)) in Heq.
    vm_compute in Heq. discriminate Heq.
  - exists out. split; [exact Hout|]. apply Hcov. split.
    + vm_compute. split; [discriminate|reflexivity].
    + exists may_5, (time_hm 9 0, time_hm 12 0). split; [|split].
      * apply elem_of_scan_dates. vm_compute. split; discriminate.
      * vm_compute. apply list_elem_of_here.
      * vm_compute. split; [discriminate|reflexivity].
Defined.
End ExpanderProperties.

Section BusinessHoursMapProperties.
Import DateTime TimeUtils Uptime Spec Sample.

Lemma group_business_hours_lookup (rows : list BusinessHours.t)
    (m : gmap Z (list (Z * Z))) (day : Z) :
  default [] (foldl (λ m r,
                let day := BusinessHours.day_of_week r in
                <[day := default [] (m !! day)
                         ++ [(BusinessHours.start_time_local r,
                              BusinessHours.end_time_local r)]]> m) m rows !! day)
  = default [] (m !! day)
    ++ ((λ r, (BusinessHours.start_time_local r, BusinessHours.end_time_local r))
        <$> filter (λ r, BusinessHours.day_of_week r = day) rows).
Proof.
  revert m. induction rows as [|r rows IH]; intros m; simpl.
  - by rewrite app_nil_r.
  - rewrite IH, filter_cons. destruct (decide (BusinessHours.day_of_week r = day)) as [->|Hne].
    + rewrite lookup_insert_eq. simpl. by rewrite <- app_assoc.
    + by rewrite lookup_insert_ne.
Qed.

Lemma rules_of_day_filter session store_id day :
  rules_of_day session store_id day
  = (λ r, (BusinessHours.start_time_local r, BusinessHours.end_time_local r))
    <$> filter (λ r, BusinessHours.day_of_week r = day)
          (filter (λ r, BusinessHours.store_id r = store_id) (business_hours session)).
Proof.
  unfold rules_of_day. f_equal. rewrite list_filter_filter.
  apply list_filter_iff. tauto.
Qed.

Lemma get_business_hours_map_lookup session store_id day :
  default [] (get_business_hours_map session store_id !! day)
  = rules_of_day session store_id day.
Proof.
  rewrite rules_of_day_filter. unfold get_business_hours_map.
  destruct (filter _ (business_hours session)) as [|r rows] eqn:Hrows; [done|].
  unfold group_business_hours. rewrite group_business_hours_lookup.
  by rewrite lookup_empty.
Qed.

(** X7. [get_business_hours_map] groups the rules of a store by day of the
    week: looking up a day (with [[]] for a missing key, as the expander
    does) gives the [(start, end)] pairs of the rows of that store and that
    day, in row order; and the mapping is empty exactly when the store has
    no row at all. *)
Theorem get_business_hours_map_groups (session : Session) (store_id : string) :
  (∀ day, default [] (get_business_hours_map session store_id !! day)
          = rules_of_day session store_id day)
  ∧ (get_business_hours_map session store_id = ∅
     ↔ filter (λ r, BusinessHours.store_id r = store_id) (business_hours session) = []).
Proof.
  split; [apply get_business_hours_map_lookup|]. split.
  - intros Hempty.
    destruct (filter _ (business_hours session)) as [|r rows] eqn:Hrows; [done|]. exfalso.
    pose proof (get_business_hours_map_lookup session store_id
                  (BusinessHours.day_of_week r)) as Hlookup.
    rewrite Hempty, lookup_empty, rules_of_day_filter, Hrows in Hlookup.
    rewrite filter_cons_True in Hlookup by done. done.
  - intros Hrows. unfold get_business_hours_map. by rewrite Hrows.
Qed.
End BusinessHoursMapProperties.

Section DefaultZoneProperties.
Import DateTime TimeUtils Uptime Spec Sample.

(** X8. The zone name [get_store_timezone_str] returns is the stored name
    when that name is not empty and is in the list [pytz.all_timezones],
    and "America/Chicago" in every other case: no row, an empty name, or
    a name that is not in the list, also when [pytz.timezone] would
    resolve it.  So the name returned is "America/Chicago" or a listed
    name, and the zone lookup of the expander succeeds for it as soon as
    the database resolves "America/Chicago" and every listed name. *)
Theorem get_store_timezone_str_listed_or_default
    (pytz_timezone : string → option tzinfo) (all_timezones : list string)
    (session : Session) (store_id : string) :
  let stored :=
    StoreTimezone.timezone_str
    <$> head (filter (λ r, StoreTimezone.store_id r = store_id) (store_timezone session)) in
  let tz_str := get_store_timezone_str all_timezones session store_id in
  (∀ name, stored = Some name → name ≠ "" → name ∈ all_timezones → tz_str = name)
  ∧ (∀ name, stored = Some name → name ∉ all_timezones → tz_str = "America/Chicago")
  ∧ (stored = None ∨ stored = Some "" → tz_str = "America/Chicago")
  ∧ (tz_str = "America/Chicago" ∨ tz_str ∈ all_timezones)
  ∧ (is_Some (pytz_timezone "America/Chicago") →
     Forall (λ name, is_Some (pytz_timezone name)) all_timezones →
     is_Some (pytz_timezone tz_str)).
Proof.
  intros stored tz_str. unfold stored, tz_str, get_store_timezone_str.
  destruct (filter _ (store_timezone session)) as [|r rows]; simpl.
  - split; [done|]. split; [done|]. split; [done|]. split; [by left|]. by intros ? _.
  - split; [|split; [|split; [|split]]].
    + intros name [= ->] Hne Hin.
      rewrite bool_decide_eq_false_2 by done. by rewrite bool_decide_eq_false_2 by (by intros H).
    + intros name [= ->] Hnin. rewrite (bool_decide_eq_true_2 (_ ∉ _)) by done.
      by rewrite orb_true_r.
    + intros [|[= ->]]; [done|]. by rewrite bool_decide_eq_true_2.
    + destruct (bool_decide (StoreTimezone.timezone_str r = "")); simpl; [by left|].
      case_bool_decide as Hin; [by left|]. right.
      by destruct (decide (StoreTimezone.timezone_str r ∈ all_timezones)).
    + intros Hdefault Hlisted.
      destruct (bool_decide (StoreTimezone.timezone_str r = "")); simpl; [done|].
      case_bool_decide as Hin; [done|]. rewrite Forall_forall in Hlisted.
      apply Hlisted. by destruct (decide (StoreTimezone.timezone_str r ∈ all_timezones)).
Qed.

(** A store whose zone is stored as "asia/kolkata", a name the database
    resolves but does not list: the default zone is used. *)
Lemma get_store_timezone_str_listed_or_default_witness :
  is_Some (pytz_folding "asia/kolkata")
  ∧ get_store_timezone_str all_timezones session_lowercase_zone "s7" = "America/Chicago".
Proof.
  split; [by eexists|].
  apply (proj1 (proj2 (get_store_timezone_str_listed_or_default pytz_folding all_timezones
                         session_lowercase_zone "s7")) "asia/kolkata").
  - reflexivity.
  - intros Hin. repeat (apply elem_of_cons in Hin as [Hin|Hin]; [discriminate Hin|]).
    by apply elem_of_nil in Hin.
Defined.
End DefaultZoneProperties.

(* ===================================================================== *)
(** * Further properties of the status timeline *)
(* ===================================================================== *)

Section TimelineFacts.
Import DateTime TimeUtils Uptime Spec.

(** [prev_obs] is the last observation at or before [ws], in the order of
    [all_obs]. *)
Lemma split_obs_prev ws we l :
  (split_obs ws we l).1 = last (prior_obs l ws).
Proof.
  unfold prior_obs. induction l as [|x l IH] using rev_ind; [done|].
  rewrite split_obs_snoc, filter_app. destruct (split_obs ws we l) as [prev window].
  simpl in IH. subst prev. unfold split_step.
  rewrite filter_cons, filter_nil.
  destruct (Z.leb_spec (obs_time x) ws); simpl.
  - rewrite decide_True by lia. by rewrite last_snoc.
  - rewrite decide_False by lia. rewrite app_nil_r.
    by destruct (obs_time x <=? we).
Qed.

Lemma sweep_no_change obs segs ct cs :
  Forall (λ o, StoreStatus.status o = cs) obs →
  foldl sweep_step (segs, ct, cs) obs = (segs, ct, cs).
Proof.
  induction 1 as [|o obs Ho Hall IH]; simpl; [done|].
  rewrite bool_decide_eq_false_2 by (intros ?; done). done.
Qed.

Lemma Sorted_snoc_last {A} (R : A → A → Prop) (l : list A) (x : A) :
  Sorted R l → (∀ y, last l = Some y → R y x) → Sorted R (l ++ [x]).
Proof.
  induction 1 as [|a l Hs IH Hhd]; intros Hlast; simpl.
  - repeat constructor.
  - constructor.
    + apply IH. intros y Hy. apply Hlast. destruct l; [done|]. by rewrite last_cons_cons.
    + destruct Hhd as [|b l Hab]; simpl; constructor; [|done].
      by apply Hlast.
Qed.

(** What the second loop keeps: neighbouring segments differ in status,
    the last segment differs from the current status, and the status the
    timeline starts with does not change. *)
Lemma sweep_alternating obs segs ct cs :
  Sorted (λ a b : segment, a.2 ≠ b.2) segs →
  (∀ seg : segment, last segs = Some seg → seg.2 ≠ cs) →
  ∃ segs' ct' cs',
    foldl sweep_step (segs, ct, cs) obs = (segs', ct', cs')
    ∧ Sorted (λ a b : segment, a.2 ≠ b.2) segs'
    ∧ (∀ seg : segment, last segs' = Some seg → seg.2 ≠ cs')
    ∧ match segs' with [] => cs' | seg :: _ => seg.2 end
      = match segs with [] => cs | seg :: _ => seg.2 end.
Proof.
  revert segs ct cs. induction obs as [|o obs IH]; intros segs ct cs Hs Hlast; simpl.
  - eauto 8.
  - case_bool_decide as Hne; [|by apply IH].
    destruct (IH (segs ++ [(ct, obs_time o, cs)]) (obs_time o) (StoreStatus.status o))
      as (segs' & ct' & cs' & Heq & Hs' & Hlast' & Hfirst).
    + apply Sorted_snoc_last; [done|]. intros y Hy. simpl. by apply Hlast.
    + intros seg. rewrite last_snoc. intros [= <-]. simpl. congruence.
    + exists segs', ct', cs'. repeat split; try done.
      rewrite Hfirst. by destruct segs.
Qed.

Lemma StronglySorted_True {A} (l : list A) : StronglySorted (λ _ _, True) l.
Proof. induction l; constructor; [done|]. by apply Forall_forall. Qed.

(** The timeline starts at [ws], in the status in force at [ws]. *)
Lemma segments_of_obs_first all_obs ws we :
  all_obs ≠ [] → ws < we →
  ∃ (seg : segment) rest,
    segments_of_obs all_obs ws we = seg :: rest
    ∧ seg.1.1 = ws
    ∧ seg.2 = initial_status all_obs
                (choose_initial (split_obs ws we all_obs).1 (split_obs ws we all_obs).2).
Proof.
  intros Hne Hlt.
  pose proof (segments_of_obs_chain (λ _ _, True) (λ _ _ _, I) all_obs ws we I
                (Z.lt_le_incl _ _ Hlt) (StronglySorted_True all_obs)) as Hchain.
  revert Hchain. unfold segments_of_obs.
  destruct all_obs as [|o0 rest0] eqn:Hobs; [done|]. rewrite <- Hobs. clear Hobs o0 rest0 Hne.
  destruct (split_obs ws we all_obs) as [prev_obs window_obs]. simpl.
  destruct (sweep_alternating window_obs [] ws
              (initial_status all_obs (choose_initial prev_obs window_obs)))
    as (segs' & ct' & cs' & -> & _ & _ & Hfirst); [constructor|done|].
  destruct (ct' <? we).
  - destruct segs' as [|seg segs']; simpl in *.
    + intros (-> & _). eauto.
    + destruct seg as [[s e] st]. intros (-> & _). simpl in *. eauto.
  - destruct segs' as [|[[s e] st] segs']; simpl in *; [lia|].
    intros (-> & _). eauto.
Qed.

Lemma StronglySorted_le_NoDup {A} (f : A → Z) (l : list A) :
  StronglySorted (λ x y, f x ≤ f y) l → NoDup (f <$> l) →
  StronglySorted (λ x y, f x < f y) l.
Proof.
  induction 1 as [|x l Hs IH Hall]; intros Hnd; [constructor|].
  rewrite fmap_cons in Hnd. apply NoDup_cons in Hnd as [Hx Hnd].
  constructor; [by apply IH|].
  apply Forall_forall. intros y Hy. rewrite Forall_forall in Hall.
  specialize (Hall y Hy). assert (f x ≠ f y); [|lia].
  intros Heq. apply Hx. rewrite Heq. by apply list_elem_of_fmap_2.
Qed.

(** A store that has only ever reported one status has a one-segment
    timeline. *)
Lemma segments_of_obs_uniform all_obs ws we st :
  all_obs ≠ [] → ws < we →
  Forall (λ o, StoreStatus.status o = st) all_obs →
  segments_of_obs all_obs ws we = [(ws, we, st)].
Proof.
  intros Hne Hlt Hall. unfold segments_of_obs.
  destruct all_obs as [|o0 rest0] eqn:Hobs; [done|]. rewrite <- Hobs in *.
  clear Hobs o0 rest0.
  pose proof (split_obs_prev ws we all_obs) as Hprev.
  pose proof (split_obs_window ws we all_obs) as Hwin.
  destruct (split_obs ws we all_obs) as [prev_obs window_obs]. simpl in Hprev, Hwin.
  rewrite Forall_forall in Hall.
  assert (initial_status all_obs (choose_initial prev_obs window_obs) = st) as ->.
  { destruct prev_obs as [p|]; simpl.
    - apply Hall. symmetry in Hprev. apply last_Some_elem_of in Hprev.
      unfold prior_obs in Hprev. by apply list_elem_of_filter in Hprev as [_ ?].
    - destruct window_obs as [|w window_obs]; simpl.
      + unfold last_status. destruct (last all_obs) as [o|] eqn:Hlast.
        * apply Hall. by apply last_Some_elem_of.
        * apply last_None in Hlast. done.
      + apply Hall. assert (w ∈ w :: window_obs) as Hw by (apply elem_of_cons; by left).
        rewrite Hwin in Hw. by apply list_elem_of_filter in Hw as [_ ?]. }
  rewrite sweep_no_change.
  - destruct (Z.ltb_spec ws we); [done|lia].
  - apply Forall_forall. intros o Ho. apply Hall.
    rewrite Hwin in Ho. by apply list_elem_of_filter in Ho as [_ ?].
Qed.
End TimelineFacts.

Section TimelineProperties.
Import DateTime TimeUtils Uptime Spec Sample.

(** X9. For every store and every window [ws < we], whatever the
    observations are (also with several at one instant), the timeline
    [_status_segments] returns is not empty, starts at [ws], ends at [we],
    has each segment end where the next one starts, and has no segment
    with [end < start]. *)
Theorem status_segments_gapless (session : Session) (store_id : string)
    (ws we : datetime) :
  to_aware_utc ws < to_aware_utc we →
  _status_segments session store_id ws we ≠ []
  ∧ seg_start <$> head (_status_segments session store_id ws we) = Some (to_aware_utc ws)
  ∧ seg_end <$> last (_status_segments session store_id ws we) = Some (to_aware_utc we)
  ∧ Sorted (λ a b, seg_end a = seg_start b) (_status_segments session store_id ws we)
  ∧ Forall (λ seg, seg_start seg ≤ seg_end seg) (_status_segments session store_id ws we).
Proof.
  intros Hlt.
  pose proof (status_segments_chain session store_id ws we (Z.lt_le_incl _ _ Hlt)) as Hc.
  assert (_status_segments session store_id ws we ≠ []) as Hne.
  { intros Heq. rewrite Heq in Hc. simpl in Hc. lia. }
  split; [done|]. split; [|split; [|split]].
  - destruct (_status_segments session store_id ws we) as [|[[s e] st] segs]; [done|].
    simpl in *. by destruct Hc as [-> _].
  - by eapply chain_by_last.
  - by eapply chain_by_contiguous.
  - by eapply (chain_by_Forall Z.le).
Qed.

Lemma status_segments_gapless_witness :
  _status_segments session_same_instant "s1" (utc_at may_6 11 0) (utc_at may_6 12 0) ≠ []
  ∧ seg_start <$> head (_status_segments session_same_instant "s1"
                          (utc_at may_6 11 0) (utc_at may_6 12 0))
    = Some (to_aware_utc (utc_at may_6 11 0))
  ∧ seg_end <$> last (_status_segments session_same_instant "s1"
                        (utc_at may_6 11 0) (utc_at may_6 12 0))
    = Some (to_aware_utc (utc_at may_6 12 0))
  ∧ Sorted (λ a b, seg_end a = seg_start b)
      (_status_segments session_same_instant "s1" (utc_at may_6 11 0) (utc_at may_6 12 0))
  ∧ Forall (λ seg, seg_start seg ≤ seg_end seg)
      (_status_segments session_same_instant "s1" (utc_at may_6 11 0) (utc_at may_6 12 0)).
Proof.
  apply status_segments_gapless. vm_compute. reflexivity.
Defined.

(** X10. When the observations of the store up to [we] all carry
    different timestamps, the timeline of a window [ws < we] is a
    partition of the window: it starts at [ws], ends at [we], is
    contiguous, and every segment has [start < end]. *)
Theorem status_segments_partition_distinct_timestamps (session : Session)
    (store_id : string) (ws we : datetime) :
  to_aware_utc ws < to_aware_utc we →
  NoDup (obs_time <$> query_all_obs session store_id (to_aware_utc we)) →
  partitions (to_aware_utc ws) (to_aware_utc we)
    (_status_segments session store_id ws we).
Proof.
  intros Hlt Hnd. unfold _status_segments.
  apply chain_lt_partitions; [done|].
  apply segments_of_obs_chain; [done|done|lia|].
  apply StronglySorted_le_NoDup; [|done]. apply query_all_obs_spec.
Qed.

Lemma status_segments_partition_distinct_timestamps_witness :
  partitions (to_aware_utc (utc_at may_6 11 0)) (to_aware_utc (utc_at may_6 12 0))
    (_status_segments session_mixed "s3" (utc_at may_6 11 0) (utc_at may_6 12 0)).
Proof.
  apply status_segments_partition_distinct_timestamps.
  - vm_compute. reflexivity.
  - vm_compute. repeat constructor; rewrite ?elem_of_cons, ?elem_of_nil; intros H;
      repeat destruct H as [H|H]; discriminate H || done.
Defined.

(** X11. Neighbouring segments of a timeline never carry the same status:
    observations that repeat the current status open no new segment. *)
Theorem status_segments_alternate (session : Session) (store_id : string)
    (ws we : datetime) :
  Sorted (λ a b, seg_status a ≠ seg_status b) (_status_segments session store_id ws we).
Proof.
  unfold _status_segments, segments_of_obs.
  destruct (query_all_obs session store_id (to_aware_utc we)) as [|o0 rest] eqn:Hobs;
    [repeat constructor|].
  rewrite <- Hobs. clear Hobs o0 rest.
  destruct (split_obs _ _ _) as [prev_obs window_obs].
  destruct (sweep_alternating window_obs [] (to_aware_utc ws)
              (initial_status (query_all_obs session store_id (to_aware_utc we))
                 (choose_initial prev_obs window_obs)))
    as (segs' & ct' & cs' & -> & Hs & Hlast & _); [constructor|done|].
  destruct (ct' <? to_aware_utc we); [|done]. by apply Sorted_snoc_last.
Qed.

(** X12. Forward fill at the window start: for a non-empty observation
    list and a window [ws < we], the first segment starts at [ws] and
    carries the status of the last observation at or before [ws]; when
    there is none, the status of the first observation inside the window;
    and when there is none of these either, the status of the last
    observation. *)
Theorem first_segment_forward_fill (all_obs : list StoreStatus.t) (ws we : instant) :
  all_obs ≠ [] → ws < we →
  ∃ (seg : segment) rest,
    segments_of_obs all_obs ws we = seg :: rest
    ∧ seg_start seg = ws
    ∧ seg_status seg
      = match last (prior_obs all_obs ws) with
        | Some p => StoreStatus.status p
        | None =>
            match filter (λ o, ws < obs_time o ∧ obs_time o ≤ we) all_obs with
            | first :: _ => StoreStatus.status first
            | [] => last_status all_obs
            end
        end.
Proof.
  intros Hne Hlt.
  destruct (segments_of_obs_first all_obs ws we Hne Hlt) as (seg & rest & Heq & Hs & Hst).
  exists seg, rest. split; [done|]. split; [done|].
  unfold seg_status. rewrite Hst, split_obs_prev, split_obs_window.
  destruct (last (prior_obs all_obs ws)); [done|].
  by destruct (filter _ all_obs).
Qed.

Lemma first_segment_forward_fill_witness :
  ∃ (seg : segment) rest,
    segments_of_obs (store_status session_mixed)
      (combine may_6 (time_hm 11 15)) (combine may_6 (time_hm 12 0)) = seg :: rest
    ∧ seg_start seg = combine may_6 (time_hm 11 15)
    ∧ seg_status seg = "active".
Proof.
  destruct (first_segment_forward_fill (store_status session_mixed)
              (combine may_6 (time_hm 11 15)) (combine may_6 (time_hm 12 0)))
    as (seg & rest & Heq & Hs & Hst).
  - discriminate.
  - vm_compute. reflexivity.
  - exists seg, rest. split; [exact Heq|]. split; [exact Hs|].
    rewrite Hst. vm_compute. reflexivity.
Defined.
End TimelineProperties.

(* ===================================================================== *)
(** * Further properties of the accumulation and of the metrics *)
(* ===================================================================== *)

Section AccumulateByStatusFacts.
Import DateTime TimeUtils Uptime Spec.

(** The durations added for the segments of one kind are the durations
    charged to that kind. *)
Lemma overlap_pieces_filter (P : string → Prop) `{∀ st, Decision (P st)}
    (segs : list segment) (bhs : list interval) :
  overlap_pieces (filter (λ seg : segment, P seg.2) segs) bhs
  = filter (λ piece : string * timedelta, P piece.1) (overlap_pieces segs bhs).
Proof.
  unfold overlap_pieces. induction segs as [|seg segs IH]; [done|].
  rewrite filter_cons. cbn [flat_map]. rewrite filter_app, <- IH. clear IH.
  destruct (decide (P seg.2)) as [HP|HP]; cbn [flat_map].
  - f_equal. induction bhs as [|bh bhs IHb]; [done|]. cbn [flat_map].
    rewrite filter_app, <- IHb. f_equal.
    destruct (_ >=? _); [done|]. by rewrite filter_cons_True.
  - match goal with |- _ = filter ?Q ?l ++ _ => assert (filter Q l = []) as -> end; [|done].
    induction bhs as [|bh bhs IHb]; [done|]. cbn [flat_map].
    rewrite filter_app, IHb, app_nil_r.
    destruct (_ >=? _); [done|]. by rewrite filter_cons_False.
Qed.

(** Charging a list of durations is charging the active ones to [up] and
    the others to [down]. *)
Lemma charge_by_status F (pieces : list (string * timedelta))
    (up down up0 down0 : Py.float F) :
  foldl (charge F) (up, down) pieces
  = ((foldl (charge F) (up, down0)
        (filter (λ piece : string * timedelta, piece.1 = "active") pieces)).1,
     (foldl (charge F) (up0, down)
        (filter (λ piece : string * timedelta, piece.1 ≠ "active") pieces)).2).
Proof.
  revert up down. induction pieces as [|piece pieces IH]; intros up down; [done|].
  rewrite !filter_cons. cbn [foldl].
  destruct (decide (piece.1 = "active")) as [Hact|Hact].
  - rewrite decide_False by (by intros ?). cbn [foldl].
    assert (∀ u d, charge F (u, d) piece
                   = (Py.float_add F u (total_seconds F piece.2), d)) as Hc.
    { intros u d. unfold charge. by rewrite bool_decide_eq_true_2. }
    rewrite !Hc. apply IH.
  - rewrite decide_True by done. cbn [foldl].
    assert (∀ u d, charge F (u, d) piece
                   = (u, Py.float_add F d (total_seconds F piece.2))) as Hc.
    { intros u d. unfold charge. by rewrite bool_decide_eq_false_2. }
    rewrite !Hc. apply IH.
Qed.

Lemma charge_active_only F (pieces : list (string * timedelta)) (up down : Py.float F) :
  Forall (λ piece : string * timedelta, piece.1 = "active") pieces →
  (foldl (charge F) (up, down) pieces).2 = down.
Proof.
  intros Hall. revert up. induction Hall as [|piece pieces Hp Hall IH]; intros up; [done|].
  cbn [foldl]. replace (charge F (up, down) piece)
    with (Py.float_add F up (total_seconds F piece.2), down); [apply IH|].
  unfold charge. by rewrite bool_decide_eq_true_2.
Qed.

Lemma charge_inactive_only F (pieces : list (string * timedelta)) (up down : Py.float F) :
  Forall (λ piece : string * timedelta, piece.1 ≠ "active") pieces →
  (foldl (charge F) (up, down) pieces).1 = up.
Proof.
  intros Hall. revert down. induction Hall as [|piece pieces Hp Hall IH]; intros down; [done|].
  cbn [foldl]. replace (charge F (up, down) piece)
    with (up, Py.float_add F down (total_seconds F piece.2)); [apply IH|].
  unfold charge. by rewrite bool_decide_eq_false_2.
Qed.

(** A segment with [end <= start] adds nothing. *)
Lemma inner_loop_empty_segment F (seg : segment) bhs acc :
  seg.1.2 ≤ seg.1.1 → foldl (overlap_step F seg) acc bhs = acc.
Proof.
  intros Hle. induction bhs as [|[bh_s bh_e] bhs IH]; [done|]. cbn [foldl].
  destruct seg as [[seg_s seg_e] state], acc as [up down]. simpl in Hle.
  unfold overlap_step at 2.
  rewrite Z.geb_leb. destruct (Z.leb_spec (Z.min seg_e bh_e) (Z.max seg_s bh_s)); [|lia].
  apply IH.
Qed.

End AccumulateByStatusFacts.

Section RoundingBoundFacts.
Local Open Scope Q_scope.



End RoundingBoundFacts.

Section AccumulateProperties.
Import DateTime TimeUtils Uptime Spec Sample.

(** X14. [_accumulate_overlaps] charges every overlap to exactly one side,
    whatever the arithmetic of floats: its first number is the first
    number it returns for the segments whose status is "active" alone,
    its second number is the second number it returns for all other
    segments alone, whatever their status is called; the active segments
    leave the second number at [0.0] and the others leave the first
    number at [0.0]. *)
Theorem accumulate_overlaps_by_status (F : Py.float_ops)
    (segs : list segment) (bhs : list interval) :
  _accumulate_overlaps F segs bhs
  = ((_accumulate_overlaps F (active_segments segs) bhs).1,
     (_accumulate_overlaps F (inactive_segments segs) bhs).2)
  ∧ (_accumulate_overlaps F (active_segments segs) bhs).2 = Py.float_of_int F 0
  ∧ (_accumulate_overlaps F (inactive_segments segs) bhs).1 = Py.float_of_int F 0.
Proof.
  rewrite !accumulate_overlaps_pieces. unfold active_segments, inactive_segments.
  pose proof (overlap_pieces_filter (λ st, st = "active") segs bhs) as Hact.
  pose proof (overlap_pieces_filter (λ st, st ≠ "active") segs bhs) as Hina.
  cbv beta in Hact, Hina. rewrite Hact, Hina.
  split; [apply charge_by_status|]. split.
  - apply charge_active_only, Forall_forall. intros piece Hp.
    by apply list_elem_of_filter in Hp as [? _].
  - apply charge_inactive_only, Forall_forall. intros piece Hp.
    by apply list_elem_of_filter in Hp as [? _].
Qed.

(** X15. Segments with [end <= start], such as the empty segment two
    observations at one instant leave in the timeline, change nothing:
    dropping them before the accumulation gives the same two numbers,
    whatever the arithmetic of floats. *)
Theorem accumulate_overlaps_ignores_empty_segments (F : Py.float_ops)
    (segs : list segment) (bhs : list interval) :
  _accumulate_overlaps F (proper_segments segs) bhs = _accumulate_overlaps F segs bhs.
Proof.
  unfold _accumulate_overlaps. generalize (Py.float_of_int F 0, Py.float_of_int F 0).
  intros acc. revert acc. induction segs as [|seg segs IH]; intros acc; [done|].
  unfold proper_segments in *. rewrite filter_cons.
  destruct (decide (seg.1.1 < seg.1.2)); cbn [foldl].
  - apply IH.
  - rewrite inner_loop_empty_segment by lia. apply IH.
Qed.
End AccumulateProperties.

Section MetricsRangeProperties.
Import DateTime TimeUtils Uptime Spec Sample.

Lemma window_seconds_uniform F pytz_timezone session store_id tz_str (ws we : instant) st :
  ws < we →
  query_all_obs session store_id we ≠ [] →
  Forall (λ o, StoreStatus.status o = st) (query_all_obs session store_id we) →
  window_seconds F pytz_timezone session store_id tz_str ∅ ws we
  = Some (if bool_decide (st = "active")
          then (Py.float_add F (Py.float_of_int F 0) (total_seconds F (we - ws)),
                Py.float_of_int F 0)
          else (Py.float_of_int F 0,
                Py.float_add F (Py.float_of_int F 0) (total_seconds F (we - ws)))).
Proof.
  intros Hlt Hne Hall. unfold window_seconds, expand_business_hours_to_utc.
  rewrite bool_decide_eq_true_2 by done. simpl. rewrite !Z.sub_0_r.
  unfold _status_segments. rewrite !to_aware_utc_aware_utc.
  rewrite (segments_of_obs_uniform _ ws we st) by done.
  unfold _accumulate_overlaps, overlap_step. simpl.
  rewrite Z.max_id, Z.min_id, Z.geb_leb.
  destruct (Z.leb_spec we ws); [lia|done].
Qed.

(** X13. A store with no business-hours rule whose observations up to
    [now] (at least one) all carry the same status gets, when that status
    is "active", uptime 60 minutes, 24 hours and 168 hours and downtime 0;
    with any other status it gets downtime 60, 24 and 168 and uptime 0.
    This holds of the doubles the code computes, and in exact
    arithmetic. *)
Theorem single_status_metrics
    (pytz_timezone : string → option tzinfo) (all_timezones : list string)
    (session : Session) (store_id : string) (now : datetime) (st : string) :
  no_rules session store_id →
  (∃ r, r ∈ store_status session ∧ StoreStatus.store_id r = store_id
        ∧ obs_time r ≤ to_aware_utc now) →
  (∀ r, r ∈ store_status session → StoreStatus.store_id r = store_id →
        obs_time r ≤ to_aware_utc now → StoreStatus.status r = st) →
  (∃ m, metrics_for_store Py.binary64 pytz_timezone all_timezones session store_id now
        = Some m
        ∧ if bool_decide (st = "active")
          then uptime_last_hour m = 60 ∧ downtime_last_hour m = 0
               ∧ uptime_last_day m = Py.Binary64.of_int 24
               ∧ downtime_last_day m = Py.Binary64.of_int 0
               ∧ uptime_last_week m = Py.Binary64.of_int 168
               ∧ downtime_last_week m = Py.Binary64.of_int 0
          else uptime_last_hour m = 0 ∧ downtime_last_hour m = 60
               ∧ uptime_last_day m = Py.Binary64.of_int 0
               ∧ downtime_last_day m = Py.Binary64.of_int 24
               ∧ uptime_last_week m = Py.Binary64.of_int 0
               ∧ downtime_last_week m = Py.Binary64.of_int 168)
  ∧ (∃ m, metrics_for_store Py.exact pytz_timezone all_timezones session store_id now
          = Some m
          ∧ if bool_decide (st = "active")
            then uptime_last_hour m = 60 ∧ downtime_last_hour m = 0
                 ∧ (uptime_last_day m == 24)%Q ∧ (downtime_last_day m == 0)%Q
                 ∧ (uptime_last_week m == 168)%Q ∧ (downtime_last_week m == 0)%Q
            else uptime_last_hour m = 0 ∧ downtime_last_hour m = 60
                 ∧ (uptime_last_day m == 0)%Q ∧ (downtime_last_day m == 24)%Q
                 ∧ (uptime_last_week m == 0)%Q ∧ (downtime_last_week m == 168)%Q).
Proof.
  intros Hnr (r0 & Hr0 & Hid0 & Ht0) Hst.
  assert (query_all_obs session store_id (to_aware_utc now) ≠ []) as Hne.
  { intros Heq. assert (r0 ∈ query_all_obs session store_id (to_aware_utc now)) as Hin.
    { unfold query_all_obs. apply sorted_elem_of, list_elem_of_filter. done. }
    rewrite Heq in Hin. by apply elem_of_nil in Hin. }
  assert (Forall (λ o, StoreStatus.status o = st)
                 (query_all_obs session store_id (to_aware_utc now))) as Hall.
  { apply Forall_forall. intros o Ho. unfold query_all_obs in Ho.
    apply sorted_elem_of, list_elem_of_filter in Ho as [[? ?] ?]. by apply Hst. }
  assert (get_business_hours_map session store_id = ∅) as Hmap.
  { unfold get_business_hours_map.
    assert (filter (λ r, BusinessHours.store_id r = store_id) (business_hours session) = [])
      as ->; [|done].
    destruct (filter _ (business_hours session)) as [|r rows] eqn:Hrows; [done|]. exfalso.
    assert (r ∈ r :: rows) as Hr by (apply elem_of_cons; by left).
    rewrite <- Hrows in Hr. apply list_elem_of_filter in Hr as [Hid Hr].
    by apply (Hnr r Hr). }
  assert (0 < hour_window ∧ 0 < day_window ∧ 0 < week_window) as (Hh & Hd & Hw)
    by (unfold hour_window, day_window, week_window, US_PER_HOUR, US_PER_DAY,
          US_PER_SECOND; lia).
  split.
  - unfold metrics_for_store. rewrite Hmap.
    rewrite !(window_seconds_uniform _ _ _ _ _ _ _ st) by (done || lia).
    replace (to_aware_utc now - (to_aware_utc now - hour_window)) with hour_window by lia.
    replace (to_aware_utc now - (to_aware_utc now - day_window)) with day_window by lia.
    replace (to_aware_utc now - (to_aware_utc now - week_window)) with week_window by lia.
    destruct (bool_decide (st = "active")).
    + exists (Build_MetricsResult (float := Py.float Py.binary64) 60 0
                (Py.Binary64.of_int 24) (Py.Binary64.of_int 0)
                (Py.Binary64.of_int 168) (Py.Binary64.of_int 0)).
      split; [by vm_compute|]. by repeat split.
    + exists (Build_MetricsResult (float := Py.float Py.binary64) 0 60
                (Py.Binary64.of_int 0) (Py.Binary64.of_int 24)
                (Py.Binary64.of_int 0) (Py.Binary64.of_int 168)).
      split; [by vm_compute|]. by repeat split.
  - unfold metrics_for_store. rewrite Hmap.
    rewrite !(window_seconds_uniform _ _ _ _ _ _ _ st) by (done || lia).
    replace (to_aware_utc now - (to_aware_utc now - hour_window)) with hour_window by lia.
    replace (to_aware_utc now - (to_aware_utc now - day_window)) with day_window by lia.
    replace (to_aware_utc now - (to_aware_utc now - week_window)) with week_window by lia.
    destruct (bool_decide (st = "active")); simpl;
      (eexists; split; [reflexivity|]); simpl; by vm_compute.
Qed.

Lemma single_status_metrics_witness :
  ∃ m, metrics_for_store Py.binary64 pytz_none all_timezones session_always_active "s5"
         (utc_at may_6 12 0) = Some m
       ∧ uptime_last_hour m = 60 ∧ downtime_last_hour m = 0
       ∧ uptime_last_day m = Py.Binary64.of_int 24
       ∧ downtime_last_day m = Py.Binary64.of_int 0
       ∧ uptime_last_week m = Py.Binary64.of_int 168
       ∧ downtime_last_week m = Py.Binary64.of_int 0.
Proof.
  refine (proj1 (single_status_metrics pytz_none all_timezones session_always_active "s5"
                   (utc_at may_6 12 0) "active" _ _ _)).
  - intros r Hr. by apply elem_of_nil in Hr.
  - eexists. split; [apply list_elem_of_here|]. split; [reflexivity|].
    vm_compute. discriminate.
  - intros r Hr _ _.
    repeat (apply elem_of_cons in Hr as [->|Hr]; [reflexivity|]).
    by apply elem_of_nil in Hr.
Defined.


End MetricsRangeProperties.

(* ===================================================================== *)
(** * Further properties of the report generation *)
(* ===================================================================== *)

Section DatasetFacts.
Import DateTime TimeUtils Uptime ReportGenerator Py Spec.

Lemma max_timestamp_spec (rows : list StoreStatus.t) :
  match max_timestamp rows with
  | None => rows = []
  | Some m => Forall (λ r, obs_time r ≤ m) rows ∧ ∃ r, r ∈ rows ∧ obs_time r = m
  end.
Proof.
  induction rows as [|r rows IH]; [done|]. simpl.
  change (foldr _ None rows) with (max_timestamp rows).
  destruct (max_timestamp rows) as [m|].
  - destruct IH as [Hall (r' & Hr' & Hm)]. split.
    + constructor; [lia|]. eapply Forall_impl; [exact Hall|]. simpl. lia.
    + destruct (Z.max_spec (obs_time r) m) as [[_ ->]|[_ ->]].
      * exists r'. split; [apply elem_of_cons; by right|done].
      * exists r. split; [apply elem_of_cons; by left|done].
  - subst rows. split; [by repeat constructor|].
    exists r. split; [apply elem_of_cons; by left|done].
Qed.

Lemma remove_dups_distinct_query : distinct_query remove_dups.
Proof.
  intros l. split; [apply NoDup_remove_dups|]. intros x. apply elem_of_remove_dups.
Qed.

Lemma elem_of_list_store_ids distinct session s :
  distinct_query distinct →
  s ∈ list_store_ids distinct session
  ↔ ∃ r, r ∈ store_status session ∧ StoreStatus.store_id r = s.
Proof.
  intros Hdistinct. unfold list_store_ids.
  rewrite (proj2 (Hdistinct _)), list_elem_of_fmap. split.
  - intros (r & -> & Hr). eauto.
  - intros (r & Hr & <-). eauto.
Qed.

Lemma listed_store_query_nonempty distinct session now s :
  distinct_query distinct →
  get_dataset_now session = Some now → s ∈ list_store_ids distinct session →
  query_all_obs session s now ≠ [].
Proof.
  unfold get_dataset_now. intros Hdistinct Hnow Hs.
  pose proof (max_timestamp_spec (store_status session)) as Hmax. rewrite Hnow in Hmax.
  destruct Hmax as [Hall _]. apply elem_of_list_store_ids in Hs as (r & Hr & Hid); [|done].
  intros Heq. assert (r ∈ query_all_obs session s now) as Hin.
  { unfold query_all_obs. apply sorted_elem_of, list_elem_of_filter.
    rewrite Forall_forall in Hall. split; [split; [done|by apply Hall]|done]. }
  rewrite Heq in Hin. by apply elem_of_nil in Hin.
Qed.

Section Loop.
Variable F : float_ops.
Variable pytz_timezone : string → option tzinfo.
Variable all_timezones : list string.

(** The loop of [generate_report] appends the rows of the stores whose
    computation returns, in the order of the store list. *)
Lemma report_loop_spec (db : Session) (now : datetime)
    (task : string → outcome (MetricsResult (float F))) (ids : list string)
    (acc : list (row (float F))) :
  (∀ s, row_of task s = sequential_row F pytz_timezone all_timezones db now s) →
  foldl (report_step F pytz_timezone all_timezones db now) acc ids
  = acc ++ omap (row_of task) ids.
Proof.
  intros Htask. revert acc. induction ids as [|s ids IH]; intros acc; simpl.
  - by rewrite app_nil_r.
  - change (omap (row_of task) (s :: ids))
      with (match row_of task s with
            | Some y => y :: omap (row_of task) ids
            | None => omap (row_of task) ids
            end).
    rewrite IH, Htask. unfold report_step, sequential_row.
    destruct (metrics_for_store F pytz_timezone all_timezones db s now); simpl; [|done].
    by rewrite <- app_assoc.
Qed.

Lemma row_of_process_store (db : Session) (SessionLocal : string → outcome Session)
    (now : datetime) (s : string) :
  SessionLocal s = Returned db →
  row_of (λ store_id,
            process_store F pytz_timezone all_timezones SessionLocal store_id now) s
  = sequential_row F pytz_timezone all_timezones db now s.
Proof.
  intros Hs. unfold row_of, process_store, sequential_row. rewrite Hs.
  by destruct (metrics_for_store F pytz_timezone all_timezones db s now).
Qed.

(** The computation of a store seen as a task that returns or raises. *)
Lemma row_of_sequential_task (db : Session) (now : datetime) (s : string) :
  row_of (λ store_id,
            match metrics_for_store F pytz_timezone all_timezones db store_id now with
            | Some m => Returned m
            | None => Raised "metrics_for_store"
            end) s
  = sequential_row F pytz_timezone all_timezones db now s.
Proof.
  unfold row_of, sequential_row.
  by destruct (metrics_for_store F pytz_timezone all_timezones db s now).
Qed.
End Loop.

Lemma filter_update_report (report_id : string) (f : Report.t → Report.t)
    (reports : list Report.t) :
  (∀ r, Report.report_id (f r) = Report.report_id r) →
  filter (λ r, Report.report_id r = report_id) (update_report report_id f reports)
  = match filter (λ r, Report.report_id r = report_id) reports with
    | [] => []
    | r :: rest => f r :: rest
    end.
Proof.
  intros Hf. induction reports as [|r reports IH]; [done|]. simpl.
  case_bool_decide as Hid.
  - rewrite !filter_cons. rewrite decide_True by (by rewrite Hf). by rewrite decide_True.
  - rewrite !filter_cons. rewrite !decide_False by done. apply IH.
Qed.

Lemma filter_update_report_other (report_id other : string) (f : Report.t → Report.t)
    (reports : list Report.t) :
  (∀ r, Report.report_id (f r) = Report.report_id r) →
  other ≠ report_id →
  filter (λ r, Report.report_id r = other) (update_report report_id f reports)
  = filter (λ r, Report.report_id r = other) reports.
Proof.
  intros Hf Hne. induction reports as [|r reports IH]; [done|]. simpl.
  case_bool_decide as Hid.
  - rewrite !filter_cons. rewrite !decide_False; [done|congruence|rewrite Hf; congruence].
  - rewrite !filter_cons. by rewrite IH.
Qed.
End DatasetFacts.

Section ReportProperties.
Import DateTime TimeUtils Uptime ReportGenerator Py Spec Sample.

(** X17. [get_dataset_now] returns the latest timestamp of the table: no
    observation of any store is later, and some observation carries
    exactly that timestamp; it fails only on an empty table. *)
Theorem get_dataset_now_is_latest (session : Session) :
  match get_dataset_now session with
  | None => store_status session = []
  | Some now =>
      (∀ r, r ∈ store_status session → obs_time r ≤ now)
      ∧ ∃ r, r ∈ store_status session ∧ obs_time r = now
  end.
Proof.
  unfold get_dataset_now.
  pose proof (max_timestamp_spec (store_status session)) as H.
  destruct (max_timestamp (store_status session)); [|done].
  destruct H as [Hall Hex]. split; [|done]. by apply Forall_forall.
Qed.

(** X18. In a report run the list of store ids, in whatever order the
    [DISTINCT] query returns it, has no duplicate and holds exactly the
    stores that have an observation; and since [now] is the latest
    timestamp of the table, the query of [_status_segments] finds at
    least one observation for every listed store, so that no listed store
    gets the default timeline of a store without observations. *)
Theorem listed_stores_have_observations (distinct : list string → list string)
    (session : Session) (now : instant) :
  distinct_query distinct →
  get_dataset_now session = Some now →
  NoDup (list_store_ids distinct session)
  ∧ (∀ s, s ∈ list_store_ids distinct session
          ↔ ∃ r, r ∈ store_status session ∧ StoreStatus.store_id r = s)
  ∧ (∀ s, s ∈ list_store_ids distinct session → query_all_obs session s now ≠ []).
Proof.
  intros Hdistinct Hnow. split; [apply Hdistinct|]. split.
  - intros s. by apply elem_of_list_store_ids.
  - intros s. by apply listed_store_query_nonempty.
Qed.

Lemma listed_stores_have_observations_witness :
  NoDup (list_store_ids remove_dups session_three_stores)
  ∧ (∀ s, s ∈ list_store_ids remove_dups session_three_stores
          ↔ ∃ r, r ∈ store_status session_three_stores ∧ StoreStatus.store_id r = s)
  ∧ (∀ s, s ∈ list_store_ids remove_dups session_three_stores →
          query_all_obs session_three_stores s (combine may_6 (time_hm 12 0)) ≠ []).
Proof.
  apply listed_stores_have_observations.
  - apply remove_dups_distinct_query.
  - vm_compute. reflexivity.
Defined.

(** X19. The rows of the sequential [generate_report] follow the store
    list: they are the rows of the listed stores whose computation
    returns, in the order in which the [DISTINCT] query lists the stores,
    whatever that order is.  So a row is in the report exactly when its
    store has an observation and [metrics_for_store] returned its
    metrics, no store has two rows, and a store is skipped only when its
    computation raises. *)
Theorem generate_report_rows_follow_listing
    (F : float_ops) (pytz_timezone : string → option tzinfo) (all_timezones : list string)
    (distinct : list string → list string) (db : Session) (rows : list (row (float F))) :
  distinct_query distinct →
  generate_report F pytz_timezone all_timezones distinct db = Returned rows →
  ∃ now,
    get_dataset_now db = Some now
    ∧ rows = omap (sequential_row F pytz_timezone all_timezones db (aware_utc now))
               (list_store_ids distinct db)
    ∧ (∀ r, r ∈ rows ↔
            (∃ o, o ∈ store_status db ∧ StoreStatus.store_id o = row_store_id r)
            ∧ metrics_for_store F pytz_timezone all_timezones db (row_store_id r)
                (aware_utc now) = Some (row_metrics r))
    ∧ NoDup (row_store_id <$> rows)
    ∧ sublist (row_store_id <$> rows) (list_store_ids distinct db)
    ∧ (∀ s, s ∈ list_store_ids distinct db → s ∉ (row_store_id <$> rows) →
            metrics_for_store F pytz_timezone all_timezones db s (aware_utc now) = None).
Proof.
  intros Hdistinct. unfold generate_report.
  destruct (get_dataset_now db) as [now|]; [|done]. intros [= <-].
  exists now. split; [done|].
  set (task := λ store_id : string,
         match metrics_for_store F pytz_timezone all_timezones db store_id (aware_utc now)
         with
         | Some m => Returned m
         | None => Raised "metrics_for_store"
         end).
  pose proof (row_of_sequential_task F pytz_timezone all_timezones db (aware_utc now))
    as Htask. fold task in Htask.
  rewrite (report_loop_spec F pytz_timezone all_timezones db (aware_utc now) task _ []
             Htask). cbn [app].
  assert (omap (row_of task) (list_store_ids distinct db)
          = omap (sequential_row F pytz_timezone all_timezones db (aware_utc now))
              (list_store_ids distinct db)) as Hrows.
  { apply list_omap_ext, Forall2_same_length_lookup_2; [done|].
    intros i s s' Hs Hs'. rewrite Hs in Hs'. injection Hs' as <-. apply Htask. }
  split; [exact Hrows|]. split; [|split; [|split]].
  - intros r. rewrite elem_of_rows, (elem_of_list_store_ids distinct db) by done.
    unfold task.
    destruct (metrics_for_store F pytz_timezone all_timezones db (row_store_id r)
                (aware_utc now)) as [m|]; split; intros [Hobs Hm];
      (split; [exact Hobs|]); congruence.
  - rewrite rows_store_ids. apply NoDup_filter, Hdistinct.
  - rewrite rows_store_ids. apply sublist_filter.
  - intros s Hs Hnot. rewrite rows_store_ids in Hnot.
    destruct (metrics_for_store F pytz_timezone all_timezones db s (aware_utc now))
      as [m|] eqn:Hm; [exfalso|done].
    apply Hnot, list_elem_of_filter. split; [|done].
    rewrite Htask. unfold sequential_row. rewrite Hm. by eexists.
Qed.

Lemma generate_report_rows_follow_listing_witness :
  ∃ rows, generate_report binary64 pytz_cdt all_timezones remove_dups session_three_stores
          = Returned rows
          ∧ (row_store_id <$> rows) = ["a"; "b"; "c"]
          ∧ NoDup (row_store_id <$> rows).
Proof.
  eexists. split; [vm_compute; reflexivity|]. split; [reflexivity|].
  destruct (generate_report_rows_follow_listing binary64 pytz_cdt all_timezones
              remove_dups session_three_stores _ remove_dups_distinct_query eq_refl)
    as (now & _ & _ & _ & Hnd & _).
  exact Hnd.
Defined.

(** X20. The sequential and the parallel report agree: when every worker
    reads the same data as the main session, the rows of
    [generate_report_optimized] are the rows of [generate_report] sorted
    by store id, whatever the order in which the workers finish and
    whatever the orders in which the two runs list the stores. *)
Theorem parallel_report_is_sorted_sequential_report
    (F : float_ops) (pytz_timezone : string → option tzinfo) (all_timezones : list string)
    (distinct distinct' : list string → list string) (db : Session)
    (SessionLocal : string → outcome Session)
    (as_completed : list string → list string) (rows : list (row (float F))) :
  distinct_query distinct →
  distinct_query distinct' →
  (∀ s, SessionLocal s = Returned db) →
  Permutation (as_completed (list_store_ids distinct' db)) (list_store_ids distinct' db) →
  generate_report F pytz_timezone all_timezones distinct db = Returned rows →
  ∃ rep,
    generate_report_optimized_from F pytz_timezone all_timezones distinct' db
      SessionLocal as_completed
    = Returned rep
    ∧ results rep = sort_results rows.
Proof.
  intros Hdistinct Hdistinct' Hsame Hperm.
  unfold generate_report, generate_report_optimized_from.
  destruct (get_dataset_now db) as [now|]; [|done]. intros [= <-].
  unfold generate_report_optimized. eexists. split; [reflexivity|].
  rewrite run_batch_spec. cbn [results].
  rewrite (report_loop_spec F pytz_timezone all_timezones db (aware_utc now)
             (λ store_id, process_store F pytz_timezone all_timezones SessionLocal
                            store_id (aware_utc now))).
  - cbn [app]. apply sort_results_order. rewrite Hperm.
    apply NoDup_Permutation; [apply Hdistinct'|apply Hdistinct|].
    intros s. by rewrite !elem_of_list_store_ids.
  - intros s. by apply row_of_process_store.
Qed.

Lemma parallel_report_is_sorted_sequential_report_witness :
  ∃ rows rep,
    generate_report binary64 pytz_cdt all_timezones remove_dups session_three_stores
    = Returned rows
    ∧ generate_report_optimized_from binary64 pytz_cdt all_timezones
        (λ l, reverse (remove_dups l)) session_three_stores
        (λ _, Returned session_three_stores) reverse = Returned rep
    ∧ results rep = sort_results rows.
Proof.
  destruct (generate_report binary64 pytz_cdt all_timezones remove_dups
              session_three_stores) as [rows|msg] eqn:Hgen;
    [|vm_compute in Hgen; discriminate Hgen].
  destruct (parallel_report_is_sorted_sequential_report binary64 pytz_cdt all_timezones
              remove_dups (λ l, reverse (remove_dups l)) session_three_stores
              (λ _, Returned session_three_stores) reverse
              rows remove_dups_distinct_query) as (rep & Hrep & Hres).
  - intros l. split; [rewrite reverse_Permutation; apply NoDup_remove_dups|].
    intros x. by rewrite elem_of_reverse, elem_of_remove_dups.
  - done.
  - apply reverse_Permutation.
  - exact Hgen.
  - exists rows, rep. split; [reflexivity|]. split; [exact Hrep|exact Hres].
Defined.

(** X21. Status after a run.  For a report that is in the table, after the
    end of a successful run [get_report_status] answers "Complete" with
    the path of the file; after a failed run it answers "Failed: " followed
    by the message, and no path; in both cases the answers for all other
    report ids are as before. *)
Theorem report_status_after_run (reports : list Report.t) (report_id : string)
    (r : Report.t) :
  head (filter (λ r, Report.report_id r = report_id) reports) = Some r →
  (∀ file_path,
     get_report_status (mark_complete reports report_id file_path) report_id
     = Status "Complete" (Report.created_at r) (Some file_path))
  ∧ (∀ msg,
       get_report_status (mark_failed reports report_id msg) report_id
       = Status ("Failed: " ++ msg) (Report.created_at r) None)
  ∧ (∀ other file_path msg, other ≠ report_id →
       get_report_status (mark_complete reports report_id file_path) other
       = get_report_status reports other
       ∧ get_report_status (mark_failed reports report_id msg) other
         = get_report_status reports other).
Proof.
  intros Hhead.
  destruct (filter (λ r, Report.report_id r = report_id) reports) as [|r' rest] eqn:Hf;
    [done|]. injection Hhead as ->.
  split; [|split].
  - intros file_path. unfold get_report_status, mark_complete.
    rewrite filter_update_report, Hf by done. done.
  - intros msg. unfold get_report_status, mark_failed.
    rewrite filter_update_report, Hf by done. done.
  - intros other file_path msg Hne. unfold get_report_status, mark_complete, mark_failed.
    by rewrite !filter_update_report_other by done.
Qed.

Lemma report_status_after_run_witness :
  get_report_status (mark_complete one_running_report "r1" "reports/r1.csv") "r1"
  = Status "Complete" (Some (utc_at may_6 12 0)) (Some "reports/r1.csv").
Proof.
  apply (proj1 (report_status_after_run one_running_report "r1" _ eq_refl)).
Defined.
End ReportProperties.
